(** * Attendly time clock: the punch workflow of the Apps Script backend

    A shallow embedding of [google-apps-script.js] (module [Main]) and of its
    near-duplicate variant (module [Alt]), with the JavaScript and Apps Script
    primitives the two files call modelled first.

    Conventions of the model.
    - A JavaScript string is a [string] of code units below 256.
    - A JavaScript number is [NaN], an infinity or a binary64 value, held as
      the rational it denotes; the two zeros are one.  Reading a numeral and
      every arithmetic operation round to the nearest binary64 value, a tie
      going to the even significand.
    - An exception is an explicit [Throw msg]; [try]/[catch] is [try_catch].
    - A sheet is the list of its rows up to [getLastRow()], header first. *)

From Stdlib Require Import ZArith QArith Qround Qabs Qpower Lqa.
From Stdlib Require Import Ascii String List Bool Lia.
From stdpp Require Import base list strings.

Local Open Scope Z_scope.

(* ====================================================================== *)
(** ** JavaScript strings *)

Module JsString.

(** WhiteSpace and LineTerminator code units below 256: TAB, LF, VT, FF, CR,
    SP and NBSP. *)
Definition is_white (c : ascii) : bool :=
  let n := nat_of_ascii c in
  ((9 <=? n)%nat && (n <=? 13)%nat) || (n =? 32)%nat || (n =? 160)%nat.

Fixpoint trimStart (s : string) : string :=
  match s with
  | EmptyString => EmptyString
  | String c s' => if is_white c then trimStart s' else s
  end.

Fixpoint trimEnd (s : string) : string :=
  match s with
  | EmptyString => EmptyString
  | String c s' =>
      match trimEnd s' with
      | EmptyString => if is_white c then EmptyString else String c EmptyString
      | t => String c t
      end
  end.

(** [String.prototype.trim]. *)
Definition trim (s : string) : string := trimEnd (trimStart s).

(** [String.prototype.split] with a one-character separator: the result is
    never empty, and the empty string splits into one empty piece. *)
Fixpoint split (sep : ascii) (s : string) : list string :=
  match s with
  | EmptyString => [EmptyString]
  | String c s' =>
      if Ascii.eqb c sep then EmptyString :: split sep s'
      else match split sep s' with
           | h :: t => String c h :: t
           | [] => [String c EmptyString]
           end
  end.

(** [s.startsWith(sub)]. *)
Fixpoint startsWith (s sub : string) {struct sub} : bool :=
  match sub with
  | EmptyString => true
  | String c sub' =>
      match s with
      | EmptyString => false
      | String d s' => Ascii.eqb c d && startsWith s' sub'
      end
  end.

(** [s.includes(sub)]. *)
Fixpoint includes (s sub : string) : bool :=
  startsWith s sub ||
  match s with
  | EmptyString => false
  | String _ s' => includes s' sub
  end.

(** Truthiness of a string: every string but the empty one. *)
Definition truthy (s : string) : bool :=
  match s with EmptyString => false | _ => true end.

End JsString.

(* ====================================================================== *)
(** ** JavaScript numbers *)

Inductive JsNumber : Type :=
| NaN
| Inf (negative : bool)
| Fin (q : Q).

Module JsNumber.

(** *** binary64 *)

(** [2 ^ e], for an exponent of either sign. *)
Definition pow2 (e : Z) : Q := Qpower 2 e.

(** Round to the nearest integer, a tie going to the even one. *)
Definition round_half_even (q : Q) : Z :=
  let n := Qnum q in
  let d := Zpos (Qden q) in
  match 2 * (n mod d) ?= d with
  | Lt => n / d
  | Gt => n / d + 1
  | Eq => if Z.even (n / d) then n / d else n / d + 1
  end.

(** The binary exponent of a positive rational: the [e] with
    [2 ^ e <= a < 2 ^ (e + 1)]. *)
Definition binade (a : Q) : Z :=
  let k := Z.log2 (Qnum a) - Z.log2 (Zpos (Qden a)) in
  if Qle_bool (pow2 k) a then k else k - 1.

(** The Number value for a real: the binary64 value nearest to it, a tie
    going to the even significand.  A significand has 53 bits, the last bit
    has no exponent below -1074, and what rounds to [2 ^ 1024] or more is an
    infinity. *)
Definition binary64 (q : Q) : JsNumber :=
  let r := Qred q in
  if Qnum r =? 0 then Fin 0
  else
    let a := Qabs r in
    let p := Z.max (binade a - 52) (-1074) in
    let x := (inject_Z (round_half_even (a / pow2 p)) * pow2 p)%Q in
    if Qle_bool (pow2 1024) x then Inf (Qnum r <? 0)
    else Fin (Qred (if Qnum r <? 0 then Qopp x else x)).

(** An integer that binary64 holds exactly: a literal of the program, a
    time value, the result of a truncation. *)
Definition of_Z (z : Z) : JsNumber := Fin (z # 1).

(** The Number value for [n / 100]: what the numeral of a decimal with two
    places denotes. *)
Definition hundredths (n : Z) : JsNumber := binary64 (n # 100).

(** *** Arithmetic *)

(** [- x]. *)
Definition opp (x : JsNumber) : JsNumber :=
  match x with
  | NaN => NaN
  | Inf s => Inf (negb s)
  | Fin q => Fin (Qopp q)
  end.

(** [x + y]. *)
Definition add (x y : JsNumber) : JsNumber :=
  match x, y with
  | NaN, _ | _, NaN => NaN
  | Inf s, Inf s' => if Bool.eqb s s' then Inf s else NaN
  | Inf s, Fin _ | Fin _, Inf s => Inf s
  | Fin a, Fin b => binary64 (a + b)
  end.

(** [x - y]. *)
Definition sub (x y : JsNumber) : JsNumber := add x (opp y).

(** [x * y]. *)
Definition mul (x y : JsNumber) : JsNumber :=
  match x, y with
  | NaN, _ | _, NaN => NaN
  | Inf s, Inf s' => Inf (xorb s s')
  | Inf s, Fin q | Fin q, Inf s =>
      if Qnum q =? 0 then NaN else Inf (xorb s (Qnum q <? 0))
  | Fin a, Fin b => binary64 (a * b)
  end.

(** [x / y]; a zero divisor counts as [+0]. *)
Definition div (x y : JsNumber) : JsNumber :=
  match x, y with
  | NaN, _ | _, NaN => NaN
  | Inf _, Inf _ => NaN
  | Inf s, Fin q => Inf (xorb s (Qnum q <? 0))
  | Fin _, Inf _ => Fin 0
  | Fin a, Fin b =>
      if Qnum b =? 0
      then if Qnum a =? 0 then NaN else Inf (Qnum a <? 0)
      else binary64 (a / b)
  end.

(** [x < y]; any comparison with [NaN] is false. *)
Definition ltb (x y : JsNumber) : bool :=
  match x, y with
  | NaN, _ | _, NaN => false
  | Inf true, Inf true => false
  | Inf true, _ => true
  | _, Inf true => false
  | Inf false, _ => false
  | Fin _, Inf false => true
  | Fin a, Fin b => negb (Qle_bool b a)
  end.

(** Truthiness: every number but [NaN] and zero. *)
Definition truthy (x : JsNumber) : bool :=
  match x with
  | NaN => false
  | Inf _ => true
  | Fin q => negb (Qeq_bool q 0)
  end.

(** [x >= y]; any comparison with [NaN] is false. *)
Definition geb (x y : JsNumber) : bool :=
  match x, y with
  | NaN, _ | _, NaN => false
  | Inf false, _ => true
  | Inf true, Inf true => true
  | Inf true, _ => false
  | Fin _, Inf true => true
  | Fin _, Inf false => false
  | Fin a, Fin b => Qle_bool b a
  end.

(** *** [Number(s)] on a string: the StringNumericLiteral grammar *)

Definition digit_of (base : Z) (c : ascii) : option Z :=
  let n := Z.of_nat (nat_of_ascii c) in
  let v := if (48 <=? n) && (n <=? 57) then Some (n - 48)
           else if (97 <=? n) && (n <=? 102) then Some (n - 87)
           else if (65 <=? n) && (n <=? 70) then Some (n - 55)
           else None in
  match v with
  | Some d => if d <? base then Some d else None
  | None => None
  end.

(** The longest run of digits at the head of [s]: its value continuing
    [acc], the number of digits read, and what follows. *)
Fixpoint digits (base : Z) (s : string) (acc : Z) (count : nat)
  : Z * nat * string :=
  match s with
  | EmptyString => (acc, count, s)
  | String c s' =>
      match digit_of base c with
      | Some d => digits base s' (acc * base + d) (S count)
      | None => (acc, count, s)
      end
  end.

(** ExponentPart, when one is at the head of [s]; otherwise exponent 0 and
    [s] untouched. *)
Definition exponent (s : string) : Z * string :=
  match s with
  | String c s1 =>
      if Ascii.eqb c "e" || Ascii.eqb c "E" then
        let '(neg, s2) :=
          match s1 with
          | String "-" r => (true, r)
          | String "+" r => (false, r)
          | _ => (false, s1)
          end in
        match digits 10 s2 0 0%nat with
        | (_, O, _) => (0, s)
        | (e, _, rest) => (if neg then - e else e, rest)
        end
      else (0, s)
  | EmptyString => (0, s)
  end.

Definition scale (mant e : Z) : Q :=
  if 0 <=? e then (mant * 10 ^ e) # 1
  else Qred (mant # Z.to_pos (10 ^ (- e))).

(** The longest StrDecimalLiteral at the head of [s], with what follows;
    [None] when no prefix of [s] is one.  The value of the literal is
    rounded to binary64, correctly for any number of digits, as V8 does. *)
Definition decimal_prefix (s : string) : option (JsNumber * string) :=
  let '(neg, s1) :=
    match s with
    | String "-" r => (true, r)
    | String "+" r => (false, r)
    | _ => (false, s)
    end in
  if JsString.startsWith s1 "Infinity"
  then Some (Inf neg, String.substring 8 (String.length s1 - 8) s1)
  else
    let '(a, na, s2) := digits 10 s1 0 0%nat in
    let '(m, nf, s3) :=
      match s2 with
      | String "." r =>
          let '(m, nf, r') := digits 10 r a 0%nat in
          if ((na =? 0)%nat && (nf =? 0)%nat) then (a, 0%nat, s2)
          else (m, nf, r')
      | _ => (a, 0%nat, s2)
      end in
    match na, nf with
    | O, O => None
    | _, _ =>
        let '(e, s4) := exponent s3 in
        let q := scale m (e - Z.of_nat nf) in
        Some (binary64 (if neg then Qopp q else q), s4)
    end.

(** NonDecimalIntegerLiteral: [0x], [0o] or [0b] and at least one digit. *)
Definition non_decimal (s : string) : option JsNumber :=
  match s with
  | String "0" (String p r) =>
      let base :=
        if Ascii.eqb p "x" || Ascii.eqb p "X" then Some 16
        else if Ascii.eqb p "o" || Ascii.eqb p "O" then Some 8
        else if Ascii.eqb p "b" || Ascii.eqb p "B" then Some 2
        else None in
      match base with
      | Some b =>
          match digits b r 0 0%nat with
          | (v, S _, EmptyString) => Some (binary64 (inject_Z v))
          | _ => None
          end
      | None => None
      end
  | _ => None
  end.

(** [Number(s)]. *)
Definition of_string (s : string) : JsNumber :=
  let t := JsString.trim s in
  match t with
  | EmptyString => of_Z 0
  | _ =>
      match non_decimal t with
      | Some v => v
      | None =>
          match decimal_prefix t with
          | Some (v, EmptyString) => v
          | _ => NaN
          end
      end
  end.

(** [parseFloat(s)]: the longest numeric prefix after leading white space. *)
Definition parseFloat (s : string) : JsNumber :=
  match decimal_prefix (JsString.trimStart s) with
  | Some (v, _) => v
  | None => NaN
  end.

(** *** Printing *)

Definition digit_char (d : Z) : ascii := ascii_of_nat (Z.to_nat (48 + d)).

Fixpoint decimal_digits (fuel : nat) (n : Z) (acc : string) : string :=
  match fuel with
  | O => acc
  | S fuel' =>
      let acc' := String (digit_char (n mod 10)) acc in
      if n <? 10 then acc' else decimal_digits fuel' (n / 10) acc'
  end.

(** The decimal numeral of a natural number. *)
Definition nat_numeral (n : Z) : string :=
  decimal_digits (S (Z.to_nat (Z.log2 n))) n EmptyString.

(** Round to the nearest integer, a tie going to the larger one (the
    argument is never negative where this is used). *)
Definition round_half_up (q : Q) : Z :=
  (2 * Qnum q + Zpos (Qden q)) / (2 * Zpos (Qden q)).

(** [x.toFixed(2)] for [|x| < 1e21]: the digits of the integer [n] for which
    [n / 100] is nearest to the exact value of [x], the larger one on a
    tie. *)
Definition toFixed2 (x : JsNumber) : string :=
  match x with
  | NaN => "NaN"
  | Inf false => "Infinity"
  | Inf true => "-Infinity"
  | Fin q =>
      let neg := Qlt_le_dec q 0 in
      let a := if neg then Qopp q else q in
      let n := round_half_up (a * 100) in
      let body :=
        nat_numeral (n / 100) +:+ "." +:+
        String (digit_char ((n / 10) mod 10))
               (String (digit_char (n mod 10)) EmptyString) in
      if neg then "-" +:+ body else body
  end.

End JsNumber.

(* ====================================================================== *)
(** ** Values, exceptions and the services of the platform *)

(** A JavaScript value as [JSON.parse] or a request can deliver it. *)
#[warnings="-register-all"]
Inductive Value : Type :=
| VUndefined
| VNull
| VBool (b : bool)
| VNum (x : JsNumber)
| VStr (s : string)
| VArr (items : list Value)
| VObj (fields : list (string * Value)).

(** The outcome of code that can throw; [message] is [error.message]. *)
Inductive result (A : Type) : Type :=
| Ok (a : A)
| Throw (message : string).
Arguments Ok {A} a.
Arguments Throw {A} message.

Definition bind {A B : Type} (r : result A) (k : A -> result B) : result B :=
  match r with
  | Ok a => k a
  | Throw m => Throw m
  end.

Notation "x <- r ;; k" := (bind r (fun x => k))
  (at level 100, r at next level, right associativity).

(** [try { body } catch (error) { handler(error.message) }]. *)
Definition try_catch {A : Type} (body : result A) (handler : string -> A) : A :=
  match body with
  | Ok a => a
  | Throw m => handler m
  end.

Module JsValue.

Definition truthy (v : Value) : bool :=
  match v with
  | VUndefined | VNull => false
  | VBool b => b
  | VNum x => JsNumber.truthy x
  | VStr s => JsString.truthy s
  | VArr _ | VObj _ => true
  end.

(** [v === "lit"]. *)
Definition is_string (v : Value) (lit : string) : bool :=
  match v with
  | VStr s => String.eqb s lit
  | _ => false
  end.

Fixpoint assoc (k : string) (fields : list (string * Value)) : Value :=
  match fields with
  | [] => VUndefined
  | (k', v) :: rest => if String.eqb k k' then v else assoc k rest
  end.

(** [v.k] for a property name [k] that no built-in prototype defines:
    a TypeError on [undefined] and [null], the own property of an object,
    [undefined] on everything else. *)
Definition get (v : Value) (k : string) : result Value :=
  match v with
  | VUndefined =>
      Throw ("Cannot read properties of undefined (reading '" +:+ k +:+ "')")
  | VNull =>
      Throw ("Cannot read properties of null (reading '" +:+ k +:+ "')")
  | VObj fields => Ok (assoc k fields)
  | _ => Ok VUndefined
  end.

(** [v.method(...)] where [method] exists on strings only: the string
    itself for a string, a TypeError for any other value. *)
Definition as_string_receiver (v : Value) (method : string) : result string :=
  match v with
  | VStr s => Ok s
  | VUndefined =>
      Throw ("Cannot read properties of undefined (reading '"
             +:+ method +:+ "')")
  | VNull =>
      Throw ("Cannot read properties of null (reading '" +:+ method +:+ "')")
  | _ => Throw (method +:+ " is not a function")
  end.

(** [v.trim()]. *)
Definition trim (v : Value) : result string :=
  s <- as_string_receiver v "trim" ;; Ok (JsString.trim s).

(** [v.split(':')]. *)
Definition split (v : Value) (sep : ascii) : result (list string) :=
  s <- as_string_receiver v "split" ;; Ok (JsString.split sep s).

End JsValue.

(** What Apps Script supplies and the repository does not define.  A [Date]
    is its time value, milliseconds since the epoch in UTC. *)
Class Platform : Type := {
  (** [Utilities.formatDate(date, timeZone, format)] *)
  Utilities_formatDate : Z -> string -> string -> string;
  (** [Date.prototype.toString] *)
  Date_toString : Z -> string;
  (** [Number.prototype.toString] *)
  Number_toString : JsNumber -> string;
  (** [LocalTZA(t, isUTC)]: the offset of the script's time zone from UTC,
      in milliseconds, at the instant [t] when [isUTC] holds and at the
      local time [t] otherwise *)
  LocalTZA : Z -> bool -> Z;
  (** [JSON.parse] *)
  JSON_parse : Value -> result Value;
}.

(* ====================================================================== *)
(** ** JavaScript dates *)

Module JsDate.

(** A [Date] object: its time value, [NaN] for an invalid date. *)
Definition t : Type := JsNumber.

Definition msPerDay : Z := 86400000.
Definition msPerHour : Z := 3600000.
Definition msPerMinute : Z := 60000.
Definition msPerSecond : Z := 1000.

(** [Day(t)], the floor of [t / msPerDay]. *)
Definition Day (tv : Q) : Z := Qfloor (tv / inject_Z msPerDay).

(** [TimeWithinDay(t)], [t] modulo [msPerDay]. *)
Definition TimeWithinDay (tv : Q) : Q := tv - inject_Z (Day tv * msPerDay).

(** ToIntegerOrInfinity on a finite number: truncation toward zero. *)
Definition truncate (q : Q) : Z := Z.quot (Qnum q) (Zpos (Qden q)).

(** [MakeTime(hour, min, sec, ms)], in Number arithmetic. *)
Definition MakeTime (hour min sec ms : JsNumber) : JsNumber :=
  match hour, min, sec, ms with
  | Fin h, Fin m, Fin s, Fin milli =>
      let h := JsNumber.of_Z (truncate h) in
      let m := JsNumber.of_Z (truncate m) in
      let s := JsNumber.of_Z (truncate s) in
      let milli := JsNumber.of_Z (truncate milli) in
      JsNumber.add
        (JsNumber.add
           (JsNumber.add (JsNumber.mul h (JsNumber.of_Z msPerHour))
                         (JsNumber.mul m (JsNumber.of_Z msPerMinute)))
           (JsNumber.mul s (JsNumber.of_Z msPerSecond)))
        milli
  | _, _, _, _ => NaN
  end.

(** [MakeDate(day, time)]. *)
Definition MakeDate (day time : JsNumber) : JsNumber :=
  match day, time with
  | Fin _, Fin _ =>
      match JsNumber.add (JsNumber.mul day (JsNumber.of_Z msPerDay)) time with
      | Fin tv => Fin tv
      | _ => NaN
      end
  | _, _ => NaN
  end.

(** [TimeClip(time)]. *)
Definition TimeClip (time : JsNumber) : t :=
  match time with
  | Fin q =>
      if Qle_bool (Qabs q) (inject_Z 8640000000000000)
      then JsNumber.of_Z (truncate q)
      else NaN
  | _ => NaN
  end.

Section Local.
Context `{Platform}.

(** [LocalTime(t)] of a time value. *)
Definition LocalTime (tv : Q) : JsNumber :=
  JsNumber.add (Fin tv) (JsNumber.of_Z (LocalTZA (Qfloor tv) true)).

(** [UTC(t)] of a local time. *)
Definition UTC (lt : JsNumber) : JsNumber :=
  match lt with
  | Fin q => JsNumber.sub lt (JsNumber.of_Z (LocalTZA (Qfloor q) false))
  | _ => NaN
  end.

(** [d.setHours(hour, min, 0, 0)], the new state of [d]. *)
Definition setHours (d : t) (hour min : JsNumber) : t :=
  match d with
  | Fin tv =>
      match LocalTime tv with
      | Fin lt =>
          TimeClip
            (UTC (MakeDate (JsNumber.of_Z (Day lt))
                           (MakeTime hour min (JsNumber.of_Z 0)
                                     (JsNumber.of_Z 0))))
      | _ => NaN
      end
  | _ => NaN
  end.

(** [d.setDate(d.getDate() + 1)].  [getDate()] is the day of the month of
    the local time, and [MakeDay] of its year, its month and that day plus
    one is the day after [Day] of the local time, in whatever month it
    falls; the calendar is not modelled further. *)
Definition setDate_next (d : t) : t :=
  match d with
  | Fin tv =>
      match LocalTime tv with
      | Fin lt =>
          TimeClip
            (UTC (MakeDate (JsNumber.of_Z (Day lt + 1))
                           (Fin (TimeWithinDay lt))))
      | _ => NaN
      end
  | _ => NaN
  end.
End Local.

(** [a < b] on dates: their time values compared. *)
Definition lt (a b : t) : bool := JsNumber.ltb a b.

(** [a - b] on dates. *)
Definition sub (a b : t) : JsNumber := JsNumber.sub a b.

End JsDate.

(* ====================================================================== *)
(** ** The two sheets *)

(** What [getValues()] returns for a cell; an empty cell reads as the empty
    string.  A cell keeps the value written to it. *)
Inductive Cell : Type :=
| CStr (s : string)
| CNum (x : JsNumber)
| CBool (b : bool)
| CDate (tv : Z).

Module JsCell.

Definition truthy (c : Cell) : bool :=
  match c with
  | CStr s => JsString.truthy s
  | CNum x => JsNumber.truthy x
  | CBool b => b
  | CDate _ => true
  end.

(** [c.toString()]. *)
Definition toString `{Platform} (c : Cell) : string :=
  match c with
  | CStr s => s
  | CNum x => Number_toString x
  | CBool true => "true"
  | CBool false => "false"
  | CDate tv => Date_toString tv
  end.

End JsCell.

(** A row of "Employee Database": columns 1 and 2. *)
Record EmployeeRow : Type := {
  emp_name : Cell;
  emp_dob : Cell;
}.

(** A row of "Attendance Log": columns 1 to 6. *)
Record AttendanceRow : Type := {
  att_name : Cell;
  att_date : Cell;
  att_punchIn : Cell;
  att_punchOut : Cell;
  att_totalHours : Cell;
  att_status : Cell;
}.

(** The spreadsheet: [getSheetByName] gives [null] for a missing tab. *)
Record Spreadsheet : Type := {
  employeeSheet : option (list EmployeeRow);
  attendanceSheet : option (list AttendanceRow);
}.

(** What [SpreadsheetApp.openById(SPREADSHEET_ID)] finds. *)
Inductive Store : Type :=
| Unreachable (message : string)
| Reachable (spreadsheet : Spreadsheet).

Module Sheet.

Definition openById (store : Store) : result Spreadsheet :=
  match store with
  | Unreachable m => Throw m
  | Reachable ss => Ok ss
  end.

(** [sheet.getLastRow()]. *)
Definition getLastRow {R : Type} (sheet : list R) : Z :=
  Z.of_nat (length sheet).

(** [sheet.getRange(2, 1, numRows, _).getValues()]: the rows from row 2 on;
    a range of fewer than one row is an error.  The code always asks for
    [getLastRow() - 1] rows, which is all of them. *)
Definition getValuesFromRow2 {R : Type} (sheet : list R) (numRows : Z)
  : result (list R) :=
  if numRows <? 1
  then Throw "The number of rows in the range must be at least 1."
  else Ok (take (Z.to_nat numRows) (drop 1 sheet)).

(** [sheet.appendRow(row)]. *)
Definition appendRow {R : Type} (sheet : list R) (row : R) : list R :=
  sheet ++ [row].

(** The cell of column [col] replaced; the code writes columns 4 to 6. *)
Definition set_column (col : nat) (v : Cell) (r : AttendanceRow)
  : AttendanceRow :=
  match col with
  | 1%nat => {| att_name := v; att_date := att_date r;
                att_punchIn := att_punchIn r; att_punchOut := att_punchOut r;
                att_totalHours := att_totalHours r;
                att_status := att_status r |}
  | 2%nat => {| att_name := att_name r; att_date := v;
                att_punchIn := att_punchIn r; att_punchOut := att_punchOut r;
                att_totalHours := att_totalHours r;
                att_status := att_status r |}
  | 3%nat => {| att_name := att_name r; att_date := att_date r;
                att_punchIn := v; att_punchOut := att_punchOut r;
                att_totalHours := att_totalHours r;
                att_status := att_status r |}
  | 4%nat => {| att_name := att_name r; att_date := att_date r;
                att_punchIn := att_punchIn r; att_punchOut := v;
                att_totalHours := att_totalHours r;
                att_status := att_status r |}
  | 5%nat => {| att_name := att_name r; att_date := att_date r;
                att_punchIn := att_punchIn r; att_punchOut := att_punchOut r;
                att_totalHours := v; att_status := att_status r |}
  | 6%nat => {| att_name := att_name r; att_date := att_date r;
                att_punchIn := att_punchIn r; att_punchOut := att_punchOut r;
                att_totalHours := att_totalHours r; att_status := v |}
  | _ => r
  end.

(** [sheet.getRange(row, col).setValue(v)] on an existing row; rows are
    numbered from 1. *)
Definition setValue (sheet : list AttendanceRow) (row col : nat) (v : Cell)
  : list AttendanceRow :=
  alter (set_column col v) (row - 1)%nat sheet.

End Sheet.

(** The [response] object that [createJsonResponse] serialises. *)
Record Response : Type := {
  success : bool;
  message : string;
  employees : option (list Cell);
  data : option Value;
}.

(** What [findTodayRecord] returns. *)
Record TodayRecord : Type := {
  row : nat;
  punchInTime : string;
  punchOutTime : string;
}.

(** The double-quote character, for messages that quote a sheet name. *)
Definition dquote : string := String (ascii_of_nat 34) EmptyString.

(* ====================================================================== *)
(** ** [google-apps-script.js] *)

Module Main.

Definition EMPLOYEE_SHEET_NAME : string := "Employee Database".
Definition ATTENDANCE_SHEET_NAME : string := "Attendance Log".
Definition TIMEZONE : string := "GMT+0".
Definition STANDARD_WORK_HOURS : JsNumber := JsNumber.of_Z 8.

(** The third argument of [createJsonResponse] when it is not [null]. *)
Inductive Payload : Type :=
| PArray (items : list Cell)
| POther (v : Value).

Definition createJsonResponse
  (success : bool) (message : string) (data : option Payload) : Response :=
  match data with
  | None =>
      {| success := success; message := message;
         employees := None; data := None |}
  | Some (PArray items) =>
      {| success := success; message := message;
         employees := Some items; data := None |}
  | Some (POther v) =>
      {| success := success; message := message;
         employees := None; data := Some v |}
  end.

Section WithPlatform.
Context `{Platform}.

(** [const [a, b] = list]: an element, or [undefined], which [setHours]
    turns into [NaN]. *)
Definition element (l : list JsNumber) (i : nat) : JsNumber :=
  default NaN (l !! i).

(** [now] is what [new Date()] reads; both reads of one call give it. *)
Definition calculateWorkingHours
  (now : Z) (punchInTime punchOutTime : Value) : JsNumber :=
  try_catch
    (inParts <- JsValue.split punchInTime ":" ;;
     let inNums := map JsNumber.of_string inParts in
     let inHour := element inNums 0 in
     let inMinute := element inNums 1 in
     outParts <- JsValue.split punchOutTime ":" ;;
     let outNums := map JsNumber.of_string outParts in
     let outHour := element outNums 0 in
     let outMinute := element outNums 1 in
     let punchIn := JsDate.setHours (JsNumber.of_Z now) inHour inMinute in
     let punchOut := JsDate.setHours (JsNumber.of_Z now) outHour outMinute in
     let punchOut :=
       if JsDate.lt punchOut punchIn then JsDate.setDate_next punchOut
       else punchOut in
     let diffMs := JsDate.sub punchOut punchIn in
     let diffHours :=
       JsNumber.div diffMs (JsNumber.of_Z (1000 * 60 * 60)) in
     Ok (JsNumber.parseFloat (JsNumber.toFixed2 diffHours)))
    (fun _ => JsNumber.of_Z 0).

(** [(date instanceof Date) ? Utilities.formatDate(..) : date.toString()]. *)
Definition dateString (date : Cell) : string :=
  match date with
  | CDate tv => Utilities_formatDate tv TIMEZONE "yyyy-MM-dd"
  | _ => JsCell.toString date
  end.

(** [c ? c.toString() : ''].  *)
Definition cell_text (c : Cell) : string :=
  if JsCell.truthy c then JsCell.toString c else EmptyString.

Definition matches (r : AttendanceRow) (employeeName currentDate : string)
  : bool :=
  String.eqb (JsString.trim (JsCell.toString (att_name r)))
             (JsString.trim employeeName)
  && String.eqb (dateString (att_date r)) currentDate.

(** The loop [for (let i = data.length - 1; i >= 0; i--)], entered with
    [n = i + 1]; an index below [data.length] always holds a row. *)
Fixpoint findTodayRecord_loop
  (data : list AttendanceRow) (employeeName currentDate : string) (n : nat)
  : option TodayRecord :=
  match n with
  | O => None
  | S i =>
      match data !! i with
      | Some r =>
          if matches r employeeName currentDate
          then Some {| row := i + 2;
                       punchInTime := cell_text (att_punchIn r);
                       punchOutTime := cell_text (att_punchOut r) |}
          else findTodayRecord_loop data employeeName currentDate i
      | None => findTodayRecord_loop data employeeName currentDate i
      end
  end.

Definition findTodayRecord
  (attendanceSheet : list AttendanceRow) (employeeName currentDate : string)
  : result (option TodayRecord) :=
  let lastRow := Sheet.getLastRow attendanceSheet in
  if lastRow <? 2 then Ok None
  else
    data <- Sheet.getValuesFromRow2 attendanceSheet (lastRow - 1) ;;
    Ok (findTodayRecord_loop data employeeName currentDate (length data)).

Definition processPunchIn
  (attendanceSheet : list AttendanceRow)
  (employeeName currentDate currentTime : string)
  : result (Response * list AttendanceRow) :=
  existingRecord <-
    findTodayRecord attendanceSheet employeeName currentDate ;;
  let append :=
    let sheet' :=
      Sheet.appendRow attendanceSheet
        {| att_name := CStr employeeName; att_date := CStr currentDate;
           att_punchIn := CStr currentTime;
           att_punchOut := CStr EmptyString;
           att_totalHours := CStr EmptyString;
           att_status := CStr "In Progress" |} in
    Ok (createJsonResponse true
          ("Punch-in successful at " +:+ currentTime +:+ ".") None,
        sheet') in
  match existingRecord with
  | Some rec =>
      if JsString.truthy (punchInTime rec)
      then Ok (createJsonResponse false
                 ("You already punched in today at "
                  +:+ punchInTime rec +:+ ".") None,
               attendanceSheet)
      else append
  | None => append
  end.

Definition processPunchOut
  (now : Z) (attendanceSheet : list AttendanceRow)
  (employeeName currentDate currentTime : string)
  : result (Response * list AttendanceRow) :=
  existingRecord <-
    findTodayRecord attendanceSheet employeeName currentDate ;;
  let missing :=
    Ok (createJsonResponse false
          "No punch-in record found for today. Please punch in first." None,
        attendanceSheet) in
  match existingRecord with
  | None => missing
  | Some rec =>
      if negb (JsString.truthy (punchInTime rec)) then missing
      else if JsString.truthy (punchOutTime rec)
      then Ok (createJsonResponse false
                 ("You already punched out today at "
                  +:+ punchOutTime rec +:+ ".") None,
               attendanceSheet)
      else
        let totalHours :=
          calculateWorkingHours now (VStr (punchInTime rec))
                                (VStr currentTime) in
        let status :=
          if JsNumber.geb totalHours STANDARD_WORK_HOURS
          then "On Time" else "Less Hours" in
        let sheet1 :=
          Sheet.setValue attendanceSheet (row rec) 4 (CStr currentTime) in
        let sheet2 := Sheet.setValue sheet1 (row rec) 5 (CNum totalHours) in
        let sheet3 := Sheet.setValue sheet2 (row rec) 6 (CStr status) in
        Ok (createJsonResponse true
              ("Punch-out successful at " +:+ currentTime
               +:+ ". Total hours: " +:+ JsNumber.toFixed2 totalHours
               +:+ " (" +:+ status +:+ ")") None,
            sheet3)
  end.

(** The loop [for (const row of employeeData)] of [validateEmployee]. *)
Fixpoint validateEmployee_loop
  (employeeData : list EmployeeRow) (employeeName dateOfBirth : Value)
  : result bool :=
  match employeeData with
  | [] => Ok false
  | r :: rest =>
      let name := emp_name r in
      let dob := emp_dob r in
      if JsCell.truthy name then
        wanted <- JsValue.trim employeeName ;;
        if String.eqb (JsString.trim (JsCell.toString name)) wanted then
          let dobString :=
            match dob with
            | CDate tv => Utilities_formatDate tv TIMEZONE "yyyy-MM-dd"
            | _ => JsString.trim (JsCell.toString dob)
            end in
          given <- JsValue.trim dateOfBirth ;;
          Ok (String.eqb dobString given)
        else validateEmployee_loop rest employeeName dateOfBirth
      else validateEmployee_loop rest employeeName dateOfBirth
  end.

Definition validateEmployee
  (store : Store) (employeeName dateOfBirth : Value) : bool :=
  try_catch
    (spreadsheet <- Sheet.openById store ;;
     match employeeSheet spreadsheet with
     | None => Ok false
     | Some sheet =>
         employeeData <-
           Sheet.getValuesFromRow2 sheet (Sheet.getLastRow sheet - 1) ;;
         validateEmployee_loop employeeData employeeName dateOfBirth
     end)
    (fun _ => false).

(** [processPunch].  Past the [validateEmployee] gate the name is a
    string ([validateEmployee] answers [true] only after calling
    [employeeName.trim()], see [validated_fields_are_texts]), so that reading
    it as one never throws here. *)
Definition processPunch
  (store : Store) (now : Z) (employeeName dateOfBirth punchType : Value)
  : Response * Store :=
  try_catch
    (if negb (JsValue.truthy employeeName)
        || negb (JsValue.truthy dateOfBirth)
        || negb (JsValue.truthy punchType)
     then Ok (createJsonResponse false "Missing required parameters." None,
              store)
     else if negb (JsValue.is_string punchType "in")
             && negb (JsValue.is_string punchType "out")
     then Ok (createJsonResponse false "Invalid punch type." None, store)
     else if negb (validateEmployee store employeeName dateOfBirth)
     then Ok (createJsonResponse false
                "Employee not found or date of birth is incorrect." None,
              store)
     else
       spreadsheet <- Sheet.openById store ;;
       match attendanceSheet spreadsheet with
       | None =>
           Throw ("Sheet " +:+ dquote +:+ ATTENDANCE_SHEET_NAME
                  +:+ dquote +:+ " not found.")
       | Some sheet =>
           let currentDate :=
             Utilities_formatDate now TIMEZONE "yyyy-MM-dd" in
           let currentTime := Utilities_formatDate now TIMEZONE "HH:mm" in
           name <- JsValue.as_string_receiver employeeName "trim" ;;
           outcome <-
             (if JsValue.is_string punchType "in"
              then processPunchIn sheet name currentDate currentTime
              else processPunchOut now sheet name currentDate currentTime) ;;
           Ok (fst outcome,
               Reachable
                 {| employeeSheet := employeeSheet spreadsheet;
                    attendanceSheet := Some (snd outcome) |})
       end)
    (fun m =>
       (createJsonResponse false ("Error processing punch: " +:+ m) None,
        store)).

Definition getEmployees (store : Store) : Response :=
  try_catch
    (spreadsheet <- Sheet.openById store ;;
     match employeeSheet spreadsheet with
     | None =>
         Throw ("Sheet " +:+ dquote +:+ EMPLOYEE_SHEET_NAME
                +:+ dquote +:+ " not found.")
     | Some sheet =>
         let lastRow := Sheet.getLastRow sheet in
         if lastRow <=? 1
         then Ok (createJsonResponse true "No employees found."
                    (Some (PArray [])))
         else
           employeeData <- Sheet.getValuesFromRow2 sheet (lastRow - 1) ;;
           let employees :=
             List.filter
               (fun name =>
                  JsCell.truthy name
                  && negb (String.eqb
                             (JsString.trim (JsCell.toString name))
                             EmptyString))
               (map emp_name employeeData) in
           Ok (createJsonResponse true "Employees retrieved successfully."
                 (Some (PArray employees)))
     end)
    (fun m =>
       createJsonResponse false ("Error retrieving employees: " +:+ m) None).

Definition doGet (store : Store) (e : Value) : Response :=
  try_catch
    (parameter <- JsValue.get e "parameter" ;;
     action <- JsValue.get parameter "action" ;;
     if JsValue.is_string action "getEmployees"
     then Ok (getEmployees store)
     else Ok (createJsonResponse false "Unrecognized action" None))
    (fun m => createJsonResponse false ("Server error: " +:+ m) None).

Definition doPost (store : Store) (now : Z) (e : Value)
  : Response * Store :=
  try_catch
    (postData <- JsValue.get e "postData" ;;
     contents <- JsValue.get postData "contents" ;;
     data <- JSON_parse contents ;;
     action <- JsValue.get data "action" ;;
     if JsValue.is_string action "punch"
     then
       employeeName <- JsValue.get data "employeeName" ;;
       dateOfBirth <- JsValue.get data "dateOfBirth" ;;
       punchType <- JsValue.get data "punchType" ;;
       Ok (processPunch store now employeeName dateOfBirth punchType)
     else Ok (createJsonResponse false "Unrecognized action" None, store))
    (fun m =>
       (createJsonResponse false ("Server error: " +:+ m) None, store)).

End WithPlatform.

End Main.

(* ====================================================================== *)
(** ** The second copy of the backend (the variant configured for Poland) *)

Module Alt.

Definition EMPLOYEE_SHEET_NAME : string := "Employee Database".
Definition ATTENDANCE_SHEET_NAME : string := "Attendance Log".
Definition TIMEZONE : string := "Europe/Warsaw".

(** [createResponse]: whatever data is passed goes under [employees]; the
    file passes arrays only. *)
Definition createResponse
  (success : bool) (message : string) (data : option (list Cell))
  : Response :=
  {| success := success; message := message;
     employees := data; data := None |}.

Section WithPlatform.
Context `{Platform}.

Definition element (l : list JsNumber) (i : nat) : JsNumber :=
  default NaN (l !! i).

Definition calculateWorkingHours
  (now : Z) (punchInTime punchOutTime : Value) : JsNumber :=
  try_catch
    (inParts <- JsValue.split punchInTime ":" ;;
     let inNums := map JsNumber.of_string inParts in
     let inHour := element inNums 0 in
     let inMinute := element inNums 1 in
     outParts <- JsValue.split punchOutTime ":" ;;
     let outNums := map JsNumber.of_string outParts in
     let outHour := element outNums 0 in
     let outMinute := element outNums 1 in
     let punchInDate := JsDate.setHours (JsNumber.of_Z now) inHour inMinute in
     let punchOutDate :=
       JsDate.setHours (JsNumber.of_Z now) outHour outMinute in
     let punchOutDate :=
       if JsDate.lt punchOutDate punchInDate
       then JsDate.setDate_next punchOutDate
       else punchOutDate in
     let diffMs := JsDate.sub punchOutDate punchInDate in
     let diffHours :=
       JsNumber.div diffMs (JsNumber.of_Z (1000 * 60 * 60)) in
     Ok (JsNumber.parseFloat (JsNumber.toFixed2 diffHours)))
    (fun _ => JsNumber.of_Z 0).

(** [(date instanceof Date) ? Utilities.formatDate(..)
                            : date.toString().trim()]. *)
Definition dateString (date : Cell) : string :=
  match date with
  | CDate tv => Utilities_formatDate tv TIMEZONE "yyyy-MM-dd"
  | _ => JsString.trim (JsCell.toString date)
  end.

Definition cell_text (c : Cell) : string :=
  if JsCell.truthy c then JsCell.toString c else EmptyString.

Definition matches (r : AttendanceRow) (employeeName currentDate : string)
  : bool :=
  String.eqb (JsString.trim (JsCell.toString (att_name r)))
             (JsString.trim employeeName)
  && String.eqb (dateString (att_date r)) currentDate.

Fixpoint findTodayRecord_loop
  (attendanceData : list AttendanceRow)
  (employeeName currentDate : string) (n : nat) : option TodayRecord :=
  match n with
  | O => None
  | S i =>
      match attendanceData !! i with
      | Some r =>
          if matches r employeeName currentDate
          then Some {| row := i + 2;
                       punchInTime := cell_text (att_punchIn r);
                       punchOutTime := cell_text (att_punchOut r) |}
          else findTodayRecord_loop attendanceData employeeName
                 currentDate i
      | None =>
          findTodayRecord_loop attendanceData employeeName currentDate i
      end
  end.

Definition findTodayRecord
  (attendanceSheet : list AttendanceRow) (employeeName currentDate : string)
  : result (option TodayRecord) :=
  let lastRow := Sheet.getLastRow attendanceSheet in
  if lastRow <=? 1 then Ok None
  else
    attendanceData <-
      Sheet.getValuesFromRow2 attendanceSheet (lastRow - 1) ;;
    Ok (findTodayRecord_loop attendanceData employeeName currentDate
          (length attendanceData)).

Definition processPunchIn
  (attendanceSheet : list AttendanceRow)
  (employeeName currentDate currentTime : string)
  : result (Response * list AttendanceRow) :=
  existingRecord <-
    findTodayRecord attendanceSheet employeeName currentDate ;;
  let append :=
    let sheet' :=
      Sheet.appendRow attendanceSheet
        {| att_name := CStr employeeName; att_date := CStr currentDate;
           att_punchIn := CStr currentTime;
           att_punchOut := CStr EmptyString;
           att_totalHours := CStr EmptyString;
           att_status := CStr "In Progress" |} in
    Ok (createResponse true
          ("Punch-in recorded successfully at " +:+ currentTime +:+ ".")
          None,
        sheet') in
  match existingRecord with
  | Some rec =>
      if JsString.truthy (punchInTime rec)
      then Ok (createResponse false
                 ("You have already punched in today at "
                  +:+ punchInTime rec +:+ ".") None,
               attendanceSheet)
      else append
  | None => append
  end.

Definition processPunchOut
  (now : Z) (attendanceSheet : list AttendanceRow)
  (employeeName currentDate currentTime : string)
  : result (Response * list AttendanceRow) :=
  existingRecord <-
    findTodayRecord attendanceSheet employeeName currentDate ;;
  let missing :=
    Ok (createResponse false
          "No punch-in record found for today. Please punch in first." None,
        attendanceSheet) in
  match existingRecord with
  | None => missing
  | Some rec =>
      if negb (JsString.truthy (punchInTime rec)) then missing
      else if JsString.truthy (punchOutTime rec)
      then Ok (createResponse false
                 ("You have already punched out today at "
                  +:+ punchOutTime rec +:+ ".") None,
               attendanceSheet)
      else
        let totalHours :=
          calculateWorkingHours now (VStr (punchInTime rec))
                                (VStr currentTime) in
        let status :=
          if JsNumber.geb totalHours (JsNumber.of_Z 8)
          then "On Time" else "Less Hours" in
        let sheet1 :=
          Sheet.setValue attendanceSheet (row rec) 4 (CStr currentTime) in
        let sheet2 := Sheet.setValue sheet1 (row rec) 5 (CNum totalHours) in
        let sheet3 := Sheet.setValue sheet2 (row rec) 6 (CStr status) in
        Ok (createResponse true
              ("Punch-out recorded at " +:+ currentTime
               +:+ ". Total: " +:+ Number_toString totalHours
               +:+ "h (" +:+ status +:+ ")") None,
            sheet3)
  end.

Fixpoint validateEmployee_loop
  (employeeData : list EmployeeRow) (employeeName dateOfBirth : Value)
  : result bool :=
  match employeeData with
  | [] => Ok false
  | r :: rest =>
      let name := emp_name r in
      let dob := emp_dob r in
      if JsCell.truthy name then
        wanted <- JsValue.trim employeeName ;;
        if String.eqb (JsString.trim (JsCell.toString name)) wanted then
          let dobString :=
            match dob with
            | CDate tv => Utilities_formatDate tv TIMEZONE "yyyy-MM-dd"
            | _ => JsString.trim (JsCell.toString dob)
            end in
          given <- JsValue.trim dateOfBirth ;;
          Ok (String.eqb dobString given)
        else validateEmployee_loop rest employeeName dateOfBirth
      else validateEmployee_loop rest employeeName dateOfBirth
  end.

Definition validateEmployee
  (store : Store) (employeeName dateOfBirth : Value) : bool :=
  try_catch
    (spreadsheet <- Sheet.openById store ;;
     match employeeSheet spreadsheet with
     | None => Ok false
     | Some sheet =>
         let lastRow := Sheet.getLastRow sheet in
         if lastRow <=? 1 then Ok false
         else
           employeeData <- Sheet.getValuesFromRow2 sheet (lastRow - 1) ;;
           validateEmployee_loop employeeData employeeName dateOfBirth
     end)
    (fun _ => false).

Definition processPunch
  (store : Store) (now : Z) (employeeName dateOfBirth punchType : Value)
  : Response * Store :=
  try_catch
    (if negb (JsValue.truthy employeeName)
        || negb (JsValue.truthy dateOfBirth)
        || negb (JsValue.truthy punchType)
     then Ok (createResponse false "Missing required parameters." None,
              store)
     else if negb (JsValue.is_string punchType "in")
             && negb (JsValue.is_string punchType "out")
     then Ok (createResponse false "Invalid punch type specified." None,
              store)
     else if negb (validateEmployee store employeeName dateOfBirth)
     then Ok (createResponse false
                "Employee not found or date of birth is incorrect." None,
              store)
     else
       spreadsheet <- Sheet.openById store ;;
       match attendanceSheet spreadsheet with
       | None =>
           Throw ("Sheet " +:+ dquote +:+ ATTENDANCE_SHEET_NAME
                  +:+ dquote +:+ " not found.")
       | Some sheet =>
           let currentDate :=
             Utilities_formatDate now TIMEZONE "yyyy-MM-dd" in
           let currentTime := Utilities_formatDate now TIMEZONE "HH:mm" in
           name <- JsValue.as_string_receiver employeeName "trim" ;;
           outcome <-
             (if JsValue.is_string punchType "in"
              then processPunchIn sheet name currentDate currentTime
              else processPunchOut now sheet name currentDate currentTime) ;;
           Ok (fst outcome,
               Reachable
                 {| employeeSheet := employeeSheet spreadsheet;
                    attendanceSheet := Some (snd outcome) |})
       end)
    (fun m =>
       (createResponse false ("Error during processing: " +:+ m) None,
        store)).

Definition getEmployees (store : Store) : Response :=
  try_catch
    (spreadsheet <- Sheet.openById store ;;
     match employeeSheet spreadsheet with
     | None =>
         Throw ("Sheet " +:+ dquote +:+ EMPLOYEE_SHEET_NAME
                +:+ dquote +:+ " not found.")
     | Some sheet =>
         let lastRow := Sheet.getLastRow sheet in
         if lastRow <=? 1
         then Ok (createResponse true "No employees found." (Some []))
         else
           employeeData <- Sheet.getValuesFromRow2 sheet (lastRow - 1) ;;
           let employees :=
             List.filter
               (fun name =>
                  JsCell.truthy name
                  && negb (String.eqb
                             (JsString.trim (JsCell.toString name))
                             EmptyString))
               (map emp_name employeeData) in
           Ok (createResponse true "Employees retrieved successfully."
                 (Some employees))
     end)
    (fun m =>
       createResponse false ("Error retrieving employees: " +:+ m) None).

Definition doGet (store : Store) (e : Value) : Response :=
  try_catch
    (if negb (JsValue.truthy e) then
       Ok (createResponse false
             "This function is intended to be called from the web app. Running it in the editor is not a valid test."
             None)
     else
       parameter <- JsValue.get e "parameter" ;;
       if negb (JsValue.truthy parameter) then
         Ok (createResponse false
               "This function is intended to be called from the web app. Running it in the editor is not a valid test."
               None)
       else
         action <- JsValue.get parameter "action" ;;
         if JsValue.is_string action "getEmployees"
         then Ok (getEmployees store)
         else Ok (createResponse false "Unrecognized action." None))
    (fun m => createResponse false ("Server error: " +:+ m) None).

Definition doPost (store : Store) (now : Z) (e : Value)
  : Response * Store :=
  let invalid :=
    Ok (createResponse false "Invalid POST request: No data received." None,
        store) in
  try_catch
    (if negb (JsValue.truthy e) then invalid
     else
       postData <- JsValue.get e "postData" ;;
       if negb (JsValue.truthy postData) then invalid
       else
         contents <- JsValue.get postData "contents" ;;
         if negb (JsValue.truthy contents) then invalid
         else
           data <- JSON_parse contents ;;
           action <- JsValue.get data "action" ;;
           if JsValue.is_string action "punch"
           then
             employeeName <- JsValue.get data "employeeName" ;;
             dateOfBirth <- JsValue.get data "dateOfBirth" ;;
             punchType <- JsValue.get data "punchType" ;;
             Ok (processPunch store now employeeName dateOfBirth punchType)
           else Ok (createResponse false "Unrecognized action." None,
                    store))
    (fun m => (createResponse false ("Server error: " +:+ m) None, store)).

End WithPlatform.

End Alt.

(* ====================================================================== *)
(** ** A platform to run the model on

    The script's clock is GMT; ["Europe/Warsaw"] is taken at its
    standard-time offset of one hour, every other zone name at GMT.  Numbers
    print with two decimals at most, which is how the binary64 value nearest
    to a number of hundredths prints.  [JSON.parse] reads JSON without [\u]
    escapes. *)

Module Sample.

Import JsNumber.

Definition two_digits (n : Z) : string :=
  String (digit_char ((n / 10) mod 10))
         (String (digit_char (n mod 10)) EmptyString).

Definition four_digits (n : Z) : string :=
  two_digits (n / 100) +:+ two_digits n.

(** Year, month and day of the month of a day number counted from
    1970-01-01, in the proleptic Gregorian calendar. *)
Definition civil (days : Z) : Z * Z * Z :=
  let z := days + 719468 in
  let era := z / 146097 in
  let doe := z - era * 146097 in
  let yoe := (doe - doe / 1460 + doe / 36524 - doe / 146096) / 365 in
  let doy := doe - (365 * yoe + yoe / 4 - yoe / 100) in
  let mp := (5 * doy + 2) / 153 in
  let d := doy - (153 * mp + 2) / 5 + 1 in
  let m := if mp <? 10 then mp + 3 else mp - 9 in
  let y := yoe + era * 400 + (if m <=? 2 then 1 else 0) in
  (y, m, d).

Definition zone_offset (timeZone : string) : Z :=
  if String.eqb timeZone "Europe/Warsaw" then JsDate.msPerHour else 0.

Definition formatDate (tv : Z) (timeZone format : string) : string :=
  let lt := tv + zone_offset timeZone in
  if String.eqb format "yyyy-MM-dd" then
    let '(y, m, d) := civil (JsDate.Day (inject_Z lt)) in
    four_digits y +:+ "-" +:+ two_digits m +:+ "-" +:+ two_digits d
  else if String.eqb format "HH:mm" then
    let ms := lt mod JsDate.msPerDay in
    two_digits (ms / JsDate.msPerHour) +:+ ":"
    +:+ two_digits ((ms / JsDate.msPerMinute) mod 60)
  else EmptyString.

Definition weekday_name (days : Z) : string :=
  nth (Z.to_nat ((days + 4) mod 7))
      ["Sun"; "Mon"; "Tue"; "Wed"; "Thu"; "Fri"; "Sat"] EmptyString.

Definition month_name (m : Z) : string :=
  nth (Z.to_nat (m - 1))
      ["Jan"; "Feb"; "Mar"; "Apr"; "May"; "Jun";
       "Jul"; "Aug"; "Sep"; "Oct"; "Nov"; "Dec"] EmptyString.

(** The text of the local time [lt], followed by the name of the zone. *)
Definition dateToString_in (zone : string) (lt : Z) : string :=
  let days := JsDate.Day (inject_Z lt) in
  let ms := lt mod JsDate.msPerDay in
  let '(y, m, d) := civil days in
  weekday_name days +:+ " " +:+ month_name m +:+ " " +:+ two_digits d
  +:+ " " +:+ four_digits y +:+ " "
  +:+ two_digits (ms / JsDate.msPerHour) +:+ ":"
  +:+ two_digits ((ms / JsDate.msPerMinute) mod 60) +:+ ":"
  +:+ two_digits ((ms / 1000) mod 60)
  +:+ " " +:+ zone.

Definition dateToString (tv : Z) : string :=
  dateToString_in "GMT+0000 (Coordinated Universal Time)" tv.

Definition numberToString (x : JsNumber) : string :=
  match x with
  | NaN => "NaN"
  | Inf false => "Infinity"
  | Inf true => "-Infinity"
  | Fin q =>
      let neg := Qlt_le_dec q 0 in
      let a := if neg then Qopp q else q in
      let n := round_half_up (a * 100) in
      let whole := nat_numeral (n / 100) in
      let body :=
        if n mod 100 =? 0 then whole
        else if n mod 10 =? 0
             then whole +:+ "." +:+ String (digit_char ((n / 10) mod 10))
                                           EmptyString
             else whole +:+ "." +:+ two_digits n in
      if neg then "-" +:+ body else body
  end.

(** *** A JSON reader *)

Definition is_json_space (c : ascii) : bool :=
  let n := nat_of_ascii c in
  (n =? 32)%nat || (n =? 9)%nat || (n =? 10)%nat || (n =? 13)%nat.

Fixpoint skip_space (s : string) : string :=
  match s with
  | String c r => if is_json_space c then skip_space r else s
  | EmptyString => s
  end.

(** The characters of a string literal after its opening quote, with the
    text that follows the closing quote. *)
Fixpoint string_body (s : string) : option (string * string) :=
  match s with
  | EmptyString => None
  | String c r =>
      if (nat_of_ascii c =? 34)%nat then Some (EmptyString, r)
      else if (nat_of_ascii c =? 92)%nat then
        match r with
        | String e r' =>
            let n := nat_of_ascii e in
            let unescaped :=
              if (n =? 34)%nat || (n =? 92)%nat || (n =? 47)%nat then Some e
              else if (n =? 110)%nat then Some (ascii_of_nat 10)
              else if (n =? 116)%nat then Some (ascii_of_nat 9)
              else if (n =? 114)%nat then Some (ascii_of_nat 13)
              else if (n =? 98)%nat then Some (ascii_of_nat 8)
              else if (n =? 102)%nat then Some (ascii_of_nat 12)
              else None in
            match unescaped, string_body r' with
            | Some u, Some (body, rest) => Some (String u body, rest)
            | _, _ => None
            end
        | EmptyString => None
        end
      else if (nat_of_ascii c <? 32)%nat then None
      else
        match string_body r with
        | Some (body, rest) => Some (String c body, rest)
        | None => None
        end
  end.

(** A JSON number at the head of [s]: an optional minus sign and a digit
    open it. *)
Definition number_token (s : string) : option (Value * string) :=
  let unsigned := match s with String "-" r => r | _ => s end in
  match unsigned with
  | String c _ =>
      match digit_of 10 c, decimal_prefix s with
      | Some _, Some (x, rest) => Some (VNum x, rest)
      | _, _ => None
      end
  | EmptyString => None
  end.

Fixpoint value (fuel : nat) (s : string) : option (Value * string) :=
  match fuel with
  | O => None
  | S fuel' =>
      let s := skip_space s in
      if JsString.startsWith s "null"
      then Some (VNull, String.substring 4 (String.length s - 4) s)
      else if JsString.startsWith s "true"
      then Some (VBool true, String.substring 4 (String.length s - 4) s)
      else if JsString.startsWith s "false"
      then Some (VBool false, String.substring 5 (String.length s - 5) s)
      else
        match s with
        | String c r =>
            if (nat_of_ascii c =? 34)%nat then
              match string_body r with
              | Some (body, rest) => Some (VStr body, rest)
              | None => None
              end
            else if Ascii.eqb c "[" then
              match skip_space r with
              | String "]" rest => Some (VArr [], rest)
              | _ => items fuel' r []
              end
            else if Ascii.eqb c "{" then
              match skip_space r with
              | String "}" rest => Some (VObj [], rest)
              | _ => members fuel' r []
              end
            else number_token s
        | EmptyString => None
        end
  end
with items (fuel : nat) (s : string) (acc : list Value)
  : option (Value * string) :=
  match fuel with
  | O => None
  | S fuel' =>
      match value fuel' s with
      | Some (v, rest) =>
          match skip_space rest with
          | String "," rest' => items fuel' rest' (v :: acc)
          | String "]" rest' => Some (VArr (rev (v :: acc)), rest')
          | _ => None
          end
      | None => None
      end
  end
with members (fuel : nat) (s : string) (acc : list (string * Value))
  : option (Value * string) :=
  match fuel with
  | O => None
  | S fuel' =>
      match skip_space s with
      | String q r =>
          if (nat_of_ascii q =? 34)%nat then
            match string_body r with
            | Some (k, rest) =>
                match skip_space rest with
                | String ":" rest1 =>
                    match value fuel' rest1 with
                    | Some (v, rest2) =>
                        (* a later member of the same name wins *)
                        match skip_space rest2 with
                        | String "," rest3 =>
                            members fuel' rest3 ((k, v) :: acc)
                        | String "}" rest3 =>
                            Some (VObj ((k, v) :: acc), rest3)
                        | _ => None
                        end
                    | None => None
                    end
                | _ => None
                end
            | None => None
            end
          else None
      | EmptyString => None
      end
  end.

Definition parse (contents : Value) : result Value :=
  match contents with
  | VStr s =>
      match value (S (String.length s)) s with
      | Some (v, rest) =>
          match skip_space rest with
          | EmptyString => Ok v
          | _ => Throw "Unexpected non-whitespace character after JSON"
          end
      | None => Throw "Unexpected token in JSON"
      end
  | VNull => Ok VNull
  | VBool b => Ok (VBool b)
  | VNum x => Ok (VNum x)
  | _ => Throw "Unexpected token in JSON"
  end.

Definition platform : Platform :=
  {| Utilities_formatDate := formatDate;
     Date_toString := dateToString;
     Number_toString := numberToString;
     LocalTZA := fun _ _ => 0;
     JSON_parse := parse |}.

End Sample.

(** ** A platform with daylight-saving time

    The script runs in ["Europe/Warsaw"] with the two transitions of 2024:
    from 2024-03-31 01:00 UTC to 2024-10-27 01:00 UTC local time is two hours
    ahead of UTC, and one hour outside.  The rest is as in [Sample]. *)

Module Warsaw.

Definition spring : Z := 1711846800000.
Definition autumn : Z := 1729990800000.

(** The offset at an instant. *)
Definition offset_at (utc : Z) : Z :=
  if (spring <=? utc) && (utc <? autumn)
  then 2 * JsDate.msPerHour else JsDate.msPerHour.

(** The offset for a local time.  A local time that the spring transition
    skips, or that the autumn transition repeats, is read with the offset
    before the transition. *)
Definition offset_of_local (lt : Z) : Z :=
  if (spring + 2 * JsDate.msPerHour <=? lt)
     && (lt <? autumn + 2 * JsDate.msPerHour)
  then 2 * JsDate.msPerHour else JsDate.msPerHour.

Definition formatDate (tv : Z) (timeZone format : string) : string :=
  let lt :=
    if String.eqb timeZone "Europe/Warsaw" then tv + offset_at tv else tv in
  if String.eqb format "yyyy-MM-dd" then
    let '(y, m, d) := Sample.civil (JsDate.Day (inject_Z lt)) in
    Sample.four_digits y +:+ "-" +:+ Sample.two_digits m +:+ "-"
    +:+ Sample.two_digits d
  else if String.eqb format "HH:mm" then
    let ms := lt mod JsDate.msPerDay in
    Sample.two_digits (ms / JsDate.msPerHour) +:+ ":"
    +:+ Sample.two_digits ((ms / JsDate.msPerMinute) mod 60)
  else EmptyString.

Definition dateToString (tv : Z) : string :=
  Sample.dateToString_in
    (if offset_at tv =? JsDate.msPerHour
     then "GMT+0100 (Central European Standard Time)"
     else "GMT+0200 (Central European Summer Time)")
    (tv + offset_at tv).

Definition platform : Platform :=
  {| Utilities_formatDate := formatDate;
     Date_toString := dateToString;
     Number_toString := Sample.numberToString;
     LocalTZA := fun t isUTC =>
                   if isUTC then offset_at t else offset_of_local t;
     JSON_parse := Sample.parse |}.

End Warsaw.

(* ====================================================================== *)
(** ** Vocabulary of the specification *)

Module Spec.

(** *** Clock times *)






(** The [i]-th number of [s.split(':').map(Number)], [NaN] when there is
    none. *)
Definition component (s : string) (i : nat) : JsNumber :=
  default NaN (map JsNumber.of_string (JsString.split ":" s) !! i).

(** Parsing a time fails: the hour or the minute is not a finite number. *)
Definition unparsable (s : string) : Prop :=
  (forall q, component s 0 <> Fin q) \/ (forall q, component s 1 <> Fin q).


End Spec.

(** *** The attendance ledger *)

Module Ledger.
Section WithPlatform.
Context `{Platform}.

(** The records of the ledger: the rows below the header. *)
Definition records (sheet : list AttendanceRow) : list AttendanceRow :=
  drop 1 sheet.

(** The pair (employee, day) a record belongs to, as the lookup of
    [google-apps-script.js] reads it. *)
Definition employee_of (r : AttendanceRow) : string :=
  JsString.trim (JsCell.toString (att_name r)).

Definition day_of (r : AttendanceRow) : string :=
  Main.dateString (att_date r).

Definition same_pair (r1 r2 : AttendanceRow) : Prop :=
  employee_of r1 = employee_of r2 /\ day_of r1 = day_of r2.

(** The record is about employee [employeeName] on day [date], the date
    cell being read by [norm]. *)
Definition is_for_by (norm : Cell -> string)
  (r : AttendanceRow) (employeeName date : string) : Prop :=
  employee_of r = JsString.trim employeeName /\ norm (att_date r) = date.

(** Record [i] is the most recent one of employee and day. *)
Definition most_recent_by (norm : Cell -> string)
  (sheet : list AttendanceRow) (employeeName date : string)
  (i : nat) (r : AttendanceRow) : Prop :=
  records sheet !! i = Some r
  /\ is_for_by norm r employeeName date
  /\ forall j r', (i < j)%nat -> records sheet !! j = Some r' ->
                  ~ is_for_by norm r' employeeName date.

(** No record of the ledger is about employee and day. *)
Definition no_record_by (norm : Cell -> string)
  (sheet : list AttendanceRow) (employeeName date : string) : Prop :=
  forall j r', records sheet !! j = Some r' ->
               ~ is_for_by norm r' employeeName date.

(** The normalized date of the specification, in the words it has for a
    stored date: one stored as a structured date is formatted as
    [yyyy-MM-dd] in the configured time zone, one stored as text is
    trimmed. *)
Definition normalized_date (timeZone : string) (c : Cell) : string :=
  match c with
  | CDate tv => Utilities_formatDate tv timeZone "yyyy-MM-dd"
  | _ => JsString.trim (JsCell.toString c)
  end.

(** A cell that, when it is not a structured date, reads as a text
    without white space around it. *)
Definition trimmed_text (c : Cell) : Prop :=
  match c with
  | CDate _ => True
  | _ => JsString.trim (JsCell.toString c) = JsCell.toString c
  end.

(** No date of the ledger that is stored as text has white space around
    it. *)
Definition dates_trimmed (sheet : list AttendanceRow) : Prop :=
  forall i r, records sheet !! i = Some r -> trimmed_text (att_date r).

(** The same three for the reading of [google-apps-script.js]. *)
Definition is_for := is_for_by Main.dateString.
Definition most_recent := most_recent_by Main.dateString.
Definition no_record := no_record_by Main.dateString.

Definition has_punchIn (r : AttendanceRow) : bool :=
  JsString.truthy (Main.cell_text (att_punchIn r)).

Definition has_punchOut (r : AttendanceRow) : bool :=
  JsString.truthy (Main.cell_text (att_punchOut r)).

(** Open: punched in and not yet out.  Terminal: a punch-out time is
    set. *)
Definition is_open (r : AttendanceRow) : bool :=
  has_punchIn r && negb (has_punchOut r).


(** What [findTodayRecord] reports of record [i]. *)
Definition found (i : nat) (r : AttendanceRow) : TodayRecord :=
  {| row := i + 2;
     punchInTime := Main.cell_text (att_punchIn r);
     punchOutTime := Main.cell_text (att_punchOut r) |}.

(** At most one record per (employee, day) is open. *)
Definition one_open_per_pair (sheet : list AttendanceRow) : Prop :=
  forall i j ri rj,
    records sheet !! i = Some ri -> records sheet !! j = Some rj ->
    is_open ri = true -> is_open rj = true -> same_pair ri rj -> i = j.

(** Where a pair has an open record, the most recent record of the pair
    carries a punch-in time. *)
Definition recent_punched_in (sheet : list AttendanceRow) : Prop :=
  forall i ri j rj,
    records sheet !! i = Some ri -> is_open ri = true ->
    records sheet !! j = Some rj -> same_pair ri rj ->
    (forall k rk, (j < k)%nat -> records sheet !! k = Some rk ->
                  ~ same_pair ri rk) ->
    has_punchIn rj = true.

Definition well_kept (sheet : list AttendanceRow) : Prop :=
  one_open_per_pair sheet /\ recent_punched_in sheet.

(** A validated punch reaching [processPunchIn] or [processPunchOut]. *)
Inductive Operation : Type :=
| PunchIn (employeeName currentDate currentTime : string)
| PunchOut (now : Z) (employeeName currentDate currentTime : string).

Definition perform (sheet : list AttendanceRow) (op : Operation)
  : result (Response * list AttendanceRow) :=
  match op with
  | PunchIn n d t => Main.processPunchIn sheet n d t
  | PunchOut now n d t => Main.processPunchOut now sheet n d t
  end.

(** The ledger after [op]; an exception leaves it as it was. *)
Definition step (sheet : list AttendanceRow) (op : Operation)
  : list AttendanceRow :=
  match perform sheet op with
  | Ok outcome => snd outcome
  | Throw _ => sheet
  end.

Definition run (ops : list Operation) (sheet : list AttendanceRow)
  : list AttendanceRow :=
  fold_left step ops sheet.

(** The row [r] with its punch-out time, total hours and status set. *)
Definition punched_out
  (r : AttendanceRow) (time : string) (hours : JsNumber) (status : string)
  : AttendanceRow :=
  {| att_name := att_name r; att_date := att_date r;
     att_punchIn := att_punchIn r; att_punchOut := CStr time;
     att_totalHours := CNum hours; att_status := CStr status |}.

(** The total a punch-out at [time] computes for record [r], and the
    status it derives from a total. *)
Definition hours_worked (now : Z) (r : AttendanceRow) (time : string)
  : JsNumber :=
  Main.calculateWorkingHours now (VStr (Main.cell_text (att_punchIn r)))
                             (VStr time).

Definition status_for (hours : JsNumber) : string :=
  if JsNumber.geb hours Main.STANDARD_WORK_HOURS
  then "On Time" else "Less Hours".

(** The two copies of the backend read every date cell of the ledger
    alike: a text has no white space around it, a date formats to the same
    day in the time zones of the two. *)
Definition dates_read_alike (sheet : list AttendanceRow) : Prop :=
  forall i r,
    records sheet !! i = Some r ->
    match att_date r with
    | CDate tv =>
        Utilities_formatDate tv Alt.TIMEZONE "yyyy-MM-dd"
        = Utilities_formatDate tv Main.TIMEZONE "yyyy-MM-dd"
    | c => JsString.trim (JsCell.toString c) = JsCell.toString c
    end.

(** The row a punch-in appends. *)
Definition punched_in (employeeName date time : string) : AttendanceRow :=
  {| att_name := CStr employeeName; att_date := CStr date;
     att_punchIn := CStr time; att_punchOut := CStr EmptyString;
     att_totalHours := CStr EmptyString; att_status := CStr "In Progress" |}.

End WithPlatform.
End Ledger.

(** *** The employee directory *)

Module Directory.
Section WithPlatform.
Context `{Platform}.

(** The entries of the directory: the rows below the header of the
    employee sheet; none when the store or the sheet cannot be read. *)
Definition entries (store : Store) : list EmployeeRow :=
  match store with
  | Reachable ss =>
      match employeeSheet ss with
      | Some sheet => drop 1 sheet
      | None => []
      end
  | Unreachable _ => []
  end.

Definition trimmed_name (r : EmployeeRow) : string :=
  JsString.trim (JsCell.toString (emp_name r)).

(** The row carries a name, and trimmed it is the trimmed [name]. *)
Definition is_named (name : string) (r : EmployeeRow) : bool :=
  JsCell.truthy (emp_name r)
  && String.eqb (trimmed_name r) (JsString.trim name).

(** The stored date of birth as [YYYY-MM-DD] text: a date formatted in
    [timeZone], a text trimmed. *)
Definition normalized_dob (timeZone : string) (r : EmployeeRow) : string :=
  match emp_dob r with
  | CDate tv => Utilities_formatDate tv timeZone "yyyy-MM-dd"
  | c => JsString.trim (JsCell.toString c)
  end.

(** First match wins. *)
Definition lookupEmployee (store : Store) (name : string)
  : option EmployeeRow :=
  List.find (is_named name) (entries store).

(** No row of the directory has [name] for its trimmed name. *)
Definition absent (store : Store) (name : string) : Prop :=
  forall r, In r (entries store) -> trimmed_name r <> JsString.trim name.

(** The one message for an unknown name and for a wrong date of birth. *)
Definition generic_refusal : string :=
  "Employee not found or date of birth is incorrect.".

(** The fields of a punch request as section 6 gives them: a name, a date
    of birth and a punch type, texts that are not empty, the type being
    [in] or [out]. *)
Definition well_formed_punch (name dob punchType : string) : Prop :=
  name <> EmptyString /\ dob <> EmptyString
  /\ (punchType = "in" \/ punchType = "out").

End WithPlatform.
End Directory.

(** *** Requests *)

Module Request.

(** The GET event asks for the list of employees. *)
Definition lists_employees (e : Value) : Prop :=
  exists parameter,
    JsValue.get e "parameter" = Ok parameter
    /\ JsValue.get parameter "action" = Ok (VStr "getEmployees").

(** The POST event carries a body that parses to [body], an object whose
    action is [punch]. *)
Definition punches `{Platform} (e body : Value) : Prop :=
  exists postData contents,
    JsValue.get e "postData" = Ok postData
    /\ JsValue.get postData "contents" = Ok contents
    /\ JSON_parse contents = Ok body
    /\ JsValue.get body "action" = Ok (VStr "punch").

Definition readable_sheets (store : Store) : Prop :=
  exists ss, store = Reachable ss.

End Request.

(** *** Sample data *)

Module Examples.

(** 2024-01-15 09:00 GMT. *)
Definition nine_o_clock : Z := 1705309200000.

Definition employee_header : EmployeeRow :=
  {| emp_name := CStr "Employee Name"; emp_dob := CStr "DOB (YYYY-MM-DD)" |}.

Definition employee (name dob : string) : EmployeeRow :=
  {| emp_name := CStr name; emp_dob := CStr dob |}.

Definition attendance_header : AttendanceRow :=
  {| att_name := CStr "Employee Name"; att_date := CStr "Date";
     att_punchIn := CStr "Punch In Time";
     att_punchOut := CStr "Punch Out Time";
     att_totalHours := CStr "Total Hours"; att_status := CStr "Status" |}.

Definition attendance (name date punchIn punchOut status : string)
  : AttendanceRow :=
  {| att_name := CStr name; att_date := CStr date;
     att_punchIn := CStr punchIn; att_punchOut := CStr punchOut;
     att_totalHours := CStr EmptyString; att_status := CStr status |}.

(** The directory [initializeSheet] writes. *)
Definition staff : list EmployeeRow :=
  [employee_header;
   employee "John Doe" "1985-03-15";
   employee "Jane Smith" "1990-07-22";
   employee "Peter Jones" "1988-11-08";
   employee "Mary Williams" "1992-01-30"].

Definition office (ledger : list AttendanceRow) : Store :=
  Reachable {| employeeSheet := Some staff; attendanceSheet := Some ledger |}.

(** A directory with the same name on two rows. *)
Definition namesakes : Store :=
  Reachable
    {| employeeSheet :=
         Some [employee_header;
               employee "Jane Smith" "1990-07-22";
               employee "Jane Smith" "1985-03-15"];
       attendanceSheet := Some [attendance_header] |}.

(** A directory with a blank row. *)
Definition gapped : Store :=
  Reachable
    {| employeeSheet :=
         Some [employee_header;
               employee EmptyString EmptyString;
               employee "Jane Smith" "1990-07-22"];
       attendanceSheet := Some [attendance_header] |}.


(** A ledger with one open record. *)
Definition one_open : list AttendanceRow :=
  [attendance_header;
   attendance "Jane Smith" "2024-01-15" "09:00" EmptyString "In Progress"].

Definition quoted (s : string) : string := dquote +:+ s +:+ dquote.

(** The JSON body of Jane Smith's punch-in. *)
Definition punch_in_body : string :=
  "{" +:+ quoted "action" +:+ ":" +:+ quoted "punch" +:+ ", "
  +:+ quoted "employeeName" +:+ ":" +:+ quoted "Jane Smith" +:+ ", "
  +:+ quoted "dateOfBirth" +:+ ":" +:+ quoted "1990-07-22" +:+ ", "
  +:+ quoted "punchType" +:+ ":" +:+ quoted "in" +:+ "}".

(** A directory whose name column holds a number and a boolean. *)
Definition numbered : Store :=
  Reachable
    {| employeeSheet :=
         Some [employee_header;
               {| emp_name := CNum (JsNumber.of_Z 42);
                  emp_dob := CStr "1990-07-22" |};
               {| emp_name := CBool true; emp_dob := CStr "1985-03-15" |}];
       attendanceSheet := Some [attendance_header] |}.

(** A ledger with a finished day and, after it, the open record of the
    next day. *)
Definition two_days : list AttendanceRow :=
  [attendance_header;
   {| att_name := CStr "Jane Smith"; att_date := CStr "2024-01-15";
      att_punchIn := CStr "09:00"; att_punchOut := CStr "17:15";
      att_totalHours := CNum (JsNumber.hundredths 825);
      att_status := CStr "On Time" |};
   attendance "Jane Smith" "2024-01-16" "08:30" EmptyString "In Progress"].

(** A ledger whose date cell is text with a leading space. *)
Definition padded_date : list AttendanceRow :=
  [attendance_header;
   attendance "Jane Smith" " 2024-01-15" "09:00" EmptyString "In Progress"].

(** A ledger whose date cell is a date, 2024-01-15 23:30 GMT, which is
    2024-01-16 00:30 in Warsaw. *)
Definition late_evening : list AttendanceRow :=
  [attendance_header;
   {| att_name := CStr "Jane Smith"; att_date := CDate 1705361400000;
      att_punchIn := CStr "09:00"; att_punchOut := CStr EmptyString;
      att_totalHours := CStr EmptyString; att_status := CStr "In Progress" |}].

(** A ledger whose punch-in cell the sheet returns as a date, 09:00 on the
    day zero of sheet times, 1899-12-30. *)
Definition time_as_date : list AttendanceRow :=
  [attendance_header;
   {| att_name := CStr "Jane Smith"; att_date := CStr "2024-01-15";
      att_punchIn := CDate (-2209129200000); att_punchOut := CStr EmptyString;
      att_totalHours := CStr EmptyString; att_status := CStr "In Progress" |}].

End Examples.

(** ** Decision procedures used by the proofs *)

Module Checks.








(** A backward scan for the last of the first [n] rows that satisfies
    [p]. *)
Fixpoint scan `{Platform} (p : AttendanceRow -> bool)
  (data : list AttendanceRow) (n : nat) : option TodayRecord :=
  match n with
  | O => None
  | S i =>
      match data !! i with
      | Some r => if p r then Some (Ledger.found i r) else scan p data i
      | None => scan p data i
      end
  end.


End Checks.

(** ** Further vocabulary *)


Module Rounding.

(** [q] rounded to hundredths, a tie going away from zero: what
    [parseFloat(q.toFixed(2))] denotes, in hundredths. *)
Definition hundredths_of (q : Q) : Z :=
  if Qlt_le_dec q 0
  then - JsNumber.round_half_up (Qopp q * 100)
  else JsNumber.round_half_up (q * 100).




End Rounding.

Module RoundingChecks.

(** What follows the sign in [JsNumber.decimal_prefix]. *)
Definition unsigned_part (neg : bool) (s1 : string)
  : option (JsNumber * string) :=
  if JsString.startsWith s1 "Infinity"
  then Some (Inf neg, String.substring 8 (String.length s1 - 8) s1)
  else
    let '(a, na, s2) := JsNumber.digits 10 s1 0 0%nat in
    let '(m, nf, s3) :=
      match s2 with
      | String "." r =>
          let '(m, nf, r') := JsNumber.digits 10 r a 0%nat in
          if ((na =? 0)%nat && (nf =? 0)%nat) then (a, 0%nat, s2)
          else (m, nf, r')
      | _ => (a, 0%nat, s2)
      end in
    match na, nf with
    | O, O => None
    | _, _ =>
        let '(e, s4) := JsNumber.exponent s3 in
        let q := JsNumber.scale m (e - Z.of_nat nf) in
        Some (JsNumber.binary64 (if neg then Qopp q else q), s4)
    end.

Definition decimal_digit_values : list Z := [0; 1; 2; 3; 4; 5; 6; 7; 8; 9].



End RoundingChecks.

Module Listing.
Section WithPlatform.
Context `{Platform}.

(** The test of [getEmployees]: [name && name.toString().trim() !== '']. *)
Definition nonblank (name : Cell) : bool :=
  JsCell.truthy name
  && negb (String.eqb (JsString.trim (JsCell.toString name)) EmptyString).

(** The name cells of the directory that pass the test, in sheet order. *)
Definition names (store : Store) : list Cell :=
  List.filter nonblank (map emp_name (Directory.entries store)).

(** The employee sheet, when the store and the sheet can be read. *)
Definition directory_sheet (store : Store) : option (list EmployeeRow) :=
  match store with
  | Reachable ss => employeeSheet ss
  | Unreachable _ => None
  end.

(** The two copies read every date of birth of the directory alike. *)
Definition dobs_read_alike (store : Store) : Prop :=
  forall r, In r (Directory.entries store) ->
            Directory.normalized_dob Alt.TIMEZONE r
            = Directory.normalized_dob Main.TIMEZONE r.

(** The store after a series of POST events, each with its clock. *)
Definition serve (store : Store) (events : list (Z * Value)) : Store :=
  fold_left (fun st ev => snd (Main.doPost st (fst ev) (snd ev))) events store.

(** The answer of the second copy to an event it cannot read. *)
Definition not_from_the_web : Response :=
  Alt.createResponse false
    "This function is intended to be called from the web app. Running it in the editor is not a valid test."
    None.

Definition no_data_received : Response :=
  Alt.createResponse false "Invalid POST request: No data received." None.

End WithPlatform.
End Listing.

(* ====================================================================== *)
(** * Properties *)

(** ** Number arithmetic *)

Section Binary64.
Import JsNumber.


Lemma pow2_pos e : (0 < pow2 e)%Q.
Proof. apply Qpower_0_lt. reflexivity. Qed.

Lemma pow2_add a b : (pow2 (a + b) == pow2 a * pow2 b)%Q.
Proof. apply Qpower_plus. discriminate. Qed.

Lemma pow2_Z e : 0 <= e -> (pow2 e == inject_Z (2 ^ e))%Q.
Proof. intros He. unfold pow2. rewrite Zpower_Qpower by exact He. reflexivity. Qed.

Lemma pow2_le a b : a <= b -> (pow2 a <= pow2 b)%Q.
Proof. intros L. apply Qpower_le_compat_l; [exact L | discriminate]. Qed.

Lemma pow2_lt_inv a b : (pow2 a < pow2 b)%Q -> a < b.
Proof. intros L. apply (Qpower_lt_compat_l_inv 2); [exact L | reflexivity]. Qed.

Lemma pow2_half e : (pow2 (e - 1) == pow2 e * (1 # 2))%Q.
Proof.
  replace (e - 1) with (e + (-1)) by lia. rewrite pow2_add. reflexivity.
Qed.

Lemma round_half_even_near q :
  (Qabs (inject_Z (round_half_even q) - q) <= 1 # 2)%Q.
Proof.
  destruct q as [n d]. unfold round_half_even. cbn [Qnum Qden].
  pose proof (Z.div_mod n (Zpos d) ltac:(lia)) as E.
  pose proof (Z.mod_pos_bound n (Zpos d) ltac:(lia)) as B.
  set (f := n / Zpos d) in *. set (r := n mod Zpos d) in *.
  apply Qabs_Qle_condition.
  assert (C : forall g, g = f \/ g = f + 1 ->
              (g = f -> 2 * r <= Zpos d) -> (g = f + 1 -> Zpos d <= 2 * r) ->
              (- (1 # 2) <= inject_Z g - (n # d) <= 1 # 2)%Q).
  { intros g Hg H1 H2.
    unfold Qle, Qminus, Qplus, Qopp, inject_Z. cbn [Qnum Qden].
    destruct Hg as [-> | ->].
    - specialize (H1 eq_refl). nia.
    - specialize (H2 eq_refl). nia. }
  destruct (2 * r ?= Zpos d) eqn:Cmp.
  - apply Z.compare_eq in Cmp.
    destruct (Z.even f); apply C; auto; lia.
  - rewrite Z.compare_lt_iff in Cmp. apply C; auto; lia.
  - rewrite Z.compare_gt_iff in Cmp. apply C; auto; lia.
Qed.


Lemma binary64_comp q q' : (q == q')%Q -> binary64 q = binary64 q'.
Proof. intros E. unfold binary64. rewrite (Qred_complete _ _ E). reflexivity. Qed.

(** The exponent of a positive rational below [2 ^ k] is below [k]. *)
Lemma binade_below a k :
  0 <= k -> (0 < a)%Q -> (a < pow2 k)%Q -> binade a <= k - 1.
Proof.
  intros Hk Ha Hb. unfold binade.
  set (kk := Z.log2 (Qnum a) - Z.log2 (Z.pos (Qden a))).
  destruct (Qle_bool (pow2 kk) a) eqn:T.
  - apply Qle_bool_iff in T.
    assert (kk < k); [| lia].
    apply pow2_lt_inv. eapply Qle_lt_trans; eassumption.
  - assert (kk <= k); [| lia].
    rewrite pow2_Z in Hb by exact Hk.
    destruct a as [n d]. unfold Qlt, inject_Z in Ha, Hb.
    cbn [Qnum Qden] in *. unfold kk. rewrite Z.mul_1_r in Ha, Hb.
    pose proof (Z.log2_spec (Zpos d) ltac:(lia)) as [_ Hd].
    assert (n < 2 ^ (k + Z.succ (Z.log2 (Zpos d)))) as Hn.
    { rewrite Z.pow_add_r by (pose proof (Z.log2_nonneg (Zpos d)); lia).
      pose proof (Z.pow_pos_nonneg 2 k ltac:(lia) Hk). nia. }
    apply Z.log2_lt_pow2 in Hn; lia.
Qed.

(** Below [2 ^ k] rounding stays finite and moves by half a unit in the last
    place at most. *)
Lemma binary64_near q k :
  0 <= k <= 1023 -> (Qabs q < pow2 k)%Q ->
  exists x, binary64 q = Fin x /\ (Qabs (x - q) <= pow2 (k - 54))%Q.
Proof.
  intros Hk Hq. unfold binary64.
  pose proof (Qred_correct q) as Er. set (r := Qred q) in *.
  destruct (Qnum r =? 0) eqn:Z0.
  - apply Z.eqb_eq in Z0. exists 0%Q. split; [reflexivity |].
    assert (r == 0)%Q as E0 by (unfold Qeq; rewrite Z0; reflexivity).
    rewrite <- Er, E0. apply Qlt_le_weak, pow2_pos.
  - apply Z.eqb_neq in Z0.
    set (a := Qabs r).
    assert (Ha : (0 < a)%Q).
    { unfold a. destruct r as [n d]. unfold Qlt. cbn in *. lia. }
    assert (Hb : (a < pow2 k)%Q) by (unfold a; rewrite Er; exact Hq).
    pose proof (binade_below a k ltac:(lia) Ha Hb) as He.
    set (p := Z.max (binade a - 52) (-1074)).
    assert (Hp : p <= k - 53) by lia.
    set (m := round_half_even (a / pow2 p)).
    set (x0 := (inject_Z m * pow2 p)%Q).
    pose proof (pow2_pos p) as Pp.
    assert (Near : (Qabs (x0 - a) <= pow2 (k - 54))%Q).
    { assert (E : (x0 - a == (inject_Z m - a / pow2 p) * pow2 p)%Q).
      { unfold x0. field. intros C. rewrite C in Pp. discriminate Pp. }
      rewrite E, Qabs_Qmult, (Qabs_pos (pow2 p)) by (apply Qlt_le_weak, Pp).
      apply Qle_trans with ((1 # 2) * pow2 p)%Q.
      - apply Qmult_le_compat_r; [apply round_half_even_near |].
        apply Qlt_le_weak, Pp.
      - rewrite Qmult_comm, <- pow2_half. apply pow2_le. lia. }
    assert (Fits : (x0 < pow2 1024)%Q).
    { apply Qle_lt_trans with (a + pow2 (k - 54))%Q.
      - apply Qabs_Qle_condition in Near. destruct Near as [_ N].
        apply Qplus_le_l with (z := (- a)%Q).
        setoid_replace (a + pow2 (k - 54) + - a)%Q with (pow2 (k - 54)) using relation Qeq by ring.
        exact N.
      - apply Qlt_le_trans with (pow2 k + pow2 k)%Q.
        + apply Qplus_lt_le_compat; [exact Hb | apply pow2_le; lia].
        + setoid_replace (pow2 k + pow2 k)%Q with (pow2 (k + 1)) using relation Qeq
            by (rewrite pow2_add; change (pow2 1) with (2 # 1); ring).
          apply pow2_le. lia. }
    destruct (Qle_bool (pow2 1024) x0) eqn:Ov.
    { apply Qle_bool_iff in Ov. destruct (Qlt_not_le _ _ Fits Ov). }
    eexists. split; [reflexivity |].
    rewrite Qred_correct, <- Er.
    destruct (Qnum r <? 0) eqn:S.
    + apply Z.ltb_lt in S.
      assert (r == - a)%Q as ->.
      { unfold a. rewrite Qabs_neg; [ring |].
        destruct r as [n d]. unfold Qle. cbn in *. lia. }
      setoid_replace (- x0 - - a)%Q with (- (x0 - a))%Q using relation Qeq by ring.
      rewrite Qabs_opp. exact Near.
    + apply Z.ltb_ge in S.
      assert (r == a)%Q as ->.
      { unfold a. rewrite Qabs_pos; [reflexivity |].
        destruct r as [n d]. unfold Qle. cbn in *. lia. }
      exact Near.
Qed.














(** What [TimeClip] returns is [NaN] or an integer in the range of time
    values. *)
Lemma TimeClip_range x :
  JsDate.TimeClip x = NaN
  \/ exists z, Z.abs z <= 8640000000000000
               /\ JsDate.TimeClip x = Fin (z # 1).
Proof.
  destruct x as [| s | q]; [left; reflexivity | left; reflexivity |].
  unfold JsDate.TimeClip.
  destruct (Qle_bool (Qabs q) (inject_Z 8640000000000000)) eqn:C;
    [| left; reflexivity].
  right. exists (JsDate.truncate q). split; [| reflexivity].
  apply Qle_bool_iff in C. destruct q as [n d].
  unfold Qle, inject_Z, JsDate.truncate in *. cbn [Qabs Qnum Qden] in *.
  rewrite Z.mul_1_r in C.
  rewrite <- Z.quot_abs by lia. change (Z.abs (Z.pos d)) with (Z.pos d).
  rewrite Z.quot_div_nonneg by lia.
  apply Z.div_le_upper_bound; lia.
Qed.

End Binary64.

(** ** Hours calculation *)

Section Hours.
Context `{Platform}.

Import Checks.















Lemma calculateWorkingHours_same now a b :
  Alt.calculateWorkingHours now a b = Main.calculateWorkingHours now a b.
Proof. reflexivity. Qed.





Lemma not_finite_MakeTime hour min :
  (forall q, hour <> Fin q) \/ (forall q, min <> Fin q) ->
  JsDate.MakeTime hour min (JsNumber.of_Z 0) (JsNumber.of_Z 0) = NaN.
Proof.
  intros [Hh | Hm].
  - destruct hour as [| ? | h]; try reflexivity. now destruct (Hh h).
  - destruct hour as [| ? | ?]; try reflexivity.
    destruct min as [| ? | m]; try reflexivity. now destruct (Hm m).
Qed.

Lemma unparsable_setHours now s :
  Spec.unparsable s ->
  JsDate.setHours (JsNumber.of_Z now)
    (Main.element (map JsNumber.of_string (JsString.split ":" s)) 0)
    (Main.element (map JsNumber.of_string (JsString.split ":" s)) 1) = NaN.
Proof.
  intros U. unfold JsDate.setHours, JsNumber.of_Z.
  rewrite not_finite_MakeTime by exact U.
  destruct (JsDate.LocalTime (now # 1)); reflexivity.
Qed.

(** C5.  When a time does not parse (its hour or its minute is not a finite
    number) no exception is raised, the [catch] branch is not taken and
    the function returns [NaN], not 0; so for the text abc. *)
Theorem calculateWorkingHours_unparsable_NaN now inTime outTime :
  Spec.unparsable inTime \/ Spec.unparsable outTime ->
  Main.calculateWorkingHours now (VStr inTime) (VStr outTime) = NaN
  /\ Alt.calculateWorkingHours now (VStr inTime) (VStr outTime) = NaN
  /\ Main.calculateWorkingHours now (VStr "abc") (VStr "17:00") = NaN.
Proof.
  assert (G : forall i o, Spec.unparsable i \/ Spec.unparsable o ->
              Main.calculateWorkingHours now (VStr i) (VStr o) = NaN).
  { intros i o U.
    unfold Main.calculateWorkingHours, JsValue.split, JsValue.as_string_receiver.
    cbn [bind try_catch].
    destruct U as [U | U]; rewrite (unparsable_setHours now _ U).
    - destruct (JsDate.setHours _ _ _) as [| [] |]; reflexivity.
    - reflexivity. }
  intros U. repeat split.
  - apply G, U.
  - rewrite <- (G _ _ U). apply calculateWorkingHours_same.
  - apply G. left. left. intros q. vm_compute. discriminate.
Qed.

(** The only way to the [catch] branch and its 0 is a time that is not a
    string. *)
Lemma calculateWorkingHours_not_a_string now punchInTime punchOutTime :
  (forall s, punchInTime <> VStr s) ->
  Main.calculateWorkingHours now punchInTime punchOutTime = JsNumber.of_Z 0.
Proof.
  intros N. unfold Main.calculateWorkingHours.
  destruct punchInTime; try reflexivity. now destruct (N s).
Qed.

End Hours.

(** ** Today's record lookup *)

Section Lookup.
Context `{Platform}.

Import Checks.

Lemma Main_matches_is_for r n d :
  Main.matches r n d = true <-> Ledger.is_for r n d.
Proof.
  unfold Main.matches, Ledger.is_for, Ledger.is_for_by, Ledger.employee_of.
  rewrite andb_true_iff, !String.eqb_eq. reflexivity.
Qed.

Lemma Alt_matches_is_for r n d :
  Alt.matches r n d = true <-> Ledger.is_for_by Alt.dateString r n d.
Proof.
  unfold Alt.matches, Ledger.is_for_by, Ledger.employee_of.
  rewrite andb_true_iff, !String.eqb_eq. reflexivity.
Qed.

Lemma Main_loop_scan data name date n :
  Main.findTodayRecord_loop data name date n
  = scan (fun r => Main.matches r name date) data n.
Proof.
  induction n as [| n IH]; [reflexivity |].
  cbn [Main.findTodayRecord_loop scan]. rewrite IH. reflexivity.
Qed.

Lemma Alt_loop_scan data name date n :
  Alt.findTodayRecord_loop data name date n
  = scan (fun r => Alt.matches r name date) data n.
Proof.
  induction n as [| n IH]; [reflexivity |].
  cbn [Alt.findTodayRecord_loop scan]. rewrite IH. reflexivity.
Qed.

(** What the backward scan finds among the first [n] rows of [data]. *)
Lemma scan_spec p data n :
  (n <= length data)%nat ->
  match scan p data n with
  | Some rec =>
      exists i r,
        (i < n)%nat /\ data !! i = Some r /\ p r = true
        /\ rec = Ledger.found i r
        /\ forall j r', (i < j < n)%nat -> data !! j = Some r' -> p r' = false
  | None => forall j r', (j < n)%nat -> data !! j = Some r' -> p r' = false
  end.
Proof.
  induction n as [| n IH]; intros Hn; cbn [scan].
  - intros j r' Hj. lia.
  - destruct (data !! n) as [r |] eqn:Hr.
    2:{ apply lookup_ge_None in Hr. lia. }
    destruct (p r) eqn:Hm.
    + exists n, r. repeat split; try assumption; try lia.
    + specialize (IH ltac:(lia)).
      destruct (scan p data n) as [rec |].
      * destruct IH as (i & r0 & Hi & Hl & Hm0 & -> & Hlater).
        exists i, r0. repeat split; try assumption; try lia.
        intros j r' Hj Hj'.
        destruct (decide (j = n)) as [-> | Hne]; [congruence |].
        apply (Hlater j r'); [lia | assumption].
      * intros j r' Hj Hj'.
        destruct (decide (j = n)) as [-> | Hne]; [congruence |].
        apply (IH j r'); [lia | assumption].
Qed.

Lemma scan_ext p q data n :
  (forall i r, data !! i = Some r -> p r = q r) ->
  scan p data n = scan q data n.
Proof.
  intros E. induction n as [| n IH]; [reflexivity |].
  cbn [scan]. destruct (data !! n) as [r |] eqn:Hr; [| exact IH].
  rewrite (E n r Hr), IH. reflexivity.
Qed.

(** With a header and at least one row below it, the range read is all the
    rows below the header; otherwise nothing is read. *)
Lemma getValues_records (sheet : list AttendanceRow) :
  (2 <= Sheet.getLastRow sheet) ->
  Sheet.getValuesFromRow2 sheet (Sheet.getLastRow sheet - 1)
  = Ok (Ledger.records sheet).
Proof.
  unfold Sheet.getLastRow, Sheet.getValuesFromRow2, Ledger.records. intros L.
  destruct (Z.of_nat (length sheet) - 1 <? 1) eqn:C.
  { apply Z.ltb_lt in C. lia. }
  rewrite take_ge; [reflexivity |]. rewrite length_drop. lia.
Qed.

Lemma short_sheet_records (sheet : list AttendanceRow) :
  Sheet.getLastRow sheet < 2 -> Ledger.records sheet = [].
Proof.
  unfold Sheet.getLastRow, Ledger.records.
  destruct sheet as [| h [| r rest]]; cbn; intros; try reflexivity; lia.
Qed.

Lemma Main_findTodayRecord_scan sheet name date :
  Main.findTodayRecord sheet name date
  = Ok (scan (fun r => Main.matches r name date) (Ledger.records sheet)
          (length (Ledger.records sheet))).
Proof.
  unfold Main.findTodayRecord.
  destruct (Sheet.getLastRow sheet <? 2) eqn:C.
  - apply Z.ltb_lt in C. rewrite short_sheet_records by assumption. reflexivity.
  - apply Z.ltb_ge in C. rewrite getValues_records by assumption.
    cbn [bind]. rewrite Main_loop_scan. reflexivity.
Qed.

Lemma Alt_findTodayRecord_scan sheet name date :
  Alt.findTodayRecord sheet name date
  = Ok (scan (fun r => Alt.matches r name date) (Ledger.records sheet)
          (length (Ledger.records sheet))).
Proof.
  unfold Alt.findTodayRecord.
  destruct (Sheet.getLastRow sheet <=? 1) eqn:C.
  - apply Z.leb_le in C. rewrite short_sheet_records by lia. reflexivity.
  - apply Z.leb_gt in C. rewrite getValues_records by lia.
    cbn [bind]. rewrite Alt_loop_scan. reflexivity.
Qed.

(** The scan over the whole ledger returns the most recent record of the
    pair, or nothing when the pair has no record. *)
Lemma scan_most_recent norm p sheet name date :
  (forall r, p r = true <-> Ledger.is_for_by norm r name date) ->
  match scan p (Ledger.records sheet) (length (Ledger.records sheet)) with
  | Some rec =>
      exists i r,
        Ledger.most_recent_by norm sheet name date i r
        /\ rec = Ledger.found i r
  | None => Ledger.no_record_by norm sheet name date
  end.
Proof.
  intros P.
  assert (N : forall r, p r = false -> ~ Ledger.is_for_by norm r name date).
  { intros r E F. apply P in F. congruence. }
  pose proof (scan_spec p (Ledger.records sheet)
                (length (Ledger.records sheet)) ltac:(lia)) as S.
  destruct (scan p _ _) as [rec |].
  - destruct S as (i & r & Hi & Hl & Hm & -> & Hlater).
    exists i, r. split; [| reflexivity].
    split; [assumption |]. split; [apply P; assumption |].
    intros j r' Hj Hl'. apply N, (Hlater j r'); [| assumption].
    apply lookup_lt_Some in Hl'. lia.
  - intros j r' Hl'. apply N, (S j r'); [| assumption].
    apply lookup_lt_Some in Hl'. lia.
Qed.

(** The most recent record of a pair is unique. *)
Lemma most_recent_unique norm sheet name date i r i' r' :
  Ledger.most_recent_by norm sheet name date i r ->
  Ledger.most_recent_by norm sheet name date i' r' -> i = i' /\ r = r'.
Proof.
  intros (L1 & F1 & N1) (L2 & F2 & N2).
  assert (i = i').
  { destruct (Nat.lt_trichotomy i i') as [Lt | [E | Gt]]; [| assumption |].
    - destruct (N1 i' r' Lt L2 F2).
    - destruct (N2 i r Gt L1 F1). }
  subst i'. split; [reflexivity | congruence].
Qed.

Lemma Main_findTodayRecord_spec sheet employeeName date :
  match Main.findTodayRecord sheet employeeName date with
  | Ok (Some rec) =>
      exists i r,
        Ledger.most_recent_by Main.dateString sheet employeeName date i r
        /\ rec = Ledger.found i r
  | Ok None => Ledger.no_record_by Main.dateString sheet employeeName date
  | Throw _ => False
  end.
Proof.
  rewrite Main_findTodayRecord_scan.
  apply scan_most_recent. intros r. apply Main_matches_is_for.
Qed.


Lemma Alt_dateString_normalized c :
  Alt.dateString c = Ledger.normalized_date Alt.TIMEZONE c.
Proof. destruct c; reflexivity. Qed.

Lemma Main_dateString_normalized c :
  Ledger.trimmed_text c ->
  Main.dateString c = Ledger.normalized_date Main.TIMEZONE c.
Proof.
  destruct c;
    cbn [Main.dateString Ledger.normalized_date Ledger.trimmed_text];
    intros E; congruence.
Qed.

(** On a ledger whose text dates are trimmed, the reading of the first copy
    and the normalized date single out the same records. *)
Lemma trimmed_is_for sheet name date i r :
  Ledger.dates_trimmed sheet ->
  Ledger.records sheet !! i = Some r ->
  (Ledger.is_for_by Main.dateString r name date
   <-> Ledger.is_for_by (Ledger.normalized_date Main.TIMEZONE) r name date).
Proof.
  intros T L. unfold Ledger.is_for_by.
  rewrite (Main_dateString_normalized _ (T i r L)). reflexivity.
Qed.

(** C7.  [findTodayRecord] never fails.  The second copy returns the most
    recent record whose trimmed employee name is the trimmed name asked for
    and whose normalized date is the date asked for, with its row number and
    its two punch times, and nothing exactly when the ledger holds no such
    record (in particular when it is empty).  The first copy does so on a
    ledger whose text dates have no white space around them; it compares a
    text date untrimmed, and misses the record whose date is written with a
    space before it, which the second copy finds. *)
Theorem findTodayRecord_most_recent sheet employeeName date :
  match Alt.findTodayRecord sheet employeeName date with
  | Ok (Some rec) =>
      exists i r,
        Ledger.most_recent_by (Ledger.normalized_date Alt.TIMEZONE)
          sheet employeeName date i r
        /\ rec = Ledger.found i r
  | Ok None =>
      Ledger.no_record_by (Ledger.normalized_date Alt.TIMEZONE)
        sheet employeeName date
  | Throw _ => False
  end
  /\ (Ledger.dates_trimmed sheet ->
      match Main.findTodayRecord sheet employeeName date with
      | Ok (Some rec) =>
          exists i r,
            Ledger.most_recent_by (Ledger.normalized_date Main.TIMEZONE)
              sheet employeeName date i r
            /\ rec = Ledger.found i r
      | Ok None =>
          Ledger.no_record_by (Ledger.normalized_date Main.TIMEZONE)
            sheet employeeName date
      | Throw _ => False
      end)
  /\ (Ledger.most_recent_by (Ledger.normalized_date Main.TIMEZONE)
        Examples.padded_date "Jane Smith" "2024-01-15" 0
        (Examples.attendance "Jane Smith" " 2024-01-15" "09:00"
           EmptyString "In Progress")
      /\ Main.findTodayRecord Examples.padded_date "Jane Smith" "2024-01-15"
         = Ok None
      /\ Alt.findTodayRecord Examples.padded_date "Jane Smith" "2024-01-15"
         = Ok (Some {| row := 2; punchInTime := "09:00";
                       punchOutTime := EmptyString |})).
Proof.
  split; [| split].
  - rewrite Alt_findTodayRecord_scan.
    apply scan_most_recent. intros r.
    rewrite Alt_matches_is_for. unfold Ledger.is_for_by.
    rewrite Alt_dateString_normalized. reflexivity.
  - intros T. pose proof (Main_findTodayRecord_spec sheet employeeName date) as S.
    destruct (Main.findTodayRecord sheet employeeName date) as [[rec |] | m];
      [| | exact S].
    + destruct S as (i & r & (L & F & Later) & ->).
      exists i, r. split; [| reflexivity].
      split; [exact L |]. split.
      * apply (trimmed_is_for sheet employeeName date i r T L), F.
      * intros j r' Hj Lj Fj.
        apply (Later j r' Hj Lj),
          (trimmed_is_for sheet employeeName date j r' T Lj), Fj.
    + intros j r' Lj Fj.
      apply (S j r' Lj), (trimmed_is_for sheet employeeName date j r' T Lj), Fj.
  - split; [| split; reflexivity].
    split; [reflexivity |]. split; [split; reflexivity |].
    intros j r' Hj Lj. destruct j as [| [| j]]; [lia | |]; discriminate Lj.
Qed.

Lemma Main_findTodayRecord_found sheet name date i r :
  Ledger.most_recent sheet name date i r ->
  Main.findTodayRecord sheet name date = Ok (Some (Ledger.found i r)).
Proof.
  intros M. rewrite Main_findTodayRecord_scan.
  pose proof (scan_most_recent Main.dateString
                (fun r => Main.matches r name date) sheet name date
                (fun r => Main_matches_is_for r name date)) as S.
  destruct (scan _ _ _) as [rec |].
  - destruct S as (i' & r' & M' & ->).
    destruct (most_recent_unique _ _ _ _ _ _ _ _ M M') as [<- <-]. reflexivity.
  - destruct M as (L & F & _). destruct (S i r L F).
Qed.

Lemma Main_findTodayRecord_none sheet name date :
  Ledger.no_record sheet name date ->
  Main.findTodayRecord sheet name date = Ok None.
Proof.
  intros N. rewrite Main_findTodayRecord_scan.
  pose proof (scan_most_recent Main.dateString
                (fun r => Main.matches r name date) sheet name date
                (fun r => Main_matches_is_for r name date)) as S.
  destruct (scan _ _ _) as [rec |]; [| reflexivity].
  destruct S as (i & r & (L & F & _) & _). destruct (N i r L F).
Qed.

Lemma Alt_findTodayRecord_found sheet name date i r :
  Ledger.most_recent_by Alt.dateString sheet name date i r ->
  Alt.findTodayRecord sheet name date = Ok (Some (Ledger.found i r)).
Proof.
  intros M. rewrite Alt_findTodayRecord_scan.
  pose proof (scan_most_recent Alt.dateString
                (fun r => Alt.matches r name date) sheet name date
                (fun r => Alt_matches_is_for r name date)) as S.
  destruct (scan _ _ _) as [rec |].
  - destruct S as (i' & r' & M' & ->).
    destruct (most_recent_unique _ _ _ _ _ _ _ _ M M') as [<- <-]. reflexivity.
  - destruct M as (L & F & _). destruct (S i r L F).
Qed.

Lemma Alt_findTodayRecord_none sheet name date :
  Ledger.no_record_by Alt.dateString sheet name date ->
  Alt.findTodayRecord sheet name date = Ok None.
Proof.
  intros N. rewrite Alt_findTodayRecord_scan.
  pose proof (scan_most_recent Alt.dateString
                (fun r => Alt.matches r name date) sheet name date
                (fun r => Alt_matches_is_for r name date)) as S.
  destruct (scan _ _ _) as [rec |]; [| reflexivity].
  destruct S as (i & r & (L & F & _) & _). destruct (N i r L F).
Qed.

End Lookup.

(** ** Punch-in and punch-out *)

Section Punch.
Context `{Platform}.

Lemma startsWith_append t b : JsString.startsWith (t +:+ b) t = true.
Proof.
  induction t as [| c t IH]; [reflexivity |].
  change (JsString.startsWith (String c (t +:+ b)) (String c t) = true).
  cbn [JsString.startsWith]. rewrite Ascii.eqb_refl. exact IH.
Qed.

Lemma includes_unfold s sub :
  JsString.includes s sub
  = JsString.startsWith s sub
    || match s with
       | EmptyString => false
       | String _ s' => JsString.includes s' sub
       end.
Proof. destruct s; reflexivity. Qed.

Lemma includes_middle a t b : JsString.includes (a +:+ t +:+ b) t = true.
Proof.
  induction a as [| c a IH].
  - change (JsString.includes (t +:+ b) t = true).
    rewrite includes_unfold, startsWith_append. reflexivity.
  - change (JsString.includes (String c (a +:+ t +:+ b)) t = true).
    rewrite includes_unfold, IH. apply orb_true_r.
Qed.

Lemma records_lookup (sheet : list AttendanceRow) i :
  Ledger.records sheet !! i = sheet !! S i.
Proof. unfold Ledger.records. rewrite lookup_drop. reflexivity. Qed.

(** The three writes of a punch-out amount to replacing the row. *)
Lemma setValue_thrice sheet i r time hours status :
  sheet !! S i = Some r ->
  Sheet.setValue
    (Sheet.setValue (Sheet.setValue sheet (i + 2) 4 (CStr time))
                    (i + 2) 5 (CNum hours))
    (i + 2) 6 (CStr status)
  = <[S i := Ledger.punched_out r time hours status]> sheet.
Proof.
  intros L. unfold Sheet.setValue.
  replace (i + 2 - 1)%nat with (S i) by lia.
  apply list_eq. intros j.
  destruct (decide (j = S i)) as [-> | Hne].
  - rewrite !list_lookup_alter_eq, L.
    rewrite list_lookup_insert_eq by (apply lookup_lt_Some in L; exact L).
    reflexivity.
  - rewrite !list_lookup_alter_ne by congruence.
    rewrite list_lookup_insert_ne by congruence. reflexivity.
Qed.

(** The two outcomes of [processPunchIn]. *)
Lemma Main_processPunchIn_cases sheet name date time :
  (exists i r,
      Ledger.most_recent sheet name date i r
      /\ Ledger.has_punchIn r = true
      /\ Main.processPunchIn sheet name date time
         = Ok (Main.createJsonResponse false
                 ("You already punched in today at "
                  +:+ Main.cell_text (att_punchIn r) +:+ ".") None,
               sheet))
  \/ ((Ledger.no_record sheet name date
       \/ exists i r, Ledger.most_recent sheet name date i r
                      /\ Ledger.has_punchIn r = false)
      /\ Main.processPunchIn sheet name date time
         = Ok (Main.createJsonResponse true
                 ("Punch-in successful at " +:+ time +:+ ".") None,
               sheet ++ [Ledger.punched_in name date time])).
Proof.
  unfold Main.processPunchIn.
  pose proof (Main_findTodayRecord_spec sheet name date) as S.
  destruct (Main.findTodayRecord sheet name date) as [[rec |] | m];
    cbn [bind].
  - destruct S as (i & r & M & ->). cbn [punchInTime Ledger.found].
    destruct (JsString.truthy (Main.cell_text (att_punchIn r))) eqn:T.
    + left. exists i, r. auto.
    + right. split; [| reflexivity]. right. exists i, r. auto.
  - right. split; [| reflexivity]. left. exact S.
  - destruct S.
Qed.


(** Two records cannot both be the most recent of a pair, nor can a pair
    have a most recent record and none. *)
Lemma most_recent_not_none norm sheet name date i r :
  Ledger.most_recent_by norm sheet name date i r ->
  Ledger.no_record_by norm sheet name date -> False.
Proof. intros (L & F & _) N. exact (N i r L F). Qed.


(** The three outcomes of [processPunchOut]. *)
Lemma Main_processPunchOut_cases now sheet name date time :
  ((Ledger.no_record sheet name date
    \/ exists i r, Ledger.most_recent sheet name date i r
                   /\ Ledger.has_punchIn r = false)
   /\ Main.processPunchOut now sheet name date time
      = Ok (Main.createJsonResponse false
              "No punch-in record found for today. Please punch in first."
              None,
            sheet))
  \/ (exists i r,
         Ledger.most_recent sheet name date i r
         /\ Ledger.has_punchIn r = true /\ Ledger.has_punchOut r = true
         /\ Main.processPunchOut now sheet name date time
            = Ok (Main.createJsonResponse false
                    ("You already punched out today at "
                     +:+ Main.cell_text (att_punchOut r) +:+ ".") None,
                  sheet))
  \/ (exists i r,
         Ledger.most_recent sheet name date i r
         /\ Ledger.has_punchIn r = true /\ Ledger.has_punchOut r = false
         /\ Main.processPunchOut now sheet name date time
            = Ok (Main.createJsonResponse true
                    ("Punch-out successful at " +:+ time
                     +:+ ". Total hours: "
                     +:+ JsNumber.toFixed2 (Ledger.hours_worked now r time)
                     +:+ " ("
                     +:+ Ledger.status_for (Ledger.hours_worked now r time)
                     +:+ ")") None,
                  <[S i := Ledger.punched_out r time
                             (Ledger.hours_worked now r time)
                             (Ledger.status_for
                                (Ledger.hours_worked now r time))]> sheet)).
Proof.
  unfold Main.processPunchOut.
  pose proof (Main_findTodayRecord_spec sheet name date) as S.
  destruct (Main.findTodayRecord sheet name date) as [[rec |] | m];
    cbn [bind].
  - destruct S as (i & r & M & ->).
    cbn [punchInTime punchOutTime row Ledger.found].
    destruct (JsString.truthy (Main.cell_text (att_punchIn r))) eqn:Tin;
      cbn [negb].
    2:{ left. split; [| reflexivity]. right. exists i, r. auto. }
    destruct (JsString.truthy (Main.cell_text (att_punchOut r))) eqn:Tout.
    + right. left. exists i, r. auto.
    + right. right. exists i, r.
      split; [exact M |]. split; [exact Tin |]. split; [exact Tout |].
      destruct M as (L & _). rewrite records_lookup in L.
      rewrite (setValue_thrice sheet i r) by exact L. reflexivity.
  - left. split; [| reflexivity]. left. exact S.
  - destruct S.
Qed.


End Punch.

(** ** The ledger invariant *)

Section Invariant.
Context `{Platform}.








Lemma records_append sheet (x : AttendanceRow) :
  sheet <> [] -> Ledger.records (sheet ++ [x]) = Ledger.records sheet ++ [x].
Proof. destruct sheet; [congruence | reflexivity]. Qed.


Lemma lookup_snoc_old (l : list AttendanceRow) x i r :
  l !! i = Some r -> (l ++ [x]) !! i = Some r.
Proof. intros L. rewrite lookup_app_l; [exact L |]. eapply lookup_lt_Some, L. Qed.

Lemma lookup_snoc_new (l : list AttendanceRow) x :
  (l ++ [x]) !! length l = Some x.
Proof. rewrite lookup_app_r by lia. rewrite Nat.sub_diag. reflexivity. Qed.



(** What one operation does to the ledger. *)
Lemma step_cases sheet op :
  Ledger.step sheet op = sheet
  \/ (exists name date time,
         (Ledger.no_record sheet name date
          \/ exists i r, Ledger.most_recent sheet name date i r
                         /\ Ledger.has_punchIn r = false)
         /\ Ledger.step sheet op
            = sheet ++ [Ledger.punched_in name date time])
  \/ (exists i r time hours status,
         Ledger.records sheet !! i = Some r
         /\ Ledger.is_open r = true
         /\ Ledger.step sheet op
            = <[S i := Ledger.punched_out r time hours status]> sheet).
Proof.
  unfold Ledger.step, Ledger.perform. destruct op as [n d t | now n d t].
  - destruct (Main_processPunchIn_cases sheet n d t)
      as [(i & r & _ & _ & ->) | [C ->]]; cbn [snd].
    + left. reflexivity.
    + right. left. exists n, d, t. split; [exact C | reflexivity].
  - destruct (Main_processPunchOut_cases now sheet n d t)
      as [[_ ->] | [(i & r & _ & _ & _ & ->) | (i & r & M & Pi & Po & ->)]];
      cbn [snd].
    + left. reflexivity.
    + left. reflexivity.
    + right. right. do 5 eexists. split; [exact (proj1 M) |].
      split; [| reflexivity]. unfold Ledger.is_open. rewrite Pi, Po. reflexivity.
Qed.






(** A ledger whose records all carry a punch-in time, one at most per pair
    being open, is well kept. *)
Lemma punched_in_ledger_well_kept sheet :
  Ledger.one_open_per_pair sheet ->
  (forall i r, Ledger.records sheet !! i = Some r ->
               Ledger.has_punchIn r = true) ->
  Ledger.well_kept sheet.
Proof.
  intros U A. split; [exact U |].
  intros i ri j rj _ _ Lj _ _. exact (A j rj Lj).
Qed.

End Invariant.

(** ** Validation against the directory *)

Section Validation.
Context `{Platform}.

Lemma getValues_below_header {R : Type} (sheet : list R) :
  2 <= Sheet.getLastRow sheet ->
  Sheet.getValuesFromRow2 sheet (Sheet.getLastRow sheet - 1)
  = Ok (drop 1 sheet).
Proof.
  unfold Sheet.getLastRow, Sheet.getValuesFromRow2. intros L.
  destruct (Z.of_nat (length sheet) - 1 <? 1) eqn:C.
  { apply Z.ltb_lt in C. lia. }
  rewrite take_ge; [reflexivity |]. rewrite length_drop. lia.
Qed.

Lemma getValues_no_rows {R : Type} (sheet : list R) :
  Sheet.getLastRow sheet < 2 ->
  (exists m, Sheet.getValuesFromRow2 sheet (Sheet.getLastRow sheet - 1)
             = Throw m)
  /\ drop 1 sheet = [].
Proof.
  unfold Sheet.getLastRow, Sheet.getValuesFromRow2. intros L. split.
  - destruct (Z.of_nat (length sheet) - 1 <? 1) eqn:C; [eauto |].
    apply Z.ltb_ge in C. lia.
  - destruct sheet as [| h [| r rest]]; cbn in L; try reflexivity; lia.
Qed.

(** On texts the loop of [validateEmployee] is a search for the first row
    of that name, followed by the comparison of the dates of birth. *)
Lemma Main_validate_loop_strings rows name dob :
  Main.validateEmployee_loop rows (VStr name) (VStr dob)
  = Ok match List.find (Directory.is_named name) rows with
       | Some r =>
           String.eqb (Directory.normalized_dob Main.TIMEZONE r)
                      (JsString.trim dob)
       | None => false
       end.
Proof.
  induction rows as [| r rows IH]; [reflexivity |].
  cbn [Main.validateEmployee_loop List.find].
  unfold Directory.is_named, Directory.trimmed_name at 1.
  destruct (JsCell.truthy (emp_name r)); cbn [andb]; [| exact IH].
  cbn [JsValue.trim JsValue.as_string_receiver bind].
  destruct (String.eqb _ (JsString.trim name)); [| exact IH].
  unfold Directory.normalized_dob. destruct (emp_dob r); reflexivity.
Qed.

Lemma Alt_validate_loop_strings rows name dob :
  Alt.validateEmployee_loop rows (VStr name) (VStr dob)
  = Ok match List.find (Directory.is_named name) rows with
       | Some r =>
           String.eqb (Directory.normalized_dob Alt.TIMEZONE r)
                      (JsString.trim dob)
       | None => false
       end.
Proof.
  induction rows as [| r rows IH]; [reflexivity |].
  cbn [Alt.validateEmployee_loop List.find].
  unfold Directory.is_named, Directory.trimmed_name at 1.
  destruct (JsCell.truthy (emp_name r)); cbn [andb]; [| exact IH].
  cbn [JsValue.trim JsValue.as_string_receiver bind].
  destruct (String.eqb _ (JsString.trim name)); [| exact IH].
  unfold Directory.normalized_dob. destruct (emp_dob r); reflexivity.
Qed.

Lemma Main_validateEmployee_strings store name dob :
  Main.validateEmployee store (VStr name) (VStr dob)
  = match Directory.lookupEmployee store name with
    | Some r =>
        String.eqb (Directory.normalized_dob Main.TIMEZONE r)
                   (JsString.trim dob)
    | None => false
    end.
Proof.
  unfold Main.validateEmployee, Directory.lookupEmployee, Directory.entries.
  destruct store as [m | ss]; [reflexivity |]. cbn [Sheet.openById bind].
  destruct (employeeSheet ss) as [sheet |]; [| reflexivity].
  destruct (Z_lt_le_dec (Sheet.getLastRow sheet) 2) as [Short | Long].
  - destruct (getValues_no_rows sheet Short) as [[m ->] ->]. reflexivity.
  - rewrite getValues_below_header by assumption. cbn [bind].
    rewrite Main_validate_loop_strings. reflexivity.
Qed.

Lemma Alt_validateEmployee_strings store name dob :
  Alt.validateEmployee store (VStr name) (VStr dob)
  = match Directory.lookupEmployee store name with
    | Some r =>
        String.eqb (Directory.normalized_dob Alt.TIMEZONE r)
                   (JsString.trim dob)
    | None => false
    end.
Proof.
  unfold Alt.validateEmployee, Directory.lookupEmployee, Directory.entries.
  destruct store as [m | ss]; [reflexivity |]. cbn [Sheet.openById bind].
  destruct (employeeSheet ss) as [sheet |]; [| reflexivity].
  destruct (Sheet.getLastRow sheet <=? 1) eqn:C.
  - apply Z.leb_le in C.
    destruct (getValues_no_rows sheet ltac:(lia)) as [_ ->]. reflexivity.
  - apply Z.leb_gt in C. rewrite getValues_below_header by lia. cbn [bind].
    rewrite Alt_validate_loop_strings. reflexivity.
Qed.

(** Off texts the loop answers no or throws. *)
Lemma Main_validate_loop_not_strings rows name dob :
  (forall s, name <> VStr s) \/ (forall s, dob <> VStr s) ->
  Main.validateEmployee_loop rows name dob = Ok false
  \/ exists m, Main.validateEmployee_loop rows name dob = Throw m.
Proof.
  intros N. induction rows as [| r rows IH]; [left; reflexivity |].
  cbn [Main.validateEmployee_loop].
  destruct (JsCell.truthy (emp_name r)); [| exact IH].
  destruct name as [| | b | x | s | items | fields];
    try (right; eexists; reflexivity).
  cbn [JsValue.trim JsValue.as_string_receiver bind].
  destruct (String.eqb _ (JsString.trim s)); [| exact IH].
  destruct N as [N | N]; [destruct (N s); reflexivity |].
  destruct dob as [| | b | x | d | items | fields];
    try (right; eexists; reflexivity).
  destruct (N d). reflexivity.
Qed.

Lemma Main_validateEmployee_not_strings store name dob :
  (forall s, name <> VStr s) \/ (forall s, dob <> VStr s) ->
  Main.validateEmployee store name dob = false.
Proof.
  intros N. unfold Main.validateEmployee.
  destruct store as [m | ss]; [reflexivity |]. cbn [Sheet.openById bind].
  destruct (employeeSheet ss) as [sheet |]; [| reflexivity].
  destruct (Sheet.getValuesFromRow2 sheet (Sheet.getLastRow sheet - 1))
    as [rows | m]; [| reflexivity].
  cbn [bind].
  destruct (Main_validate_loop_not_strings rows name dob N) as [-> | [m ->]];
    reflexivity.
Qed.

(** Past the gate of [processPunch] the name and the date of birth are
    texts. *)
Lemma validated_fields_are_texts store name dob :
  Main.validateEmployee store name dob = true ->
  (exists s, name = VStr s) /\ (exists s, dob = VStr s).
Proof.
  intros V. split.
  - destruct name; eauto;
      rewrite Main_validateEmployee_not_strings in V
        by (left; intros ?; discriminate); discriminate.
  - destruct dob; eauto;
      rewrite Main_validateEmployee_not_strings in V
        by (right; intros ?; discriminate); discriminate.
Qed.

(** C6, as the code has it.  On texts [validateEmployee] answers yes
    exactly when the first row of the directory that carries a name and
    whose trimmed name is the trimmed name given has, for its date of birth
    normalized to [YYYY-MM-DD], the trimmed date given; it answers no when
    no row is of that name, when the directory is empty or cannot be read,
    and when an argument is not a text.  For a row that is the first of its
    name, its name and its normalized date of birth validate. *)
Theorem validateEmployee_first_match store name dob :
  (Main.validateEmployee store (VStr name) (VStr dob) = true <->
   exists r, Directory.lookupEmployee store name = Some r
             /\ Directory.normalized_dob Main.TIMEZONE r
                = JsString.trim dob)
  /\ (Directory.lookupEmployee store name = None ->
      Main.validateEmployee store (VStr name) (VStr dob) = false)
  /\ (Directory.entries store = [] ->
      Main.validateEmployee store (VStr name) (VStr dob) = false)
  /\ (forall v w,
         (forall s, v <> VStr s) \/ (forall s, w <> VStr s) ->
         Main.validateEmployee store v w = false)
  /\ (forall r given,
         Directory.lookupEmployee store (JsCell.toString (emp_name r))
         = Some r ->
         JsString.trim given = Directory.normalized_dob Main.TIMEZONE r ->
         Main.validateEmployee store (VStr (JsCell.toString (emp_name r)))
                               (VStr given) = true).
Proof.
  split; [| split; [| split; [| split]]].
  - rewrite Main_validateEmployee_strings.
    destruct (Directory.lookupEmployee store name) as [r |].
    + rewrite String.eqb_eq. split.
      * intros E. exists r. auto.
      * intros (r' & [= <-] & E). exact E.
    + split; [discriminate | intros (r' & E & _); discriminate].
  - intros E. rewrite Main_validateEmployee_strings, E. reflexivity.
  - intros E. rewrite Main_validateEmployee_strings.
    unfold Directory.lookupEmployee. rewrite E. reflexivity.
  - intros v w. apply Main_validateEmployee_not_strings.
  - intros r given L E. rewrite Main_validateEmployee_strings, L.
    apply String.eqb_eq. congruence.
Qed.

Lemma absent_lookup store name :
  Directory.absent store name -> Directory.lookupEmployee store name = None.
Proof.
  unfold Directory.absent, Directory.lookupEmployee.
  induction (Directory.entries store) as [| r rows IH]; intros A;
    [reflexivity |].
  cbn [List.find]. unfold Directory.is_named at 1.
  destruct (String.eqb_spec (Directory.trimmed_name r) (JsString.trim name))
    as [E | _].
  - destruct (A r (or_introl eq_refl) E).
  - rewrite andb_false_r. apply IH. intros r' I. apply A. right. exact I.
Qed.

Lemma truthy_nonempty s : s <> EmptyString -> JsString.truthy s = true.
Proof. destruct s; [congruence | reflexivity]. Qed.

(** A well-formed punch that does not validate gets the one refusal. *)
Lemma Main_processPunch_refused store now name dob punchType :
  Directory.well_formed_punch name dob punchType ->
  Main.validateEmployee store (VStr name) (VStr dob) = false ->
  Main.processPunch store now (VStr name) (VStr dob) (VStr punchType)
  = (Main.createJsonResponse false Directory.generic_refusal None, store).
Proof.
  intros (Hn & Hd & Ht) V. unfold Main.processPunch.
  cbn [JsValue.truthy JsValue.is_string].
  rewrite (truthy_nonempty name Hn), (truthy_nonempty dob Hd).
  assert (JsString.truthy punchType = true) as ->
      by (destruct Ht; subst; reflexivity).
  cbn [negb orb].
  assert (negb (String.eqb punchType "in") && negb (String.eqb punchType "out")
          = false) as -> by (destruct Ht; subst; reflexivity).
  rewrite V. reflexivity.
Qed.

Lemma Alt_processPunch_refused store now name dob punchType :
  Directory.well_formed_punch name dob punchType ->
  Alt.validateEmployee store (VStr name) (VStr dob) = false ->
  Alt.processPunch store now (VStr name) (VStr dob) (VStr punchType)
  = (Alt.createResponse false Directory.generic_refusal None, store).
Proof.
  intros (Hn & Hd & Ht) V. unfold Alt.processPunch.
  cbn [JsValue.truthy JsValue.is_string].
  rewrite (truthy_nonempty name Hn), (truthy_nonempty dob Hd).
  assert (JsString.truthy punchType = true) as ->
      by (destruct Ht; subst; reflexivity).
  cbn [negb orb].
  assert (negb (String.eqb punchType "in") && negb (String.eqb punchType "out")
          = false) as -> by (destruct Ht; subst; reflexivity).
  rewrite V. reflexivity.
Qed.

(** C8.  Two well-formed punch requests against the same directory, one
    for a name that no row has, one for a name whose first row has another
    date of birth, get the same response, the one generic refusal, and leave
    the store alone.  Both copies. *)
Theorem unknown_name_and_wrong_dob_alike
  store now name1 dob1 type1 name2 dob2 type2 r :
  Directory.well_formed_punch name1 dob1 type1 ->
  Directory.well_formed_punch name2 dob2 type2 ->
  Directory.absent store name1 ->
  Directory.lookupEmployee store name2 = Some r ->
  Directory.normalized_dob Main.TIMEZONE r <> JsString.trim dob2 ->
  Directory.normalized_dob Alt.TIMEZONE r <> JsString.trim dob2 ->
  Main.processPunch store now (VStr name1) (VStr dob1) (VStr type1)
  = Main.processPunch store now (VStr name2) (VStr dob2) (VStr type2)
  /\ Main.processPunch store now (VStr name1) (VStr dob1) (VStr type1)
     = (Main.createJsonResponse false
          "Employee not found or date of birth is incorrect." None, store)
  /\ Alt.processPunch store now (VStr name1) (VStr dob1) (VStr type1)
     = Alt.processPunch store now (VStr name2) (VStr dob2) (VStr type2)
  /\ Alt.processPunch store now (VStr name1) (VStr dob1) (VStr type1)
     = (Alt.createResponse false
          "Employee not found or date of birth is incorrect." None, store).
Proof.
  intros W1 W2 A L Dm Da.
  apply absent_lookup in A.
  assert (M1 : Main.validateEmployee store (VStr name1) (VStr dob1) = false)
    by (rewrite Main_validateEmployee_strings, A; reflexivity).
  assert (M2 : Main.validateEmployee store (VStr name2) (VStr dob2) = false).
  { rewrite Main_validateEmployee_strings, L. apply String.eqb_neq, Dm. }
  assert (A1 : Alt.validateEmployee store (VStr name1) (VStr dob1) = false)
    by (rewrite Alt_validateEmployee_strings, A; reflexivity).
  assert (A2 : Alt.validateEmployee store (VStr name2) (VStr dob2) = false).
  { rewrite Alt_validateEmployee_strings, L. apply String.eqb_neq, Da. }
  rewrite (Main_processPunch_refused store now name1 dob1 type1 W1 M1).
  rewrite (Main_processPunch_refused store now name2 dob2 type2 W2 M2).
  rewrite (Alt_processPunch_refused store now name1 dob1 type1 W1 A1).
  rewrite (Alt_processPunch_refused store now name2 dob2 type2 W2 A2).
  repeat split.
Qed.

End Validation.

(** ** The entry points *)

Section Envelope.
Context `{Platform}.

Lemma same_spreadsheet ss sheet :
  attendanceSheet ss = Some sheet ->
  {| employeeSheet := employeeSheet ss; attendanceSheet := Some sheet |} = ss.
Proof. destruct ss; cbn. intros ->. reflexivity. Qed.

Lemma getEmployees_envelope store :
  data (Main.getEmployees store) = None
  /\ (success (Main.getEmployees store) = true ->
      exists ss sheet, store = Reachable ss /\ employeeSheet ss = Some sheet)
  /\ (success (Main.getEmployees store) = false ->
      JsString.truthy (message (Main.getEmployees store)) = true
      /\ employees (Main.getEmployees store) = None).
Proof.
  unfold Main.getEmployees.
  destruct store as [m | ss]; cbn [Sheet.openById bind try_catch].
  { repeat split; discriminate. }
  destruct (employeeSheet ss) as [sheet |] eqn:E.
  2:{ repeat split; discriminate. }
  destruct (Sheet.getLastRow sheet <=? 1).
  { repeat split; try discriminate. intros _. eauto. }
  destruct (Sheet.getValuesFromRow2 sheet (Sheet.getLastRow sheet - 1))
    as [rows | m]; cbn [bind try_catch].
  - repeat split; try discriminate. intros _. eauto.
  - repeat split; discriminate.
Qed.

Lemma getEmployees_names store names c :
  employees (Main.getEmployees store) = Some names -> In c names ->
  exists r, In r (Directory.entries store) /\ c = emp_name r
            /\ JsCell.truthy c = true.
Proof.
  unfold Main.getEmployees, Directory.entries.
  destruct store as [m | ss]; cbn [Sheet.openById bind try_catch];
    [discriminate |].
  destruct (employeeSheet ss) as [sheet |]; [| discriminate].
  destruct (Sheet.getLastRow sheet <=? 1) eqn:C.
  { cbn. intros [= <-] []. }
  apply Z.leb_gt in C. rewrite getValues_below_header by lia.
  cbn [bind try_catch Main.createJsonResponse employees].
  intros [= <-] I. apply filter_In in I. destruct I as [I T].
  apply in_map_iff in I. destruct I as (r & <- & I).
  apply andb_true_iff in T. exists r. tauto.
Qed.

Lemma doGet_names store e names c :
  employees (Main.doGet store e) = Some names -> In c names ->
  exists r, In r (Directory.entries store) /\ c = emp_name r
            /\ JsCell.truthy c = true.
Proof.
  unfold Main.doGet.
  destruct (JsValue.get e "parameter") as [parameter | m];
    cbn [bind try_catch]; [| discriminate].
  destruct (JsValue.get parameter "action") as [action | m];
    cbn [bind try_catch]; [| discriminate].
  destruct (JsValue.is_string action "getEmployees"); cbn [try_catch];
    [| discriminate].
  apply getEmployees_names.
Qed.

Lemma doGet_envelope store e :
  data (Main.doGet store e) = None
  /\ (forall names, employees (Main.doGet store e) = Some names ->
                    Request.lists_employees e
                    /\ success (Main.doGet store e) = true)
  /\ (success (Main.doGet store e) = true ->
      Request.lists_employees e
      /\ exists ss sheet, store = Reachable ss /\ employeeSheet ss = Some sheet)
  /\ (success (Main.doGet store e) = false ->
      JsString.truthy (message (Main.doGet store e)) = true).
Proof.
  unfold Main.doGet, Request.lists_employees.
  destruct (JsValue.get e "parameter") as [parameter | m] eqn:Ep;
    cbn [bind try_catch].
  2:{ repeat split; discriminate. }
  destruct (JsValue.get parameter "action") as [action | m] eqn:Ea;
    cbn [bind try_catch].
  2:{ repeat split; discriminate. }
  destruct (JsValue.is_string action "getEmployees") eqn:Ei;
    cbn [try_catch].
  2:{ repeat split; discriminate. }
  assert (action = VStr "getEmployees") as ->.
  { destruct action; try discriminate Ei. cbn in Ei.
    apply String.eqb_eq in Ei. congruence. }
  destruct (getEmployees_envelope store) as (D & S & F).
  split; [exact D |]. split; [| split].
  - intros names En. split; [eauto |].
    destruct (success (Main.getEmployees store)); [reflexivity |].
    destruct (F eq_refl) as [_ N]. congruence.
  - intros T. split; [eauto | exact (S T)].
  - intros T. exact (proj1 (F T)).
Qed.

Lemma processPunch_envelope store now name dob punchType :
  data (fst (Main.processPunch store now name dob punchType)) = None
  /\ employees (fst (Main.processPunch store now name dob punchType)) = None
  /\ (success (fst (Main.processPunch store now name dob punchType)) = true ->
      Main.validateEmployee store name dob = true
      /\ (punchType = VStr "in" \/ punchType = VStr "out")
      /\ exists ss sheet,
          store = Reachable ss /\ attendanceSheet ss = Some sheet)
  /\ (success (fst (Main.processPunch store now name dob punchType)) = false ->
      JsString.truthy
        (message (fst (Main.processPunch store now name dob punchType)))
      = true
      /\ snd (Main.processPunch store now name dob punchType) = store).
Proof.
  unfold Main.processPunch.
  destruct (negb (JsValue.truthy name) || negb (JsValue.truthy dob)
            || negb (JsValue.truthy punchType)).
  { cbn. repeat split; discriminate. }
  destruct (JsValue.is_string punchType "in") eqn:Tin;
    destruct (JsValue.is_string punchType "out") eqn:Tout; cbn [negb andb].
  4:{ cbn. repeat split; discriminate. }
  all: destruct (Main.validateEmployee store name dob) eqn:V; cbn [negb];
    [| cbn; repeat split; discriminate].
  all: assert (PT : punchType = VStr "in" \/ punchType = VStr "out")
    by (destruct punchType; try discriminate Tin; try discriminate Tout;
        cbn in Tin, Tout;
        first [apply String.eqb_eq in Tin; subst; auto
              | apply String.eqb_eq in Tout; subst; auto]).
  all: destruct store as [m | ss]; cbn [Sheet.openById bind try_catch];
    [cbn; repeat split; discriminate |].
  all: destruct (attendanceSheet ss) as [sheet |] eqn:As;
    [| cbn; repeat split; discriminate].
  all: destruct name as [| | b | x | n | items | fields];
    cbn [JsValue.as_string_receiver bind try_catch];
    try (cbn; repeat split; discriminate).
  - destruct (Main_processPunchIn_cases sheet n
                (Utilities_formatDate now Main.TIMEZONE "yyyy-MM-dd")
                (Utilities_formatDate now Main.TIMEZONE "HH:mm"))
      as [(i & r & _ & _ & ->) | [_ ->]]; cbn [bind try_catch fst snd].
    + rewrite (same_spreadsheet ss sheet As). cbn. repeat split; discriminate.
    + cbn. repeat split; try discriminate; eauto.
  - destruct (Main_processPunchIn_cases sheet n
                (Utilities_formatDate now Main.TIMEZONE "yyyy-MM-dd")
                (Utilities_formatDate now Main.TIMEZONE "HH:mm"))
      as [(i & r & _ & _ & ->) | [_ ->]]; cbn [bind try_catch fst snd].
    + rewrite (same_spreadsheet ss sheet As). cbn. repeat split; discriminate.
    + cbn. repeat split; try discriminate; eauto.
  - destruct (Main_processPunchOut_cases now sheet n
                (Utilities_formatDate now Main.TIMEZONE "yyyy-MM-dd")
                (Utilities_formatDate now Main.TIMEZONE "HH:mm"))
      as [[_ ->] | [(i & r & _ & _ & _ & ->) | (i & r & _ & _ & _ & ->)]];
      cbn [bind try_catch fst snd].
    + rewrite (same_spreadsheet ss sheet As). cbn. repeat split; discriminate.
    + rewrite (same_spreadsheet ss sheet As). cbn. repeat split; discriminate.
    + cbn. repeat split; try discriminate; eauto.
Qed.

(** C9.  Whatever the event and the store, [doGet] and [doPost] return a
    response: a success flag, a message, the list of employees only on a
    listing that succeeded (the name cells of directory rows), and no other
    field.  A success means that the request was a listing (a punch of a
    validated employee) and that the store and its sheet could be read;
    every other path, the exceptions included, ends in a response with
    [success = false] and a message that is not empty, and a failed punch
    leaves the store as it was. *)
Theorem entry_points_envelope store now e :
  (data (Main.doGet store e) = None
   /\ (forall names, employees (Main.doGet store e) = Some names ->
                     Request.lists_employees e
                     /\ success (Main.doGet store e) = true)
   /\ (forall names c, employees (Main.doGet store e) = Some names ->
                       In c names ->
                       exists r, In r (Directory.entries store)
                                 /\ c = emp_name r
                                 /\ JsCell.truthy c = true)
   /\ (success (Main.doGet store e) = true ->
       Request.lists_employees e
       /\ exists ss sheet,
           store = Reachable ss /\ employeeSheet ss = Some sheet)
   /\ (success (Main.doGet store e) = false ->
       JsString.truthy (message (Main.doGet store e)) = true))
  /\ (data (fst (Main.doPost store now e)) = None
      /\ employees (fst (Main.doPost store now e)) = None
      /\ (success (fst (Main.doPost store now e)) = true ->
          exists body name dob,
            Request.punches e body
            /\ JsValue.get body "employeeName" = Ok name
            /\ JsValue.get body "dateOfBirth" = Ok dob
            /\ Main.validateEmployee store name dob = true
            /\ exists ss sheet,
                store = Reachable ss /\ attendanceSheet ss = Some sheet)
      /\ (success (fst (Main.doPost store now e)) = false ->
          JsString.truthy (message (fst (Main.doPost store now e))) = true
          /\ snd (Main.doPost store now e) = store)).
Proof.
  split.
  { destruct (doGet_envelope store e) as (D & N & S & F).
    repeat split; try assumption; try (apply N; assumption).
    - eapply N; eassumption.
    - eapply N; eassumption.
    - apply doGet_names.
    - apply S; assumption.
    - apply S; assumption. }
  unfold Main.doPost, Request.punches.
  destruct (JsValue.get e "postData") as [postData | m] eqn:Ep;
    cbn [bind try_catch].
  2:{ cbn. repeat split; discriminate. }
  destruct (JsValue.get postData "contents") as [contents | m] eqn:Ec;
    cbn [bind try_catch].
  2:{ cbn. repeat split; discriminate. }
  destruct (JSON_parse contents) as [body | m] eqn:Ej; cbn [bind try_catch].
  2:{ cbn. repeat split; discriminate. }
  destruct (JsValue.get body "action") as [action | m] eqn:Ea;
    cbn [bind try_catch].
  2:{ cbn. repeat split; discriminate. }
  destruct (JsValue.is_string action "punch") eqn:Ei.
  2:{ cbn. repeat split; discriminate. }
  assert (action = VStr "punch") as ->.
  { destruct action; try discriminate Ei. cbn in Ei.
    apply String.eqb_eq in Ei. congruence. }
  destruct (JsValue.get body "employeeName") as [name | m] eqn:En;
    cbn [bind try_catch]; [| cbn; repeat split; discriminate].
  destruct (JsValue.get body "dateOfBirth") as [dob | m] eqn:Ed;
    cbn [bind try_catch]; [| cbn; repeat split; discriminate].
  destruct (JsValue.get body "punchType") as [punchType | m];
    cbn [bind try_catch]; [| cbn; repeat split; discriminate].
  destruct (processPunch_envelope store now name dob punchType)
    as (D & E & S & F).
  split; [exact D |]. split; [exact E |]. split; [| exact F].
  intros T. destruct (S T) as (V & _ & R).
  exists body, name, dob. split; [eauto 10 |]. auto.
Qed.

(** ** The two copies compared *)

Lemma Alt_matches_alike r name date :
  Alt.dateString (att_date r) = Main.dateString (att_date r) ->
  Alt.matches r name date = Main.matches r name date.
Proof. unfold Alt.matches, Main.matches. intros ->. reflexivity. Qed.

(** C10, as the code has it.  The two copies of [calculateWorkingHours]
    return the same value on every input.  The two copies of
    [findTodayRecord] return the same result on every ledger whose date
    cells the two read alike: a text without white space around it, a date
    that formats to the same day in both time zones. *)
Theorem copies_agree :
  (forall now punchInTime punchOutTime,
      Alt.calculateWorkingHours now punchInTime punchOutTime
      = Main.calculateWorkingHours now punchInTime punchOutTime)
  /\ (forall sheet employeeName date,
         Ledger.dates_read_alike sheet ->
         Alt.findTodayRecord sheet employeeName date
         = Main.findTodayRecord sheet employeeName date).
Proof.
  split; [reflexivity |].
  intros sheet name date A.
  rewrite Alt_findTodayRecord_scan, Main_findTodayRecord_scan. f_equal.
  apply scan_ext. intros i r L. apply Alt_matches_alike.
  specialize (A i r L). unfold Alt.dateString, Main.dateString.
  destruct (att_date r); cbn in A |- *; congruence.
Qed.

End Envelope.

(** ** The model at work *)

Section Runs.
#[local] Existing Instance Sample.platform.

Import Examples.

(** The day of section 8: Jane Smith punches in at 09:00 and again, then
    out at 17:15 and again. *)
Example a_day_at_the_office :
  let in1 := Main.processPunch (office [attendance_header]) nine_o_clock
               (VStr "Jane Smith") (VStr "1990-07-22") (VStr "in") in
  let in2 := Main.processPunch (snd in1) nine_o_clock
               (VStr "Jane Smith") (VStr "1990-07-22") (VStr "in") in
  let out1 := Main.processPunch (snd in2) (nine_o_clock + 29700000)
                (VStr "Jane Smith") (VStr "1990-07-22") (VStr "out") in
  let out2 := Main.processPunch (snd out1) (nine_o_clock + 29700000)
                (VStr "Jane Smith") (VStr "1990-07-22") (VStr "out") in
  (success (fst in1), message (fst in1))
  = (true, "Punch-in successful at 09:00.")
  /\ (success (fst in2), message (fst in2))
     = (false, "You already punched in today at 09:00.")
  /\ (success (fst out1), message (fst out1))
     = (true, "Punch-out successful at 17:15. Total hours: 8.25 (On Time)")
  /\ (success (fst out2), message (fst out2))
     = (false, "You already punched out today at 17:15.")
  /\ snd out2
     = office [attendance_header;
               {| att_name := CStr "Jane Smith"; att_date := CStr "2024-01-15";
                  att_punchIn := CStr "09:00"; att_punchOut := CStr "17:15";
                  att_totalHours := CNum (JsNumber.hundredths 825);
                  att_status := CStr "On Time" |}].
Proof. vm_compute. repeat split. Qed.

(** The same punch-in through [doPost], and the listing through [doGet]. *)
Example a_request_and_a_listing :
  message
    (fst (Main.doPost (office [attendance_header]) nine_o_clock
            (VObj [("postData",
                    VObj [("contents",
                           VStr punch_in_body)])])))
  = "Punch-in successful at 09:00."
  /\ Main.doGet (office [attendance_header])
       (VObj [("parameter", VObj [("action", VStr "getEmployees")])])
     = {| success := true; message := "Employees retrieved successfully.";
          employees := Some [CStr "John Doe"; CStr "Jane Smith";
                             CStr "Peter Jones"; CStr "Mary Williams"];
          data := None |}.
Proof. vm_compute. repeat split. Qed.

(** A punch-in time that comes back from the sheet as a date does not parse:
    the punch-out records [NaN] hours and Less Hours. *)
Example a_time_cell_read_as_a_date :
  JsCell.toString (CDate (-2209129200000))
  = "Sat Dec 30 1899 09:00:00 GMT+0000 (Coordinated Universal Time)"
  /\ Main.processPunchOut (nine_o_clock + 28800000) time_as_date
       "Jane Smith" "2024-01-15" "17:00"
     = Ok ({| success := true;
              message :=
                "Punch-out successful at 17:00. Total hours: NaN (Less Hours)";
              employees := None; data := None |},
           [attendance_header;
            {| att_name := CStr "Jane Smith"; att_date := CStr "2024-01-15";
               att_punchIn := CDate (-2209129200000);
               att_punchOut := CStr "17:00";
               att_totalHours := CNum NaN;
               att_status := CStr "Less Hours" |}]).
Proof. vm_compute. repeat split. Qed.

End Runs.

(** ** Witnesses and counterexamples *)




(** C7: on a ledger of two days the record of the day asked for is found,
    not the last row of the employee. *)
Lemma findTodayRecord_most_recent_witness :
  exists i r,
    @Ledger.most_recent_by Sample.platform
      (@Ledger.normalized_date Sample.platform Main.TIMEZONE)
      Examples.two_days "Jane Smith" "2024-01-15" i r
    /\ @Main.findTodayRecord Sample.platform Examples.two_days
         "Jane Smith" "2024-01-15"
       = Ok (Some {| row := 2; punchInTime := "09:00";
                     punchOutTime := "17:15" |})
    /\ @Ledger.found Sample.platform i r
       = {| row := 2; punchInTime := "09:00"; punchOutTime := "17:15" |}.
Proof.
  assert (T : @Ledger.dates_trimmed Sample.platform Examples.two_days).
  { intros i r L. destruct i as [| [| i]]; try discriminate L;
      injection L as <-; reflexivity. }
  assert (E : @Main.findTodayRecord Sample.platform Examples.two_days
                "Jane Smith" "2024-01-15"
              = Ok (Some {| row := 2; punchInTime := "09:00";
                            punchOutTime := "17:15" |})) by reflexivity.
  pose proof (proj1 (proj2 (@findTodayRecord_most_recent Sample.platform
                              Examples.two_days "Jane Smith" "2024-01-15"))
                T) as W.
  rewrite E in W. destruct W as (i & r & M & F).
  exists i, r. split; [exact M |]. split; [exact E |]. symmetry. exact F.
Defined.

(** C9 as stated fails: the listing holds the name cells as the sheet
    stores them, and a name cell that is a number or a boolean is listed as
    a number or a boolean, not as text. *)
Lemma numbers_listed_as_numbers :
  @Main.doGet Sample.platform Examples.numbered
    (VObj [("parameter", VObj [("action", VStr "getEmployees")])])
  = {| success := true; message := "Employees retrieved successfully.";
       employees := Some [CNum (JsNumber.of_Z 42); CBool true];
       data := None |}.
Proof. reflexivity. Qed.

(** C6 as stated fails: the second of two rows of one name is a directory
    entry, and its name and date of birth do not validate. *)
Lemma second_namesake_refused :
  @Directory.entries Examples.namesakes !! 1%nat
  = Some (Examples.employee "Jane Smith" "1985-03-15")
  /\ @Main.validateEmployee Sample.platform Examples.namesakes
       (VStr "Jane Smith") (VStr "1985-03-15") = false.
Proof. split; reflexivity. Qed.

(** A blank row is skipped although, trimmed, its name and its date of birth
    are those of a request made of spaces. *)
Lemma blank_row_skipped :
  @Directory.entries Examples.gapped !! 0%nat
  = Some (Examples.employee EmptyString EmptyString)
  /\ JsString.trim "  " = EmptyString
  /\ @Main.validateEmployee Sample.platform Examples.gapped
       (VStr "  ") (VStr "  ") = false.
Proof. repeat split. Qed.

(** C8: an unknown name and Jane Smith with a wrong date of birth. *)
Lemma unknown_name_and_wrong_dob_alike_witness :
  @Main.processPunch Sample.platform
    (Examples.office [Examples.attendance_header]) Examples.nine_o_clock
    (VStr "Alice Unknown") (VStr "1990-07-22") (VStr "in")
  = @Main.processPunch Sample.platform
      (Examples.office [Examples.attendance_header]) Examples.nine_o_clock
      (VStr "Jane Smith") (VStr "1991-01-01") (VStr "out").
Proof.
  refine (proj1 (@unknown_name_and_wrong_dob_alike Sample.platform
                   (Examples.office [Examples.attendance_header])
                   Examples.nine_o_clock
                   "Alice Unknown" "1990-07-22" "in"
                   "Jane Smith" "1991-01-01" "out"
                   (Examples.employee "Jane Smith" "1990-07-22")
                   _ _ _ _ _ _)).
  - repeat split; try discriminate. left. reflexivity.
  - repeat split; try discriminate. right. reflexivity.
  - intros r I. cbn in I.
    destruct I as [<- | [<- | [<- | [<- | []]]]]; vm_compute; discriminate.
  - reflexivity.
  - vm_compute. discriminate.
  - vm_compute. discriminate.
Defined.

(** C10 as stated fails: the two copies format a date cell in their own time
    zones, GMT and Warsaw, and late in the evening the days differ. *)
Lemma late_evening_found_by_one_copy :
  @Main.findTodayRecord Sample.platform Examples.late_evening
    "Jane Smith" "2024-01-15"
  = Ok (Some {| row := 2; punchInTime := "09:00";
                punchOutTime := EmptyString |})
  /\ @Alt.findTodayRecord Sample.platform Examples.late_evening
       "Jane Smith" "2024-01-15" = Ok None.
Proof. split; reflexivity. Qed.

(** The two copies differ on text as well: a date cell that is text with a
    leading space is found by the copy that trims it and not by the other. *)
Lemma padded_date_found_by_one_copy :
  @Main.findTodayRecord Sample.platform Examples.padded_date
    "Jane Smith" "2024-01-15" = Ok None
  /\ @Alt.findTodayRecord Sample.platform Examples.padded_date
       "Jane Smith" "2024-01-15"
     = Ok (Some {| row := 2; punchInTime := "09:00";
                   punchOutTime := EmptyString |}).
Proof. split; reflexivity. Qed.




Lemma calculateWorkingHours_unparsable_NaN_witness :
  Spec.unparsable "abc"
  /\ @Main.calculateWorkingHours Sample.platform Examples.nine_o_clock
       (VStr "abc") (VStr "17:00") = NaN.
Proof.
  assert (U : Spec.unparsable "abc").
  { left. intros q. vm_compute. discriminate. }
  split; [exact U |].
  exact (proj1 (@calculateWorkingHours_unparsable_NaN Sample.platform
                  Examples.nine_o_clock "abc" "17:00" (or_introl U))).
Defined.




(** C6: Jane Smith validates with her date of birth, spaces around it or
    not. *)
Lemma validateEmployee_first_match_witness :
  @Main.validateEmployee Sample.platform
    (Examples.office [Examples.attendance_header])
    (VStr "Jane Smith") (VStr " 1990-07-22 ") = true.
Proof.
  exact (proj2 (proj2 (proj2 (proj2
           (@validateEmployee_first_match Sample.platform
              (Examples.office [Examples.attendance_header])
              "Jane Smith" "1990-07-22"))))
           (Examples.employee "Jane Smith" "1990-07-22") " 1990-07-22 "
           eq_refl eq_refl).
Defined.

(** C10: on a ledger of plain text dates the two copies find the same
    record. *)
Lemma copies_agree_witness :
  @Alt.findTodayRecord Sample.platform Examples.one_open
    "Jane Smith" "2024-01-15"
  = @Main.findTodayRecord Sample.platform Examples.one_open
      "Jane Smith" "2024-01-15".
Proof.
  refine (proj2 (@copies_agree Sample.platform) Examples.one_open
            "Jane Smith" "2024-01-15" _).
  intros i r L. destruct i as [| i]; [| discriminate L].
  injection L as <-. reflexivity.
Defined.

(** ** More on the hours calculation *)

Section MoreHours.
Context `{Platform}.

Import RoundingChecks.

Lemma digit_value_cases d : 0 <= d <= 9 -> In d decimal_digit_values.
Proof.
  intros Hd. unfold decimal_digit_values.
  assert (d = 0 \/ d = 1 \/ d = 2 \/ d = 3 \/ d = 4 \/ d = 5 \/ d = 6
          \/ d = 7 \/ d = 8 \/ d = 9) as C by lia.
  cbn. intuition auto.
Qed.

Lemma digit_of_digit_char d :
  0 <= d <= 9 -> JsNumber.digit_of 10 (JsNumber.digit_char d) = Some d.
Proof.
  intros Hd. apply digit_value_cases in Hd. cbn in Hd.
  repeat (destruct Hd as [<- | Hd]; [reflexivity |]). destruct Hd.
Qed.

(** A string that opens with a digit is not trimmed, carries no sign and is
    not the word Infinity. *)
Lemma digit_head_facts d tail :
  0 <= d <= 9 ->
  JsString.trimStart (String (JsNumber.digit_char d) tail)
  = String (JsNumber.digit_char d) tail
  /\ JsNumber.decimal_prefix (String (JsNumber.digit_char d) tail)
     = unsigned_part false (String (JsNumber.digit_char d) tail)
  /\ JsString.startsWith (String (JsNumber.digit_char d) tail) "Infinity"
     = false.
Proof.
  intros Hd. apply digit_value_cases in Hd. cbn in Hd.
  repeat (destruct Hd as [<- | Hd]; [repeat split |]). destruct Hd.
Qed.

Lemma decimal_prefix_minus s :
  JsNumber.decimal_prefix (String "-" s) = unsigned_part true s.
Proof. reflexivity. Qed.

(** The numeral opens with a digit. *)
Lemma decimal_digits_head fuel : forall n acc,
  (1 <= fuel)%nat -> 0 <= n ->
  exists d tail,
    0 <= d <= 9
    /\ JsNumber.decimal_digits fuel n acc = String (JsNumber.digit_char d) tail.
Proof.
  induction fuel as [| f IH]; intros n acc Hf Hn; [lia |].
  cbn [JsNumber.decimal_digits].
  pose proof (Z.mod_pos_bound n 10 ltac:(lia)) as Hm.
  destruct (n <? 10).
  - exists (n mod 10), acc. split; [lia | reflexivity].
  - destruct f as [| f].
    + exists (n mod 10), acc. split; [lia | reflexivity].
    + apply IH; [lia |]. apply Z.div_pos; lia.
Qed.

(** Reading back the numeral of [n]: the digits continue the accumulator. *)
Lemma digits_decimal_digits fuel : forall n acc a c,
  (1 <= fuel)%nat -> 0 <= n < 2 ^ Z.of_nat fuel ->
  exists k : nat,
    (1 <= k)%nat
    /\ JsNumber.digits 10 (JsNumber.decimal_digits fuel n acc) a c
       = JsNumber.digits 10 acc (a * 10 ^ Z.of_nat k + n) (c + k)%nat.
Proof.
  induction fuel as [| f IH]; intros n acc a c Hf Hn; [lia |].
  cbn [JsNumber.decimal_digits].
  pose proof (Z.mod_pos_bound n 10 ltac:(lia)) as Hm.
  pose proof (Z.div_mod n 10 ltac:(lia)) as Hdm.
  destruct (n <? 10) eqn:C.
  - apply Z.ltb_lt in C. exists 1%nat. split; [lia |].
    cbn [JsNumber.digits]. rewrite digit_of_digit_char by lia.
    rewrite Z.mod_small by lia.
    replace (c + 1)%nat with (S c) by lia.
    reflexivity.
  - apply Z.ltb_ge in C.
    assert (Hf' : (1 <= f)%nat).
    { destruct f; [| lia]. change (2 ^ Z.of_nat 1) with 2 in Hn. lia. }
    assert (Hn' : 0 <= n / 10 < 2 ^ Z.of_nat f).
    { split; [apply Z.div_pos; lia |].
      apply Z.div_lt_upper_bound; [lia |].
      rewrite Nat2Z.inj_succ, Z.pow_succ_r in Hn by lia. lia. }
    destruct (IH (n / 10)
                (String (JsNumber.digit_char (n mod 10)) acc) a c Hf' Hn')
      as (k & Hk & E).
    exists (S k). split; [lia |]. rewrite E.
    cbn [JsNumber.digits]. rewrite digit_of_digit_char by lia.
    replace (c + S k)%nat with (S (c + k)) by lia.
    f_equal. rewrite Nat2Z.inj_succ, Z.pow_succ_r by lia. lia.
Qed.

Lemma string_append_assoc a b c : (a +:+ b) +:+ c = a +:+ (b +:+ c).
Proof.
  induction a as [| x a IH]; [reflexivity |].
  change (String x ((a +:+ b) +:+ c) = String x (a +:+ (b +:+ c))).
  f_equal. exact IH.
Qed.

Lemma decimal_digits_append fuel : forall n acc,
  JsNumber.decimal_digits fuel n acc
  = JsNumber.decimal_digits fuel n EmptyString +:+ acc.
Proof.
  induction fuel as [| f IH]; intros n acc; [reflexivity |].
  cbn [JsNumber.decimal_digits]. destruct (n <? 10); [reflexivity |].
  rewrite IH.
  rewrite (IH (n / 10) (String (JsNumber.digit_char (n mod 10)) EmptyString)).
  rewrite string_append_assoc. reflexivity.
Qed.

Lemma numeral_fuel n :
  0 <= n ->
  (1 <= S (Z.to_nat (Z.log2 n)))%nat
  /\ 0 <= n < 2 ^ Z.of_nat (S (Z.to_nat (Z.log2 n))).
Proof.
  intros Hn. split; [lia |]. split; [lia |].
  rewrite Nat2Z.inj_succ, Z2Nat.id by apply Z.log2_nonneg.
  destruct (Z.eq_dec n 0) as [-> | Hne]; [reflexivity |].
  apply Z.log2_spec. lia.
Qed.

(** The text of a number with two decimals reads back as that number. *)
Lemma unsigned_part_fixed neg k d1 d0 :
  0 <= k -> 0 <= d1 <= 9 -> 0 <= d0 <= 9 ->
  unsigned_part neg
    (JsNumber.nat_numeral k +:+ "." +:+
     String (JsNumber.digit_char d1)
            (String (JsNumber.digit_char d0) EmptyString))
  = Some (JsNumber.binary64
            (if neg then Qopp (Qred ((k * 100 + d1 * 10 + d0) # 100))
             else Qred ((k * 100 + d1 * 10 + d0) # 100)),
          EmptyString).
Proof.
  intros Hk H1 H0.
  set (frac := String (JsNumber.digit_char d1)
                      (String (JsNumber.digit_char d0) EmptyString)).
  unfold JsNumber.nat_numeral.
  rewrite <- decimal_digits_append.
  destruct (numeral_fuel k Hk) as [Hf Hb].
  set (fuel := S (Z.to_nat (Z.log2 k))) in *.
  destruct (decimal_digits_head fuel k ("." +:+ frac) Hf Hk)
    as (d & tail & Hd & Ehead).
  destruct (digits_decimal_digits fuel k ("." +:+ frac) 0 0%nat Hf Hb)
    as (len & Hlen & Edigits).
  unfold unsigned_part.
  rewrite Edigits. rewrite Ehead.
  rewrite (proj2 (proj2 (digit_head_facts d tail Hd))).
  change (JsNumber.digits 10 ("." +:+ frac) (0 * 10 ^ Z.of_nat len + k)
            (0 + len)%nat)
    with (0 * 10 ^ Z.of_nat len + k, (0 + len)%nat, String "." frac).
  cbv beta iota.
  assert (Efrac : forall a,
             JsNumber.digits 10 frac a 0%nat
             = ((a * 10 + d1) * 10 + d0, 2%nat, EmptyString)).
  { intros a. unfold frac. cbn [JsNumber.digits].
    rewrite !digit_of_digit_char by lia. reflexivity. }
  rewrite Efrac. cbv beta iota.
  destruct len as [| len']; [lia |].
  cbn [Nat.add Nat.eqb andb].
  cbv beta iota.
  cbn [JsNumber.exponent].
  replace ((0 * 10 ^ Z.of_nat (S len') + k) * 10 + d1) with (k * 10 + d1)
    by lia.
  replace ((k * 10 + d1) * 10 + d0) with (k * 100 + d1 * 10 + d0) by lia.
  reflexivity.
Qed.

Lemma round_half_up_nonneg q : 0 <= Qnum q -> 0 <= JsNumber.round_half_up q.
Proof.
  intros Hq. unfold JsNumber.round_half_up. apply Z.div_pos; lia.
Qed.

Lemma two_decimals n :
  0 <= n ->
  n / 100 * 100 + (n / 10) mod 10 * 10 + n mod 10 = n
  /\ 0 <= n / 100 /\ 0 <= (n / 10) mod 10 <= 9 /\ 0 <= n mod 10 <= 9.
Proof.
  intros Hn.
  pose proof (Z.div_mod n 10 ltac:(lia)).
  pose proof (Z.mod_pos_bound n 10 ltac:(lia)).
  pose proof (Z.div_mod (n / 10) 10 ltac:(lia)).
  pose proof (Z.mod_pos_bound (n / 10) 10 ltac:(lia)).
  assert (n / 10 / 10 = n / 100) by (rewrite Z.div_div by lia; reflexivity).
  assert (0 <= n / 100) by (apply Z.div_pos; lia).
  lia.
Qed.

(** [parseFloat(x.toFixed(2))] is [x] rounded to hundredths. *)
Lemma parseFloat_toFixed2 q :
  JsNumber.parseFloat (JsNumber.toFixed2 (Fin q))
  = JsNumber.hundredths (Rounding.hundredths_of q).
Proof.
  unfold JsNumber.toFixed2, Rounding.hundredths_of, JsNumber.parseFloat.
  destruct (Qlt_le_dec q 0) as [Neg | Pos].
  - set (n := JsNumber.round_half_up (- q * 100)).
    assert (Hn : 0 <= n).
    { apply round_half_up_nonneg. destruct q as [a b]. unfold Qlt in Neg.
      cbn in Neg |- *. lia. }
    destruct (two_decimals n Hn) as (E & Hk & H1 & H0).
    change ("-" +:+ ?b) with (String "-" b).
    change (JsString.trimStart (String "-" ?b)) with (String "-" b).
    rewrite decimal_prefix_minus, unsigned_part_fixed by assumption.
    rewrite E. unfold JsNumber.hundredths. apply binary64_comp.
    rewrite Qred_correct. reflexivity.
  - set (n := JsNumber.round_half_up (q * 100)).
    assert (Hn : 0 <= n).
    { apply round_half_up_nonneg. destruct q as [a b]. unfold Qle in Pos.
      cbn in Pos |- *. lia. }
    destruct (two_decimals n Hn) as (E & Hk & H1 & H0).
    pose proof (unsigned_part_fixed false (n / 100) ((n / 10) mod 10)
                  (n mod 10) Hk H1 H0) as U.
    unfold JsNumber.nat_numeral in U |- *.
    destruct (decimal_digits_head (S (Z.to_nat (Z.log2 (n / 100)))) (n / 100)
                EmptyString ltac:(lia) Hk) as (d & tail & Hd & Ehead).
    rewrite Ehead in U |- *.
    change (String (JsNumber.digit_char d) tail +:+ ?b)
      with (String (JsNumber.digit_char d) (tail +:+ b)) in U |- *.
    destruct (digit_head_facts d (tail +:+ "." +:+
                String (JsNumber.digit_char ((n / 10) mod 10))
                  (String (JsNumber.digit_char (n mod 10)) EmptyString)) Hd)
      as (T & P & _).
    rewrite T, P, U, E. unfold JsNumber.hundredths. apply binary64_comp.
    apply Qred_correct.
Qed.

(** *** Every result is a finite number of hundredths *)

Lemma setHours_range d hour min :
  JsDate.setHours d hour min = NaN
  \/ exists z, Z.abs z <= 8640000000000000
               /\ JsDate.setHours d hour min = Fin (z # 1).
Proof.
  unfold JsDate.setHours. destruct d as [| s | tv]; try (left; reflexivity).
  destruct (JsDate.LocalTime tv); try (left; reflexivity).
  apply TimeClip_range.
Qed.

Lemma setDate_next_range d :
  JsDate.setDate_next d = NaN
  \/ exists z, Z.abs z <= 8640000000000000
               /\ JsDate.setDate_next d = Fin (z # 1).
Proof.
  unfold JsDate.setDate_next. destruct d as [| s | tv]; try (left; reflexivity).
  destruct (JsDate.LocalTime tv); try (left; reflexivity).
  apply TimeClip_range.
Qed.

Lemma Qabs_inject_Z z : Qabs (inject_Z z) = inject_Z (Z.abs z).
Proof. reflexivity. Qed.

(** A rounded number is as far from zero as what it rounds, up to the
    rounding step. *)
Lemma binary64_bounded q k b :
  0 <= k <= 1023 -> (Qabs q < JsNumber.pow2 k)%Q ->
  (Qabs q <= b)%Q ->
  exists x, JsNumber.binary64 q = Fin x
            /\ (Qabs x <= b + JsNumber.pow2 (k - 54))%Q.
Proof.
  intros Hk Hq Hb. destruct (binary64_near q k Hk Hq) as (x & E & N).
  exists x. split; [exact E |].
  setoid_replace x with ((x - q) + q)%Q using relation Qeq by ring.
  eapply Qle_trans; [apply Qabs_triangle |].
  rewrite Qplus_comm. apply Qplus_le_compat; assumption.
Qed.

(** The difference of two dates is no number or a finite one. *)
Lemma sub_range a b :
  (a = NaN \/ exists z, Z.abs z <= 8640000000000000 /\ a = Fin (z # 1)) ->
  (b = NaN \/ exists z, Z.abs z <= 8640000000000000 /\ b = Fin (z # 1)) ->
  JsDate.sub a b = NaN
  \/ exists x, JsDate.sub a b = Fin x
               /\ (Qabs x <= inject_Z 17280000000000002)%Q.
Proof.
  intros [-> | (za & Ba & ->)] [-> | (zb & Bb & ->)];
    try (left; reflexivity).
  right. unfold JsDate.sub, JsNumber.sub, JsNumber.add, JsNumber.opp.
  rewrite (binary64_comp _ (inject_Z (za - zb)))
    by (unfold Qeq, Qplus, Qopp, inject_Z; cbn [Qnum Qden]; lia).
  destruct (binary64_bounded (inject_Z (za - zb)) 55
              (inject_Z 17280000000000000) ltac:(lia)) as (x & E & B).
  - rewrite Qabs_inject_Z.
    change (JsNumber.pow2 55) with (inject_Z 36028797018963968).
    rewrite <- Zlt_Qlt. lia.
  - rewrite Qabs_inject_Z. rewrite <- Zle_Qle. lia.
  - exists x. split; [exact E |]. exact B.
Qed.

(** Dividing it by the milliseconds of an hour gives a finite number. *)
Lemma div_range x :
  (Qabs x <= inject_Z 17280000000000002)%Q ->
  exists y,
    JsNumber.div (Fin x) (JsNumber.of_Z (1000 * 60 * 60)) = Fin y
    /\ (Qabs y <= inject_Z 4800000001)%Q.
Proof.
  intros B. unfold JsNumber.div, JsNumber.of_Z. cbn [Qnum].
  change (1000 * 60 * 60 =? 0) with false. cbv iota.
  change (1000 * 60 * 60) with 3600000.
  assert (Q : (Qabs (x / (3600000 # 1)) <= 4800000000 + (1 # 2))%Q).
  { unfold Qdiv. rewrite Qabs_Qmult.
    change (Qabs (/ (3600000 # 1))) with (1 # 3600000)%Q.
    apply Qle_trans with (inject_Z 17280000000000002 * (1 # 3600000))%Q.
    - apply Qmult_le_compat_r; [exact B | discriminate].
    - unfold Qle. cbn. lia. }
  destruct (binary64_bounded (x / (3600000 # 1)) 34
              (4800000000 + (1 # 2))%Q ltac:(lia)) as (y & E & By).
  - eapply Qle_lt_trans; [exact Q |]. reflexivity.
  - exact Q.
  - exists y. split; [exact E |].
    eapply Qle_trans; [exact By |]. vm_compute. discriminate.
Qed.

Lemma round_half_up_floor q :
  JsNumber.round_half_up q = Qfloor (q + (1 # 2)).
Proof.
  destruct q as [a b]. unfold JsNumber.round_half_up, Qfloor, Qplus.
  cbn [Qnum Qden]. f_equal; lia.
Qed.

Lemma hundredths_of_comp q q' :
  q == q' -> Rounding.hundredths_of q = Rounding.hundredths_of q'.
Proof.
  intros E. unfold Rounding.hundredths_of.
  rewrite !round_half_up_floor.
  destruct (Qlt_le_dec q 0) as [L | L], (Qlt_le_dec q' 0) as [L' | L'].
  - rewrite E. reflexivity.
  - rewrite E in L. destruct (Qlt_not_le _ _ L L').
  - rewrite <- E in L'. destruct (Qlt_not_le _ _ L' L).
  - rewrite E. reflexivity.
Qed.


Lemma hundredths_of_range y :
  (Qabs y <= inject_Z 4800000001)%Q ->
  Z.abs (Rounding.hundredths_of y) <= 480000000101.
Proof.
  intros B. apply Qabs_Qle_condition in B. destruct B as [Lo Hi].
  unfold Rounding.hundredths_of. rewrite !round_half_up_floor.
  assert (F : forall t, (0 <= t)%Q -> (t <= inject_Z 480000000100 + (1 # 2))%Q ->
                        0 <= Qfloor t <= 480000000100).
  { intros t T0 T1. split.
    - change 0 with (Qfloor 0). apply Qfloor_resp_le, T0.
    - change 480000000100 with (Qfloor (inject_Z 480000000100 + (1 # 2))).
      apply Qfloor_resp_le, T1. }
  destruct (Qlt_le_dec y 0) as [Neg | Pos].
  - assert (0 <= Qfloor (- y * 100 + (1 # 2)) <= 480000000100); [| lia].
    apply F.
    + apply Qlt_le_weak in Neg. revert Neg Lo. clear.
      unfold Qle, Qplus, Qmult, Qopp, inject_Z. destruct y as [n d].
      cbn [Qnum Qden]. lia.
    + revert Neg Lo. clear.
      unfold Qle, Qlt, Qplus, Qmult, Qopp, inject_Z. destruct y as [n d].
      cbn [Qnum Qden]. lia.
  - assert (0 <= Qfloor (y * 100 + (1 # 2)) <= 480000000100); [| lia].
    apply F.
    + revert Pos Hi. clear.
      unfold Qle, Qplus, Qmult, Qopp, inject_Z. destruct y as [n d].
      cbn [Qnum Qden]. lia.
    + revert Pos Hi. clear.
      unfold Qle, Qlt, Qplus, Qmult, Qopp, inject_Z. destruct y as [n d].
      cbn [Qnum Qden]. lia.
Qed.

(** A moderate number of hundredths is a finite number. *)
Lemma hundredths_finite n :
  Z.abs n <= 480000000101 -> exists q, JsNumber.hundredths n = Fin q.
Proof.
  intros B. unfold JsNumber.hundredths.
  destruct (binary64_near (n # 100) 36 ltac:(lia)) as (x & E & _).
  - change (JsNumber.pow2 36) with (inject_Z 68719476736).
    unfold Qlt, inject_Z. cbn [Qabs Qnum Qden]. lia.
  - exists x. exact E.
Qed.

Lemma rounded_quotient_shape x :
  x = NaN
  \/ (exists q, x = Fin q /\ (Qabs q <= inject_Z 17280000000000002)%Q) ->
  JsNumber.parseFloat
    (JsNumber.toFixed2 (JsNumber.div x (JsNumber.of_Z (1000 * 60 * 60))))
  = NaN
  \/ exists n q,
      Z.abs n <= 480000000101
      /\ JsNumber.parseFloat
           (JsNumber.toFixed2
              (JsNumber.div x (JsNumber.of_Z (1000 * 60 * 60))))
         = JsNumber.hundredths n
      /\ JsNumber.hundredths n = Fin q.
Proof.
  intros [-> | (q & -> & B)]; [left; reflexivity |].
  right. destruct (div_range q B) as (y & -> & By).
  rewrite parseFloat_toFixed2.
  pose proof (hundredths_of_range y By) as Bn.
  destruct (hundredths_finite _ Bn) as (q' & E).
  exists (Rounding.hundredths_of y), q'. auto.
Qed.

(** X1.  Whatever its two arguments, [calculateWorkingHours] returns [NaN]
    or a number of hundredths, which is finite and below five thousand
    million: never an infinity, never more than two decimals.  Both
    copies. *)
Theorem calculateWorkingHours_two_decimals now punchInTime punchOutTime :
  (Main.calculateWorkingHours now punchInTime punchOutTime = NaN
   \/ exists n q,
       Z.abs n <= 480000000101
       /\ Main.calculateWorkingHours now punchInTime punchOutTime
          = JsNumber.hundredths n
       /\ JsNumber.hundredths n = Fin q)
  /\ (Alt.calculateWorkingHours now punchInTime punchOutTime = NaN
      \/ exists n q,
          Z.abs n <= 480000000101
          /\ Alt.calculateWorkingHours now punchInTime punchOutTime
             = JsNumber.hundredths n
          /\ JsNumber.hundredths n = Fin q).
Proof.
  assert (G : Main.calculateWorkingHours now punchInTime punchOutTime = NaN
              \/ exists n q,
                  Z.abs n <= 480000000101
                  /\ Main.calculateWorkingHours now punchInTime punchOutTime
                     = JsNumber.hundredths n
                  /\ JsNumber.hundredths n = Fin q).
  { assert (Z0 : exists n q : _,
               Z.abs n <= 480000000101
               /\ JsNumber.of_Z 0 = JsNumber.hundredths n
               /\ JsNumber.hundredths n = Fin q).
    { exists 0, 0%Q. split; [lia |]. split; reflexivity. }
    unfold Main.calculateWorkingHours.
    destruct punchInTime as [| | b | x | s | items | fields];
      try (right; exact Z0).
    destruct punchOutTime as [| | b | x | t | items | fields];
      try (right; exact Z0).
    cbn [JsValue.split JsValue.as_string_receiver bind try_catch].
    apply rounded_quotient_shape.
    match goal with
    | |- context [JsDate.sub (if JsDate.lt ?o ?i then _ else _) _] =>
        pose proof (sub_range (JsDate.setDate_next o) i) as S1;
        pose proof (sub_range o i) as S2;
        destruct (JsDate.lt o i)
    end.
    - destruct S1 as [-> | (x & -> & B)];
        [apply setDate_next_range | apply setHours_range | auto | eauto].
    - destruct S2 as [-> | (x & -> & B)];
        [apply setHours_range | apply setHours_range | auto | eauto]. }
  split; exact G.
Qed.

(** *** Times that are not clock times *)













End MoreHours.

(** ** More on the ledger *)

Section MoreLedger.
Context `{Platform}.

Lemma findTodayRecord_alike sheet name date :
  Ledger.dates_read_alike sheet ->
  Alt.findTodayRecord sheet name date = Main.findTodayRecord sheet name date.
Proof.
  intros A.
  rewrite Alt_findTodayRecord_scan, Main_findTodayRecord_scan. f_equal.
  apply scan_ext. intros i r L. apply Alt_matches_alike.
  specialize (A i r L). unfold Alt.dateString, Main.dateString.
  destruct (att_date r); cbn in A |- *; congruence.
Qed.

(** X6.  The row number [findTodayRecord] reports is a row of the sheet below
    the header, and it is the row of the record reported: the writes of a
    punch-out address the record that was found. *)
Theorem findTodayRecord_row_in_sheet sheet name date rec :
  Main.findTodayRecord sheet name date = Ok (Some rec) ->
  (2 <= row rec <= length sheet)%nat
  /\ exists r,
      sheet !! (row rec - 1)%nat = Some r
      /\ Ledger.is_for r name date
      /\ punchInTime rec = Main.cell_text (att_punchIn r)
      /\ punchOutTime rec = Main.cell_text (att_punchOut r).
Proof.
  intros E. pose proof (Main_findTodayRecord_spec sheet name date) as S.
  rewrite E in S. destruct S as (i & r & (L & F & _) & ->).
  rewrite records_lookup in L. cbn [row Ledger.found].
  pose proof (lookup_lt_Some _ _ _ L) as B.
  split; [lia |]. exists r.
  replace (i + 2 - 1)%nat with (S i) by lia. auto.
Qed.

Lemma cell_text_text s :
  s <> EmptyString -> Main.cell_text (CStr s) = s.
Proof. destruct s; [congruence | reflexivity]. Qed.

Lemma punched_in_facts name date time :
  time <> EmptyString ->
  Ledger.has_punchIn (Ledger.punched_in name date time) = true
  /\ Ledger.has_punchOut (Ledger.punched_in name date time) = false
  /\ Main.cell_text (att_punchIn (Ledger.punched_in name date time)) = time.
Proof.
  intros T. unfold Ledger.has_punchIn, Ledger.has_punchOut.
  cbn [Ledger.punched_in att_punchIn att_punchOut].
  rewrite (cell_text_text time T). destruct time; [congruence |].
  repeat split.
Qed.

(** The row appended to a sheet that has its header is the most recent
    record of its pair, under any spelling of the name that trims alike. *)
Lemma appended_is_most_recent sheet name name' date x :
  sheet <> [] ->
  JsString.trim name' = JsString.trim name ->
  Ledger.employee_of x = JsString.trim name ->
  Main.dateString (att_date x) = date ->
  Ledger.most_recent (sheet ++ [x]) name' date
    (length (Ledger.records sheet)) x.
Proof.
  intros Hne Tn En Ed.
  unfold Ledger.most_recent, Ledger.most_recent_by.
  rewrite (records_append sheet x Hne).
  split; [apply lookup_snoc_new |].
  split; [split; congruence |].
  intros j r' Hj L. apply lookup_lt_Some in L.
  rewrite length_app in L. cbn in L. lia.
Qed.

Lemma replace_last (sheet : list AttendanceRow) x y :
  sheet <> [] ->
  <[S (length (Ledger.records sheet)) := y]> (sheet ++ [x]) = sheet ++ [y].
Proof.
  intros Hne.
  assert (S (length (Ledger.records sheet)) = (length sheet + 0)%nat) as ->.
  { unfold Ledger.records. rewrite length_drop. destruct sheet; [congruence |].
    cbn. lia. }
  rewrite insert_app_r. reflexivity.
Qed.

(** X7.  The life of a record.  On a sheet that has its header row, once a
    punch-in has been accepted: a further punch-in for the same day under any
    spelling of the name that trims alike is refused with the time of the
    first; a punch-out is accepted, and rewrites the appended row with the
    hours from the punch-in time; after it a second punch-out is refused
    with the time of the first and a punch-in is refused still. *)
Theorem record_life now now' sheet name name' date t1 t2 t3 r1 s1 :
  sheet <> [] ->
  t1 <> EmptyString -> t2 <> EmptyString ->
  JsString.trim name' = JsString.trim name ->
  Main.processPunchIn sheet name date t1 = Ok (r1, s1) ->
  success r1 = true ->
  (exists r2,
      Main.processPunchIn s1 name' date t2 = Ok (r2, s1)
      /\ success r2 = false
      /\ JsString.includes (message r2) t1 = true)
  /\ exists r3 s2,
      Main.processPunchOut now s1 name' date t2 = Ok (r3, s2)
      /\ success r3 = true
      /\ s2 = sheet
              ++ [{| att_name := CStr name; att_date := CStr date;
                     att_punchIn := CStr t1; att_punchOut := CStr t2;
                     att_totalHours :=
                       CNum (Main.calculateWorkingHours now (VStr t1)
                               (VStr t2));
                     att_status :=
                       CStr (Ledger.status_for
                               (Main.calculateWorkingHours now (VStr t1)
                                  (VStr t2))) |}]
      /\ (exists r4,
             Main.processPunchOut now' s2 name' date t3 = Ok (r4, s2)
             /\ success r4 = false
             /\ JsString.includes (message r4) t2 = true)
      /\ (exists r5,
             Main.processPunchIn s2 name' date t3 = Ok (r5, s2)
             /\ success r5 = false
             /\ JsString.includes (message r5) t1 = true).
Proof.
  intros Hne T1 T2 Tn E1 S1.
  set (new := Ledger.punched_in name date t1).
  assert (s1 = sheet ++ [new]) as ->.
  { destruct (Main_processPunchIn_cases sheet name date t1)
      as [(i & r & _ & _ & E) | [_ E]]; rewrite E in E1.
    - injection E1 as <- <-. discriminate S1.
    - injection E1 as _ <-. reflexivity. }
  destruct (punched_in_facts name date t1 T1) as (Pin & Pout & Ptext).
  fold new in Pin, Pout, Ptext.
  pose proof (appended_is_most_recent sheet name name' date new Hne Tn
                eq_refl eq_refl) as M1.
  set (i := length (Ledger.records sheet)) in *.
  split.
  - destruct (Main_processPunchIn_cases (sheet ++ [new]) name' date t2)
      as [(i' & r' & M' & P' & E) | [[N | (i' & r' & M' & P')] E]].
    + destruct (most_recent_unique _ _ _ _ _ _ _ _ M1 M') as [<- <-].
      eexists. split; [exact E |]. split; [reflexivity |].
      rewrite Ptext. apply includes_middle.
    + destruct (most_recent_not_none _ _ _ _ _ _ M1 N).
    + destruct (most_recent_unique _ _ _ _ _ _ _ _ M1 M') as [<- <-].
      congruence.
  - destruct (Main_processPunchOut_cases now (sheet ++ [new]) name' date t2)
      as [[[N | (i' & r' & M' & P')] E]
         | [(i' & r' & M' & _ & P' & E) | (i' & r' & M' & _ & _ & E)]].
    + destruct (most_recent_not_none _ _ _ _ _ _ M1 N).
    + destruct (most_recent_unique _ _ _ _ _ _ _ _ M1 M') as [<- <-].
      congruence.
    + destruct (most_recent_unique _ _ _ _ _ _ _ _ M1 M') as [<- <-].
      congruence.
    + destruct (most_recent_unique _ _ _ _ _ _ _ _ M1 M') as [<- <-].
      unfold Ledger.hours_worked in E. rewrite Ptext in E.
      set (hours := Main.calculateWorkingHours now (VStr t1) (VStr t2)) in *.
      set (done := Ledger.punched_out new t2 hours (Ledger.status_for hours))
        in *.
      unfold i in E. rewrite (replace_last sheet new done Hne) in E.
      fold i in E.
      assert (M2 : Ledger.most_recent (sheet ++ [done]) name' date i done).
      { exact (appended_is_most_recent sheet name name' date done Hne Tn
                 eq_refl eq_refl). }
      assert (Dout : Ledger.has_punchOut done = true
                     /\ Main.cell_text (att_punchOut done) = t2).
      { unfold Ledger.has_punchOut. cbn [done Ledger.punched_out att_punchOut].
        rewrite (cell_text_text t2 T2). destruct t2; [congruence |].
        split; reflexivity. }
      destruct Dout as [Dout Dtext].
      assert (Din : Ledger.has_punchIn done = true
                    /\ Main.cell_text (att_punchIn done) = t1).
      { split; [exact Pin | exact Ptext]. }
      destruct Din as [Din Dintext].
      eexists. exists (sheet ++ [done]).
      split; [exact E |]. split; [reflexivity |]. split; [reflexivity |].
      split.
      * destruct (Main_processPunchOut_cases now' (sheet ++ [done])
                    name' date t3)
          as [[[N | (j & x & Mx & Px)] Ex]
             | [(j & x & Mx & _ & _ & Ex) | (j & x & Mx & _ & Px & Ex)]].
        -- destruct (most_recent_not_none _ _ _ _ _ _ M2 N).
        -- destruct (most_recent_unique _ _ _ _ _ _ _ _ M2 Mx) as [<- <-].
           congruence.
        -- destruct (most_recent_unique _ _ _ _ _ _ _ _ M2 Mx) as [<- <-].
           eexists. split; [exact Ex |]. split; [reflexivity |].
           rewrite Dtext. apply includes_middle.
        -- destruct (most_recent_unique _ _ _ _ _ _ _ _ M2 Mx) as [<- <-].
           congruence.
      * destruct (Main_processPunchIn_cases (sheet ++ [done]) name' date t3)
          as [(j & x & Mx & Px & Ex) | [[N | (j & x & Mx & Px)] Ex]].
        -- destruct (most_recent_unique _ _ _ _ _ _ _ _ M2 Mx) as [<- <-].
           eexists. split; [exact Ex |]. split; [reflexivity |].
           rewrite Dintext. apply includes_middle.
        -- destruct (most_recent_not_none _ _ _ _ _ _ M2 N).
        -- destruct (most_recent_unique _ _ _ _ _ _ _ _ M2 Mx) as [<- <-].
           congruence.
Qed.

(** X8.  A sheet without a header row has no memory of its first record: the
    row lands in row 1, which no lookup reads, so that a second punch-in is
    accepted as well and a punch-out finds nothing. *)
Theorem no_header_no_memory now name date time name' date' time' :
  Main.processPunchIn [] name date time
  = Ok (Main.createJsonResponse true
          ("Punch-in successful at " +:+ time +:+ ".") None,
        [Ledger.punched_in name date time])
  /\ Main.processPunchIn [Ledger.punched_in name date time] name' date' time'
     = Ok (Main.createJsonResponse true
             ("Punch-in successful at " +:+ time' +:+ ".") None,
           [Ledger.punched_in name date time;
            Ledger.punched_in name' date' time'])
  /\ Main.processPunchOut now [Ledger.punched_in name date time]
       name date time'
     = Ok (Main.createJsonResponse false
             "No punch-in record found for today. Please punch in first." None,
           [Ledger.punched_in name date time]).
Proof. repeat split. Qed.

Lemma step_keeps_rows sheet op :
  (length sheet <= length (Ledger.step sheet op) <= length sheet + 1)%nat
  /\ (forall i r,
         sheet !! i = Some r ->
         exists r',
           Ledger.step sheet op !! i = Some r'
           /\ att_name r' = att_name r /\ att_date r' = att_date r
           /\ att_punchIn r' = att_punchIn r)
  /\ (forall h, sheet !! 0%nat = Some h ->
                Ledger.step sheet op !! 0%nat = Some h).
Proof.
  destruct (step_cases sheet op)
    as [-> | [(n & d & t & _ & ->) | (i0 & r0 & t & h & s & L0 & _ & ->)]].
  - split; [lia |]. split; [| auto]. intros i r L. exists r. auto.
  - split; [rewrite length_app; cbn; lia |]. split.
    + intros i r L. exists r. split; [apply lookup_snoc_old, L | auto].
    + intros h L. apply lookup_snoc_old, L.
  - rewrite records_lookup in L0.
    split; [rewrite length_insert; lia |]. split.
    + intros i r L. destruct (decide (i = S i0)) as [-> | Hne].
      * assert (r = r0) by congruence. subst r0.
        exists (Ledger.punched_out r t h s). split; [| repeat split].
        apply list_lookup_insert_eq. eapply lookup_lt_Some, L.
      * exists r. rewrite list_lookup_insert_ne by congruence. auto.
    + intros x L. rewrite list_lookup_insert_ne by lia. exact L.
Qed.

(** X9.  No sequence of punches deletes or moves a row, touches the header, or
    rewrites the name, the date or the punch-in time of a row; the sheet
    grows by at most one row per punch. *)
Theorem punches_keep_rows ops sheet :
  (length sheet <= length (Ledger.run ops sheet)
   <= length sheet + length ops)%nat
  /\ (forall i r,
         sheet !! i = Some r ->
         exists r',
           Ledger.run ops sheet !! i = Some r'
           /\ att_name r' = att_name r /\ att_date r' = att_date r
           /\ att_punchIn r' = att_punchIn r)
  /\ (forall h, sheet !! 0%nat = Some h ->
                Ledger.run ops sheet !! 0%nat = Some h).
Proof.
  revert sheet. induction ops as [| op ops IH]; intros sheet.
  - cbn. split; [lia |]. split; [| auto]. intros i r L. exists r. auto.
  - destruct (step_keeps_rows sheet op) as (Len & Rows & Head).
    destruct (IH (Ledger.step sheet op)) as (Len' & Rows' & Head').
    change (Ledger.run (op :: ops) sheet)
      with (Ledger.run ops (Ledger.step sheet op)).
    split; [cbn [length]; lia |]. split.
    + intros i r L. destruct (Rows i r L) as (r' & L' & N & D & P).
      destruct (Rows' i r' L') as (r'' & L'' & N' & D' & P').
      exists r''. split; [exact L'' |]. split; [| split]; congruence.
    + intros h L. apply Head', Head, L.
Qed.

(** X10.  On a ledger whose date cells the two copies read alike, the two
    copies of [processPunchIn] and of [processPunchOut] make the same
    decision and leave the same sheet; only the wording of the message
    differs. *)
Theorem punch_copies_agree now sheet name date time :
  Ledger.dates_read_alike sheet ->
  (exists ra rm s,
      Alt.processPunchIn sheet name date time = Ok (ra, s)
      /\ Main.processPunchIn sheet name date time = Ok (rm, s)
      /\ success ra = success rm)
  /\ (exists ra rm s,
         Alt.processPunchOut now sheet name date time = Ok (ra, s)
         /\ Main.processPunchOut now sheet name date time = Ok (rm, s)
         /\ success ra = success rm).
Proof.
  intros A. pose proof (findTodayRecord_alike sheet name date A) as E.
  pose proof (Main_findTodayRecord_spec sheet name date) as S.
  unfold Alt.processPunchIn, Main.processPunchIn,
    Alt.processPunchOut, Main.processPunchOut.
  rewrite E.
  destruct (Main.findTodayRecord sheet name date) as [[rec |] | m];
    [| | destruct S]; cbn [bind].
  - split.
    + destruct (JsString.truthy (punchInTime rec));
        do 3 eexists; repeat split.
    + destruct (JsString.truthy (punchInTime rec)); cbn [negb];
        [| do 3 eexists; repeat split].
      destruct (JsString.truthy (punchOutTime rec));
        do 3 eexists; repeat split.
  - split; do 3 eexists; repeat split.
Qed.

End MoreLedger.

(** ** More on the directory and the entry points *)

Section MoreDirectory.
Context `{Platform}.

Lemma find_first {A : Type} (p : A -> bool) (l : list A) x :
  In x l -> p x = true -> exists y, List.find p l = Some y.
Proof.
  intros I P. destruct (List.find p l) as [y |] eqn:F; [eauto |].
  pose proof (find_none p l F x I). congruence.
Qed.

Lemma getEmployees_same store :
  Alt.getEmployees store = Main.getEmployees store.
Proof.
  unfold Alt.getEmployees, Main.getEmployees.
  destruct store as [m | ss]; cbn [Sheet.openById bind try_catch];
    [reflexivity |].
  destruct (employeeSheet ss) as [sheet |]; [| reflexivity].
  destruct (Sheet.getLastRow sheet <=? 1); [reflexivity |].
  destruct (Sheet.getValuesFromRow2 sheet (Sheet.getLastRow sheet - 1));
    reflexivity.
Qed.

(** X11.  The two copies of [getEmployees] return the same response.  When
    the employee sheet can be read the listing succeeds and holds, in sheet
    order, the name cells below the header that are not blank (none for a
    sheet with a header only, or empty); otherwise it fails and holds no
    list. *)
Theorem getEmployees_lists store :
  Alt.getEmployees store = Main.getEmployees store
  /\ match Listing.directory_sheet store with
     | Some _ =>
         success (Main.getEmployees store) = true
         /\ employees (Main.getEmployees store) = Some (Listing.names store)
     | None =>
         success (Main.getEmployees store) = false
         /\ employees (Main.getEmployees store) = None
     end.
Proof.
  unfold Alt.getEmployees, Main.getEmployees, Listing.directory_sheet,
    Listing.names, Directory.entries.
  destruct store as [m | ss]; cbn [Sheet.openById bind try_catch];
    [repeat split |].
  destruct (employeeSheet ss) as [sheet |]; [| repeat split].
  destruct (Sheet.getLastRow sheet <=? 1) eqn:C.
  - apply Z.leb_le in C.
    destruct (getValues_no_rows sheet ltac:(lia)) as [_ ->]. repeat split.
  - apply Z.leb_gt in C. rewrite getValues_below_header by lia.
    repeat split.
Qed.

(** X12.  Whoever is listed can punch: for every name of the listing the
    directory has a first row of that name, and the name validates with the
    date of birth of that row. *)
Theorem listed_employee_validates store c :
  In c (Listing.names store) ->
  exists r,
    Directory.lookupEmployee store (JsCell.toString c) = Some r
    /\ forall given,
        JsString.trim given = Directory.normalized_dob Main.TIMEZONE r ->
        Main.validateEmployee store (VStr (JsCell.toString c)) (VStr given)
        = true.
Proof.
  intros I. unfold Listing.names in I. apply filter_In in I.
  destruct I as [I N]. apply in_map_iff in I. destruct I as (r0 & <- & I).
  unfold Listing.nonblank in N. apply andb_true_iff in N. destruct N as [T _].
  assert (P : Directory.is_named (JsCell.toString (emp_name r0)) r0 = true).
  { unfold Directory.is_named, Directory.trimmed_name.
    rewrite T, String.eqb_refl. reflexivity. }
  destruct (find_first _ _ r0 I P) as (r & F).
  exists r. split; [exact F |].
  intros given E. rewrite Main_validateEmployee_strings.
  unfold Directory.lookupEmployee in F |- *. rewrite F.
  apply String.eqb_eq. congruence.
Qed.

(** X13.  Whoever can punch under a name that is not blank is listed: the
    listing holds a cell whose trimmed text is the trimmed name. *)
Theorem validated_employee_is_listed store name dob :
  Main.validateEmployee store (VStr name) (VStr dob) = true ->
  JsString.trim name <> EmptyString ->
  exists c,
    In c (Listing.names store)
    /\ JsString.trim (JsCell.toString c) = JsString.trim name.
Proof.
  intros V B. rewrite Main_validateEmployee_strings in V.
  destruct (Directory.lookupEmployee store name) as [r |] eqn:L;
    [| discriminate V].
  apply find_some in L. destruct L as [I N].
  unfold Directory.is_named, Directory.trimmed_name in N.
  apply andb_true_iff in N. destruct N as [T E]. apply String.eqb_eq in E.
  exists (emp_name r). split; [| exact E].
  unfold Listing.names. apply filter_In. split.
  - apply in_map, I.
  - unfold Listing.nonblank. rewrite T, E. cbn [andb].
    apply negb_true_iff, String.eqb_neq, B.
Qed.

Lemma Alt_findTodayRecord_total sheet name date :
  exists found, Alt.findTodayRecord sheet name date = Ok found.
Proof. rewrite Alt_findTodayRecord_scan. eauto. Qed.

Lemma Main_findTodayRecord_total sheet name date :
  exists found, Main.findTodayRecord sheet name date = Ok found.
Proof. rewrite Main_findTodayRecord_scan. eauto. Qed.

(** What a punch does to the store: nothing, or a new attendance sheet
    beside the employee sheet it had. *)
Lemma processPunch_store store now name dob punchType :
  snd (Main.processPunch store now name dob punchType) = store
  \/ exists ss sheet',
      store = Reachable ss
      /\ snd (Main.processPunch store now name dob punchType)
         = Reachable {| employeeSheet := employeeSheet ss;
                        attendanceSheet := Some sheet' |}.
Proof.
  unfold Main.processPunch.
  destruct (negb (JsValue.truthy name) || negb (JsValue.truthy dob)
            || negb (JsValue.truthy punchType)); [left; reflexivity |].
  destruct (negb (JsValue.is_string punchType "in")
            && negb (JsValue.is_string punchType "out"));
    [left; reflexivity |].
  destruct (negb (Main.validateEmployee store name dob));
    [left; reflexivity |].
  destruct store as [m | ss]; cbn [Sheet.openById bind try_catch];
    [left; reflexivity |].
  destruct (attendanceSheet ss) as [sheet |]; [| left; reflexivity].
  destruct (JsValue.as_string_receiver name "trim") as [n | m];
    cbn [bind try_catch]; [| left; reflexivity].
  destruct (if JsValue.is_string punchType "in"
            then Main.processPunchIn sheet n
                   (Utilities_formatDate now Main.TIMEZONE "yyyy-MM-dd")
                   (Utilities_formatDate now Main.TIMEZONE "HH:mm")
            else Main.processPunchOut now sheet n
                   (Utilities_formatDate now Main.TIMEZONE "yyyy-MM-dd")
                   (Utilities_formatDate now Main.TIMEZONE "HH:mm"))
    as [outcome | m]; cbn [bind try_catch snd]; [| left; reflexivity].
  right. eauto.
Qed.

Lemma doPost_store store now e :
  snd (Main.doPost store now e) = store
  \/ exists ss sheet',
      store = Reachable ss
      /\ snd (Main.doPost store now e)
         = Reachable {| employeeSheet := employeeSheet ss;
                        attendanceSheet := Some sheet' |}.
Proof.
  unfold Main.doPost.
  destruct (JsValue.get e "postData") as [postData | m];
    cbn [bind try_catch]; [| left; reflexivity].
  destruct (JsValue.get postData "contents") as [contents | m];
    cbn [bind try_catch]; [| left; reflexivity].
  destruct (JSON_parse contents) as [body | m];
    cbn [bind try_catch]; [| left; reflexivity].
  destruct (JsValue.get body "action") as [action | m];
    cbn [bind try_catch]; [| left; reflexivity].
  destruct (JsValue.is_string action "punch"); [| left; reflexivity].
  destruct (JsValue.get body "employeeName") as [name | m];
    cbn [bind try_catch]; [| left; reflexivity].
  destruct (JsValue.get body "dateOfBirth") as [dob | m];
    cbn [bind try_catch]; [| left; reflexivity].
  destruct (JsValue.get body "punchType") as [punchType | m];
    cbn [bind try_catch]; [| left; reflexivity].
  apply processPunch_store.
Qed.

Lemma validateEmployee_same_directory store store' name dob :
  Sheet.openById store' = Sheet.openById store
  \/ (exists ss ss', store = Reachable ss /\ store' = Reachable ss'
                     /\ employeeSheet ss' = employeeSheet ss) ->
  Main.validateEmployee store' name dob = Main.validateEmployee store name dob.
Proof.
  unfold Main.validateEmployee.
  intros [E | (ss & ss' & -> & -> & E)]; [rewrite E; reflexivity |].
  cbn [Sheet.openById bind]. rewrite E. reflexivity.
Qed.

(** X14.  The directory is read-only: whatever POST events are served, in
    whatever number, the employee sheet is the one the store had, a store
    that could not be opened stays so, and [validateEmployee] and the listing
    answer as before. *)
Theorem directory_untouched events store :
  Listing.directory_sheet (Listing.serve store events)
  = Listing.directory_sheet store
  /\ (forall m, store = Unreachable m ->
                Listing.serve store events = Unreachable m)
  /\ (forall name dob,
         Main.validateEmployee (Listing.serve store events) name dob
         = Main.validateEmployee store name dob)
  /\ Main.getEmployees (Listing.serve store events) = Main.getEmployees store.
Proof.
  revert store. induction events as [| [now e] events IH]; intros store.
  - cbn. repeat split; intros; subst; reflexivity.
  - change (Listing.serve store ((now, e) :: events))
      with (Listing.serve (snd (Main.doPost store now e)) events).
    destruct (doPost_store store now e) as [E | (ss & sheet' & -> & E)];
      rewrite E; [apply IH |].
    match goal with
    | |- context [Listing.serve ?s events] =>
        destruct (IH s) as (D & U & V & G)
    end.
    split; [exact D |]. split; [| split].
    + intros m Em. discriminate Em.
    + intros name dob. rewrite V.
      apply validateEmployee_same_directory. right.
      do 2 eexists. repeat split.
    + rewrite G. reflexivity.
Qed.

(** X15.  The order of the refusals of [processPunch], none of which changes
    the store.  A field that is missing or falsy is reported first, whatever
    the store; then a punch type other than [in] and [out]; then, for a
    well-formed request, an employee sheet that cannot be read gives the
    generic refusal and not a server error, since [validateEmployee] answers
    no to every failure.  A missing attendance sheet is reported for an
    employee who validated, and for no one else: a request that does not
    validate gets one of the three refusals before it, whatever the
    store. *)
Theorem processPunch_refusals store now name dob punchType :
  (JsValue.truthy name = false \/ JsValue.truthy dob = false
   \/ JsValue.truthy punchType = false ->
   Main.processPunch store now name dob punchType
   = (Main.createJsonResponse false "Missing required parameters." None,
      store))
  /\ (JsValue.truthy name = true -> JsValue.truthy dob = true ->
      JsValue.truthy punchType = true ->
      punchType <> VStr "in" -> punchType <> VStr "out" ->
      Main.processPunch store now name dob punchType
      = (Main.createJsonResponse false "Invalid punch type." None, store))
  /\ (JsValue.truthy name = true -> JsValue.truthy dob = true ->
      punchType = VStr "in" \/ punchType = VStr "out" ->
      Listing.directory_sheet store = None ->
      Main.processPunch store now name dob punchType
      = (Main.createJsonResponse false Directory.generic_refusal None, store))
  /\ (forall ss,
         JsValue.truthy name = true -> JsValue.truthy dob = true ->
         punchType = VStr "in" \/ punchType = VStr "out" ->
         Main.validateEmployee store name dob = true ->
         store = Reachable ss -> attendanceSheet ss = None ->
         Main.processPunch store now name dob punchType
         = (Main.createJsonResponse false
              ("Error processing punch: Sheet " +:+ dquote
               +:+ "Attendance Log" +:+ dquote +:+ " not found.") None,
            store))
  /\ (Main.validateEmployee store name dob = false ->
      Main.processPunch store now name dob punchType
      = (Main.createJsonResponse false "Missing required parameters." None,
         store)
      \/ Main.processPunch store now name dob punchType
         = (Main.createJsonResponse false "Invalid punch type." None, store)
      \/ Main.processPunch store now name dob punchType
         = (Main.createJsonResponse false Directory.generic_refusal None,
            store)).
Proof.
  split; [| split; [| split; [| split]]].
  - intros F. unfold Main.processPunch.
    assert (negb (JsValue.truthy name) || negb (JsValue.truthy dob)
            || negb (JsValue.truthy punchType) = true) as ->.
    { destruct (JsValue.truthy name), (JsValue.truthy dob),
        (JsValue.truthy punchType); try reflexivity.
      destruct F as [F | [F | F]]; discriminate F. }
    reflexivity.
  - intros Tn Td Tt Nin Nout. unfold Main.processPunch.
    rewrite Tn, Td, Tt. cbn [negb orb].
    assert (JsValue.is_string punchType "in" = false) as ->.
    { destruct punchType; try reflexivity. cbn.
      apply String.eqb_neq. congruence. }
    assert (JsValue.is_string punchType "out" = false) as ->.
    { destruct punchType; try reflexivity. cbn.
      apply String.eqb_neq. congruence. }
    reflexivity.
  - intros Tn Td Pt D. unfold Main.processPunch.
    rewrite Tn, Td.
    assert (JsValue.truthy punchType = true) as ->
        by (destruct Pt; subst; reflexivity).
    cbn [negb orb].
    assert (negb (JsValue.is_string punchType "in")
            && negb (JsValue.is_string punchType "out") = false) as ->
        by (destruct Pt; subst; reflexivity).
    assert (Main.validateEmployee store name dob = false) as ->.
    { unfold Main.validateEmployee, Listing.directory_sheet in *.
      destruct store as [m | ss]; [reflexivity |].
      cbn [Sheet.openById bind]. rewrite D. reflexivity. }
    reflexivity.
  - intros ss Tn Td Pt V -> A. unfold Main.processPunch.
    rewrite Tn, Td, V.
    assert (JsValue.truthy punchType = true) as ->
        by (destruct Pt; subst; reflexivity).
    cbn [negb orb].
    assert (negb (JsValue.is_string punchType "in")
            && negb (JsValue.is_string punchType "out") = false) as ->
        by (destruct Pt; subst; reflexivity).
    cbn [Sheet.openById bind]. rewrite A. reflexivity.
  - intros V. unfold Main.processPunch. rewrite V.
    destruct (negb (JsValue.truthy name) || negb (JsValue.truthy dob)
              || negb (JsValue.truthy punchType)); [left; reflexivity |].
    destruct (negb (JsValue.is_string punchType "in")
              && negb (JsValue.is_string punchType "out"));
      [right; left; reflexivity | right; right; reflexivity].
Qed.

Lemma Alt_processPunch_envelope store now name dob punchType :
  data (fst (Alt.processPunch store now name dob punchType)) = None
  /\ employees (fst (Alt.processPunch store now name dob punchType)) = None
  /\ (success (fst (Alt.processPunch store now name dob punchType)) = false ->
      JsString.truthy
        (message (fst (Alt.processPunch store now name dob punchType)))
      = true
      /\ snd (Alt.processPunch store now name dob punchType) = store).
Proof.
  unfold Alt.processPunch.
  destruct (negb (JsValue.truthy name) || negb (JsValue.truthy dob)
            || negb (JsValue.truthy punchType)).
  { cbn. repeat split; discriminate. }
  destruct (negb (JsValue.is_string punchType "in")
            && negb (JsValue.is_string punchType "out")).
  { cbn. repeat split; discriminate. }
  destruct (negb (Alt.validateEmployee store name dob)).
  { cbn. repeat split; discriminate. }
  destruct store as [m | ss]; cbn [Sheet.openById bind try_catch];
    [cbn; repeat split; discriminate |].
  destruct (attendanceSheet ss) as [sheet |] eqn:As;
    [| cbn; repeat split; discriminate].
  destruct (JsValue.as_string_receiver name "trim") as [n | m];
    cbn [bind try_catch]; [| cbn; repeat split; discriminate].
  unfold Alt.processPunchIn, Alt.processPunchOut.
  rewrite Alt_findTodayRecord_scan. cbn [bind].
  destruct (Checks.scan _ _ _) as [rec |];
    destruct (JsValue.is_string punchType "in");
    try destruct (JsString.truthy (punchInTime rec));
    try destruct (JsString.truthy (punchOutTime rec));
    cbn [negb bind try_catch fst snd];
    try rewrite (same_spreadsheet ss sheet As);
    cbn; repeat split; discriminate.
Qed.

(** X16.  The entry points of the second copy.  An event that is missing, or
    whose parameter map (for a GET), post data or body (for a POST) is
    missing or falsy, is answered by a fixed message, where the first copy
    answers by the text of the exception.  Every response has a success flag
    and a message, a failure has a message that is not empty and leaves the
    store as it was, and [doGet] succeeds and lists on the events and stores
    on which the first copy does. *)
Theorem Alt_entry_points_guarded store now e :
  (JsValue.truthy e = false ->
   Alt.doGet store e = Listing.not_from_the_web
   /\ Alt.doPost store now e = (Listing.no_data_received, store))
  /\ (forall p, JsValue.get e "parameter" = Ok p -> JsValue.truthy p = false ->
                Alt.doGet store e = Listing.not_from_the_web)
  /\ (forall p, JsValue.get e "postData" = Ok p ->
                JsValue.truthy p = false
                \/ (exists c, JsValue.get p "contents" = Ok c
                              /\ JsValue.truthy c = false) ->
                Alt.doPost store now e = (Listing.no_data_received, store))
  /\ success (Alt.doGet store e) = success (Main.doGet store e)
  /\ employees (Alt.doGet store e) = employees (Main.doGet store e)
  /\ data (Alt.doGet store e) = None
  /\ (success (Alt.doGet store e) = false ->
      JsString.truthy (message (Alt.doGet store e)) = true)
  /\ data (fst (Alt.doPost store now e)) = None
  /\ employees (fst (Alt.doPost store now e)) = None
  /\ (success (fst (Alt.doPost store now e)) = false ->
      JsString.truthy (message (fst (Alt.doPost store now e))) = true
      /\ snd (Alt.doPost store now e) = store).
Proof.
  assert (G : forall v k, JsValue.truthy v = true ->
                          exists w, JsValue.get v k = Ok w).
  { intros v k T. destruct v; try discriminate T; cbn; eauto. }
  split; [| split; [| split]].
  - intros F. unfold Alt.doGet, Alt.doPost. rewrite F. split; reflexivity.
  - intros p Ep F. unfold Alt.doGet.
    destruct (JsValue.truthy e); [| reflexivity]. cbn [negb].
    rewrite Ep. cbn [bind]. rewrite F. reflexivity.
  - intros p Ep F. unfold Alt.doPost.
    destruct (JsValue.truthy e); [| reflexivity]. cbn [negb].
    rewrite Ep. cbn [bind].
    destruct (JsValue.truthy p) eqn:Tp; [| reflexivity]. cbn [negb].
    destruct F as [F | (c & Ec & F)]; [discriminate F |].
    rewrite Ec. cbn [bind]. rewrite F. reflexivity.
  - assert (GE : success (Alt.doGet store e) = success (Main.doGet store e)
                 /\ employees (Alt.doGet store e)
                    = employees (Main.doGet store e)
                 /\ data (Alt.doGet store e) = None
                 /\ (success (Alt.doGet store e) = false ->
                     JsString.truthy (message (Alt.doGet store e)) = true)).
    { pose proof (getEmployees_same store) as EQ.
      destruct (getEmployees_envelope store) as (D & _ & F).
      unfold Alt.doGet, Main.doGet.
      destruct (JsValue.truthy e) eqn:Te; cbn [negb].
      2:{ destruct e; try discriminate Te; cbn; repeat split. }
      destruct (G e "parameter" Te) as (p & ->). cbn [bind].
      destruct (JsValue.truthy p) eqn:Tp; cbn [negb].
      2:{ destruct p; try discriminate Tp; cbn; repeat split. }
      destruct (G p "action" Tp) as (a & ->). cbn [bind].
      destruct (JsValue.is_string a "getEmployees"); cbn [try_catch];
        [| repeat split].
      rewrite EQ. repeat split; [exact D | intros S; exact (proj1 (F S))]. }
    destruct GE as (G1 & G2 & G3 & G4).
    repeat (split; [assumption |]).
    unfold Alt.doPost.
    destruct (JsValue.truthy e) eqn:Te; cbn [negb];
      [| cbn; repeat split; discriminate].
    destruct (G e "postData" Te) as (p & ->). cbn [bind].
    destruct (JsValue.truthy p) eqn:Tp; cbn [negb];
      [| cbn; repeat split; discriminate].
    destruct (G p "contents" Tp) as (c & ->). cbn [bind].
    destruct (JsValue.truthy c) eqn:Tc; cbn [negb];
      [| cbn; repeat split; discriminate].
    destruct (JSON_parse c) as [body | m]; cbn [bind try_catch];
      [| cbn; repeat split; discriminate].
    destruct (JsValue.get body "action") as [action | m];
      cbn [bind try_catch]; [| cbn; repeat split; discriminate].
    destruct (JsValue.is_string action "punch");
      [| cbn; repeat split; discriminate].
    destruct (JsValue.get body "employeeName") as [name | m];
      cbn [bind try_catch]; [| cbn; repeat split; discriminate].
    destruct (JsValue.get body "dateOfBirth") as [dob | m];
      cbn [bind try_catch]; [| cbn; repeat split; discriminate].
    destruct (JsValue.get body "punchType") as [punchType | m];
      cbn [bind try_catch]; [| cbn; repeat split; discriminate].
    apply Alt_processPunch_envelope.
Qed.

Lemma validate_loops_alike rows name dob :
  (forall r, In r rows ->
             Directory.normalized_dob Alt.TIMEZONE r
             = Directory.normalized_dob Main.TIMEZONE r) ->
  Alt.validateEmployee_loop rows name dob
  = Main.validateEmployee_loop rows name dob.
Proof.
  induction rows as [| r rows IH]; intros A; [reflexivity |].
  cbn [Alt.validateEmployee_loop Main.validateEmployee_loop].
  rewrite IH by (intros r' I; apply A; right; exact I).
  pose proof (A r (or_introl eq_refl)) as E.
  unfold Directory.normalized_dob in E.
  destruct (JsCell.truthy (emp_name r)); [| reflexivity].
  destruct (JsValue.trim name) as [wanted | m]; cbn [bind]; [| reflexivity].
  destruct (String.eqb _ wanted); [| reflexivity].
  destruct (JsValue.trim dob) as [given | m]; cbn [bind]; [| reflexivity].
  destruct (emp_dob r); try reflexivity. cbn in E. rewrite E. reflexivity.
Qed.

(** X17.  When the two copies read the dates of birth of the directory alike
    (as they do when no cell of that column is a date, or when their time
    zones format dates alike), they validate the same requests, texts or
    not: the guard of the second copy on a sheet without rows answers what
    the exception of the first one answers. *)
Theorem validateEmployee_copies_agree store name dob :
  Listing.dobs_read_alike store ->
  Alt.validateEmployee store name dob = Main.validateEmployee store name dob.
Proof.
  intros A. unfold Listing.dobs_read_alike, Directory.entries in A.
  unfold Alt.validateEmployee, Main.validateEmployee.
  destruct store as [m | ss]; [reflexivity |]. cbn [Sheet.openById bind].
  destruct (employeeSheet ss) as [sheet |]; [| reflexivity].
  destruct (Sheet.getLastRow sheet <=? 1) eqn:C.
  - apply Z.leb_le in C.
    destruct (getValues_no_rows sheet ltac:(lia)) as [(m & ->) _]. reflexivity.
  - apply Z.leb_gt in C. rewrite getValues_below_header by lia.
    cbn [bind]. rewrite (validate_loops_alike _ name dob A). reflexivity.
Qed.

End MoreDirectory.

(** ** Further instances *)

Lemma one_open_read_alike :
  @Ledger.dates_read_alike Sample.platform Examples.one_open.
Proof.
  intros i r L. destruct i as [| i]; [| discriminate L].
  injection L as <-. reflexivity.
Defined.

Lemma office_dobs_read_alike :
  @Listing.dobs_read_alike Sample.platform
    (Examples.office [Examples.attendance_header]).
Proof.
  intros r I. cbn in I.
  destruct I as [<- | [<- | [<- | [<- | []]]]]; reflexivity.
Defined.





(** X6: the open record of [Examples.one_open] is on row 2. *)
Lemma findTodayRecord_row_in_sheet_witness :
  exists r,
    Examples.one_open !! 1%nat = Some r
    /\ @Ledger.is_for Sample.platform r "Jane Smith" "2024-01-15".
Proof.
  destruct (@findTodayRecord_row_in_sheet Sample.platform Examples.one_open
              "Jane Smith" "2024-01-15"
              {| row := 2; punchInTime := "09:00";
                 punchOutTime := EmptyString |} eq_refl)
    as [_ (r & L & F & _)].
  exists r. split; assumption.
Defined.

(** X7: Jane Smith punches in at 09:00 on an empty ledger; a second
    punch-in, with spaces around her name, is refused. *)
Lemma record_life_witness :
  exists r2,
    @Main.processPunchIn Sample.platform Examples.one_open
      " Jane Smith " "2024-01-15" "17:15" = Ok (r2, Examples.one_open)
    /\ success r2 = false
    /\ JsString.includes (message r2) "09:00" = true.
Proof.
  refine (proj1 (@record_life Sample.platform
                   Examples.nine_o_clock Examples.nine_o_clock
                   [Examples.attendance_header]
                   "Jane Smith" " Jane Smith " "2024-01-15"
                   "09:00" "17:15" "18:00"
                   (Main.createJsonResponse true
                      "Punch-in successful at 09:00." None)
                   Examples.one_open _ _ _ eq_refl eq_refl eq_refl));
    discriminate.
Defined.

(** X10: the two copies on [Examples.one_open]. *)
Lemma punch_copies_agree_witness :
  exists ra rm s,
    @Alt.processPunchIn Sample.platform Examples.one_open
      "Jane Smith" "2024-01-15" "17:15" = Ok (ra, s)
    /\ @Main.processPunchIn Sample.platform Examples.one_open
         "Jane Smith" "2024-01-15" "17:15" = Ok (rm, s)
    /\ success ra = success rm.
Proof.
  exact (proj1 (@punch_copies_agree Sample.platform Examples.nine_o_clock
                  Examples.one_open "Jane Smith" "2024-01-15" "17:15"
                  one_open_read_alike)).
Defined.

(** X12: Jane Smith is listed, and validates. *)
Lemma listed_employee_validates_witness :
  exists r,
    @Directory.lookupEmployee Sample.platform
      (Examples.office [Examples.attendance_header]) "Jane Smith" = Some r
    /\ forall given,
        JsString.trim given = @Directory.normalized_dob Sample.platform
                                Main.TIMEZONE r ->
        @Main.validateEmployee Sample.platform
          (Examples.office [Examples.attendance_header])
          (VStr "Jane Smith") (VStr given) = true.
Proof.
  refine (@listed_employee_validates Sample.platform
            (Examples.office [Examples.attendance_header])
            (CStr "Jane Smith") _).
  right. left. reflexivity.
Defined.

(** X13: Jane Smith validates, and is listed. *)
Lemma validated_employee_is_listed_witness :
  exists c,
    In c (@Listing.names Sample.platform
            (Examples.office [Examples.attendance_header]))
    /\ JsString.trim (@JsCell.toString Sample.platform c)
       = JsString.trim "Jane Smith".
Proof.
  refine (@validated_employee_is_listed Sample.platform
            (Examples.office [Examples.attendance_header])
            "Jane Smith" "1990-07-22" eq_refl _).
  vm_compute. discriminate.
Defined.

(** X17: the two copies on the directory of [Examples.office]. *)
Lemma validateEmployee_copies_agree_witness :
  @Alt.validateEmployee Sample.platform
    (Examples.office [Examples.attendance_header])
    (VStr "Jane Smith") (VStr "1990-07-22")
  = @Main.validateEmployee Sample.platform
      (Examples.office [Examples.attendance_header])
      (VStr "Jane Smith") (VStr "1990-07-22").
Proof.
  exact (@validateEmployee_copies_agree Sample.platform
           (Examples.office [Examples.attendance_header])
           (VStr "Jane Smith") (VStr "1990-07-22") office_dobs_read_alike).
Defined.
